(** * TUV-x delta-Eddington two-stream solver: a shallow embedding

    The development follows
    [include/tuvx/radiative_transfer/solvers/delta_eddington.hh] and
    [include/tuvx/radiative_transfer/solvers/solve.hh].

    The solver is a set of function templates over a numeric type [T].
    The embedding keeps that shape: every function is written over a type
    [T] with the arithmetic the source uses (class [Scalar]) and, where the
    source calls [<cmath>], the elementary functions (class [Elementary]).
    Two instances are given: the rationals, on which the arithmetic-only
    functions evaluate, and the real numbers.

    Failure is explicit.  [std::map::at] on a missing key throws
    [std::out_of_range]; [assert] aborts; indexing a vector past its end,
    [front()]/[back()] on an empty vector and signed overflow are undefined
    behaviour.  The three are the constructors of [fault]. *)

From Stdlib Require Import ZArith List Lia QArith Reals Lra.
From stdpp Require Import base gmap strings list.

Local Open Scope Z_scope.

(** ** The numeric type [T] *)

Class Scalar (T : Type) := {
  of_int : Z -> T;          (* an [int] literal or value converted to [T] *)
  one_half : T;                 (* the literal [(T)0.5] *)
  add : T -> T -> T;
  sub : T -> T -> T;
  mul : T -> T -> T;
  div : T -> T -> T;
  neg : T -> T
}.

Class Elementary (T : Type) := {
  M_PI : T;
  std_acos : T -> T;
  std_exp : T -> T;
  std_sqrt : T -> T
}.

Declare Scope scalar_scope.
Delimit Scope scalar_scope with T.
Infix "+" := add : scalar_scope.
Infix "-" := sub : scalar_scope.
Infix "*" := mul : scalar_scope.
Infix "/" := div : scalar_scope.
Notation "- x" := (neg x) : scalar_scope.

#[export] Instance Q_Scalar : Scalar Q := {
  of_int := inject_Z;
  one_half := (1 # 2)%Q;
  add := Qplus; sub := Qminus; mul := Qmult; div := Qdiv; neg := Qopp
}.

#[export] Instance R_Scalar : Scalar R := {
  of_int := IZR;
  one_half := (1 / 2)%R;
  add := Rplus; sub := Rminus; mul := Rmult; div := Rdiv; neg := Ropp
}.

#[export] Instance R_Elementary : Elementary R := {
  M_PI := PI;
  std_acos := acos;
  std_exp := exp;
  std_sqrt := sqrt
}.

(** ** Faults and the result monad *)

Inductive fault : Set :=
  | OutOfRange      (* std::map::at on a key that is absent *)
  | AssertFailed    (* a failed assert *)
  | Undefined.      (* undefined behaviour *)

Inductive result (A : Type) : Type :=
  | Ok (a : A)
  | Fault (f : fault).
Arguments Ok {A} a.
Arguments Fault {A} f.

#[export] Instance result_ret : MRet result := fun A a => Ok a.
#[export] Instance result_bind : MBind result := fun A B k r =>
  match r with
  | Ok a => k a
  | Fault f => Fault f
  end.

Definition assert (b : bool) : result unit :=
  if b then Ok tt else Fault AssertFailed.

(** ** std::size_t and int *)

Definition SIZE_MAX : Z := 2 ^ 64 - 1.
Definition INT_MAX : Z := 2 ^ 31 - 1.

(** Unsigned arithmetic on [std::size_t] wraps modulo [2^64]. *)
Definition size_t (z : Z) : Z := z mod 2 ^ 64.

(** ** Loops

    [for (n = start; n < bound; n += step) body], with the state threaded
    through the body.  The fuel is an upper bound on the number of
    iterations; [iterations] gives one that always suffices. *)

Fixpoint for_loop {S : Type} (fuel : nat) (n bound step : Z)
    (body : Z -> S -> result S) (s : S) : result S :=
  match fuel with
  | O => Ok s
  | Datatypes.S fuel' =>
      if n <? bound
      then s' ← body n s; for_loop fuel' (n + step) bound step body s'
      else Ok s
  end.

Definition iterations (start bound : Z) : nat := Z.to_nat (bound - start).

Definition for_ {S : Type} (start bound step : Z)
    (body : Z -> S -> result S) (s : S) : result S :=
  for_loop (iterations start bound) start bound step body s.

(** ** Vectors and string-keyed maps *)

(** [v[i]]: reading past the end is undefined behaviour. *)
Definition vec_get {V : Type} (v : list V) (i : Z) : result V :=
  match v !! Z.to_nat i with
  | Some x => Ok x
  | None => Fault Undefined
  end.

(** [v[i] = x] *)
Definition vec_set {V : Type} (v : list V) (i : Z) (x : V) : result (list V) :=
  if (Z.to_nat i <? length v)%nat
  then Ok (<[Z.to_nat i := x]> v)
  else Fault Undefined.

(** [v.front()] and [v.back()], read and written; undefined on an empty
    vector. *)
Definition front {V : Type} (v : list V) : result V := vec_get v 0.

Definition back {V : Type} (v : list V) : result V :=
  match v with
  | [] => Fault Undefined
  | _ => vec_get v (Z.of_nat (length v) - 1)
  end.

Definition set_front {V : Type} (v : list V) (x : V) : result (list V) :=
  vec_set v 0 x.

Definition set_back {V : Type} (v : list V) (x : V) : result (list V) :=
  match v with
  | [] => Fault Undefined
  | _ => vec_set v (Z.of_nat (length v) - 1) x
  end.

(** [m.at(key)] *)
Definition map_at {V : Type} (m : gmap string V) (key : string) : result V :=
  match m !! key with
  | Some x => Ok x
  | None => Fault OutOfRange
  end.

(** A reference [auto& a = m.at(key)] is modelled by its key: [a[i]] and
    [a[i] = x] go through the map, so that two references bound to one key
    alias. *)
Definition rd {V : Type} (m : gmap string (list V)) (key : string) (i : Z)
    : result V :=
  v ← map_at m key; vec_get v i.

Definition wr {V : Type} (m : gmap string (list V)) (key : string) (i : Z)
    (x : V) : result (gmap string (list V)) :=
  v ← map_at m key; v' ← vec_set v i x; Ok (<[key := v']> m).

Infix "@" := vec_get (at level 20, no associativity).

(** ** Data model

    [ArrayPolicy], [std::vector<T>] and the arrays of the radiation field
    are indexed sequences of [T]: lists.  The headers that declare
    [RadiatorState], [RadiationField], [Array2D], [TridiagonalMatrix] and the
    grids are not part of the two solver files; the records below have the
    members the solver names. *)

Section DataModel.
Context {T : Type}.

Record RadiatorState := {
  optical_depth_ : list T;
  single_scattering_albedo_ : list T;
  assymetry_parameter_ : list T
}.

Record RadiationFieldComponents := {
  direct_ : list T;
  upwelling_ : list T;
  downwelling_ : list T
}.

Record RadiationField := {
  spectral_irradiance_ : RadiationFieldComponents;
  actinic_flux_ : RadiationFieldComponents
}.

Record TridiagonalMatrix := {
  upper_diagonal_ : list T;
  main_diagonal_ : list T;
  lower_diagonal_ : list T
}.
End DataModel.
Arguments RadiatorState T : clear implicits.
Arguments RadiationFieldComponents T : clear implicits.
Arguments RadiationField T : clear implicits.
Arguments TridiagonalMatrix T : clear implicits.

Record Grid := { NumberOfColumns : Z }.

Definition Array2D (T : Type) : Type := list (list T).

(** ** ComputeRadiationField (delta_eddington.hh, lines 234-273) *)

Section RadiationFieldReconstruction.
Context {T : Type} `{Scalar T}.

(** [for (auto& elem : a) { elem = offset++; }] with [int offset]:
    incrementing [INT_MAX] is signed overflow. *)
Fixpoint fill_from (offset : Z) (a : list T) : result (list T) :=
  match a with
  | [] => Ok []
  | _ :: a' =>
      if offset <? INT_MAX
      then a'' ← fill_from (offset + 1) a'; Ok (of_int offset :: a'')
      else Fault Undefined
  end.

Definition ComputeRadiationField {GridPolicy ProfilePolicy : Type}
    (solar_zenith_angles : list T)
    (grids : gmap string GridPolicy)
    (profiles : gmap string ProfilePolicy)
    (solution_parameters : Array2D T)
    (radiation_field : RadiationField T) : result (RadiationField T) :=
  let irradiance := spectral_irradiance_ radiation_field in
  let actinic := actinic_flux_ radiation_field in
  i_direct ← fill_from 42 (direct_ irradiance);
  i_up ← fill_from 93 (upwelling_ irradiance);
  i_down ← fill_from 52 (downwelling_ irradiance);
  a_direct ← fill_from 5 (direct_ actinic);
  a_up ← fill_from 24 (upwelling_ actinic);
  a_down ← fill_from 97 (downwelling_ actinic);
  Ok {| spectral_irradiance_ :=
          {| direct_ := i_direct; upwelling_ := i_up; downwelling_ := i_down |};
        actinic_flux_ :=
          {| direct_ := a_direct; upwelling_ := a_up; downwelling_ := a_down |} |}.
End RadiationFieldReconstruction.

(** ** DeltaEddingtonApproximation (delta_eddington.hh, lines 13-45) *)

Section ParameterDerivation.
Context {T : Type} `{Scalar T} `{Elementary T}.
Local Open Scope scalar_scope.

Local Abbreviation lit := of_int.

(** [a = x] where [a] refers to a vector of the map and [x] is a scalar:
    the source writes [mu = (T)0.5].  The vector is overwritten by the
    scalar in every component. *)
Definition assign_scalar (m : gmap string (list T)) (key : string) (x : T)
    : result (gmap string (list T)) :=
  v ← map_at m key; Ok (<[key := replicate (length v) x]> m).

(** The statements of one loop iteration up to and including the two
    square roots (lines 37-42).  The names the source gives to the members
    of the radiator state are kept: [omega] is bound to [optical_depth_]
    and [g] to [single_scattering_albedo_]; [lambda] and [Gamma] are both
    bound to the key ["mu"]. *)
Definition derive_parameters (omega g : list T) (solar_zenith_angles : list T)
    (i : Z) (p : gmap string (list T)) : result (gmap string (list T)) :=
  sza ← solar_zenith_angles @ i;
  let mu_0 := std_acos sza in
  omega_i ← omega @ i;
  g_i ← g @ i;
  (* gamma1[i] = 7 - omega[i] * (4 + 3 * g[i]); *)
  p ← wr p "gamma1" i (lit 7 - omega_i * (lit 4 + lit 3 * g_i));
  (* gamma2[i] = -(1 - omega[i] * (4 - 3 * g[i])) / 4; *)
  p ← wr p "gamma2" i (- (lit 1 - omega_i * (lit 4 - lit 3 * g_i)) / lit 4);
  (* gamma3[i] = (2 - 3 * g[i] * mu_0) / 4; *)
  p ← wr p "gamma3" i ((lit 2 - lit 3 * g_i * mu_0) / lit 4);
  (* lambda[i] = std::sqrt(gamma1[i] * gamma1[i] - gamma2[i] * gamma2[i]); *)
  gamma1_i ← rd p "gamma1" i;
  gamma2_i ← rd p "gamma2" i;
  p ← wr p "mu" i (std_sqrt (gamma1_i * gamma1_i - gamma2_i * gamma2_i));
  (* Gamma[i] = std::sqrt(gamma1[i] * gamma1[i] - gamma2[i] * gamma2[i]); *)
  gamma1_i ← rd p "gamma1" i;
  gamma2_i ← rd p "gamma2" i;
  wr p "mu" i (std_sqrt (gamma1_i * gamma1_i - gamma2_i * gamma2_i)).

Definition DeltaEddingtonApproximation_body (omega g : list T)
    (solar_zenith_angles : list T)
    (i : Z) (p : gmap string (list T)) : result (gmap string (list T)) :=
  p ← derive_parameters omega g solar_zenith_angles i p;
  (* mu = (T)0.5; *)
  assign_scalar p "mu" one_half.

(** The function takes [solution_parameters] by value and returns nothing;
    the model returns the value the map holds when the body ends. *)
Definition DeltaEddingtonApproximation
    (accumulated_radiator_states : RadiatorState T)
    (solution_parameters : gmap string (list T))
    (solar_zenith_angles : list T) : result (gmap string (list T)) :=
  let number_of_columns := Z.of_nat (length solar_zenith_angles) in
  let omega := optical_depth_ accumulated_radiator_states in
  let g := single_scattering_albedo_ accumulated_radiator_states in
  let tau := assymetry_parameter_ accumulated_radiator_states in
  _ ← map_at solution_parameters "gamma1";
  _ ← map_at solution_parameters "gamma2";
  _ ← map_at solution_parameters "gamma3";
  _ ← map_at solution_parameters "gamma4";
  _ ← map_at solution_parameters "mu";
  for_ 0 number_of_columns 1
    (DeltaEddingtonApproximation_body omega g solar_zenith_angles)
    solution_parameters.
End ParameterDerivation.

(** ** InitializeVariables (delta_eddington.hh, lines 54-128) *)

Section Initialization.
Context {T : Type} `{Scalar T}.
Local Open Scope scalar_scope.
Local Abbreviation lit := of_int.

Definition with_albedo (r : RadiatorState T) (v : list T) : RadiatorState T :=
  {| optical_depth_ := optical_depth_ r;
     single_scattering_albedo_ := v;
     assymetry_parameter_ := assymetry_parameter_ r |}.

Definition with_asymmetry (r : RadiatorState T) (v : list T) : RadiatorState T :=
  {| optical_depth_ := optical_depth_ r;
     single_scattering_albedo_ := single_scattering_albedo_ r;
     assymetry_parameter_ := v |}.

Definition with_optical_depth (r : RadiatorState T) (v : list T) : RadiatorState T :=
  {| optical_depth_ := v;
     single_scattering_albedo_ := single_scattering_albedo_ r;
     assymetry_parameter_ := assymetry_parameter_ r |}.

(** One iteration of the delta-scaling loop (lines 81-84).  Here [tau],
    [omega] and [g] are bound to [optical_depth_],
    [single_scattering_albedo_] and [assymetry_parameter_].  Line 82 writes
    the array name [omega] where a scalar is needed; it is read as the
    element [omega[i]] of the iteration. *)
Definition delta_scaling_body (i : Z) (r : RadiatorState T)
    : result (RadiatorState T) :=
  (* f = omega[i] * omega[i]; *)
  omega_i ← single_scattering_albedo_ r @ i;
  let f := omega_i * omega_i in
  (* omega[i] = (omega - f) / (1 - f); *)
  omega_i ← single_scattering_albedo_ r @ i;
  omega ← vec_set (single_scattering_albedo_ r) i ((omega_i - f) / (lit 1 - f));
  let r := with_albedo r omega in
  (* g[i] = (1 - f) * g[i] / (1 - g[i] * f); *)
  g_i ← assymetry_parameter_ r @ i;
  g ← vec_set (assymetry_parameter_ r) i ((lit 1 - f) * g_i / (lit 1 - g_i * f));
  let r := with_asymmetry r g in
  (* omega[i] = (1 - g[i] * f) * omega[i]; *)
  g_i ← assymetry_parameter_ r @ i;
  omega_i ← single_scattering_albedo_ r @ i;
  omega ← vec_set (single_scattering_albedo_ r) i ((lit 1 - g_i * f) * omega_i);
  Ok (with_albedo r omega).

Definition delta_scaling (number_of_columns : Z) (r : RadiatorState T)
    : result (RadiatorState T) :=
  for_ 0 number_of_columns 1 delta_scaling_body r.

(** [for (auto& tau_n : tau) { tau_n = tau_n; }] *)
Definition slant_optical_depth (r : RadiatorState T) : RadiatorState T :=
  with_optical_depth r (List.map (fun tau_n => tau_n) (optical_depth_ r)).

Context `{Elementary T}.

(** [lambda * lambda - 1 / (mu_0 * mu_0)] *)
Definition denominator (lambda mu_0 : T) : T :=
  lambda * lambda - lit 1 / (mu_0 * mu_0).

(** The variables the source-term loop updates: the accumulator and the
    two maps written through references. *)
Record Workspace := {
  ws_tau_cumulative : T;
  ws_solution : gmap string (list T);
  ws_sources : gmap string (list T)
}.

(** One iteration of the source-term loop (lines 117-125).  [R_sfc] is the
    reference bound to the key ["source flux"].  The array names [omega],
    [R_sfc] and [lambda] stand where scalars are needed; they are read as
    the elements of the iteration. *)
Definition source_terms_body (solar_zenith_angles : list T)
    (r : RadiatorState T) (i : Z) (w : Workspace) : result Workspace :=
  let tau := optical_depth_ r in
  let omega := single_scattering_albedo_ r in
  let p := ws_solution w in
  let c := ws_sources w in
  (* mu_0 = std::acos(solar_zenith_angles[i]); *)
  sza ← solar_zenith_angles @ i;
  let mu_0 := std_acos sza in
  (* exponential_term =
       omega * M_PI * R_sfc * std::exp(-(tau_cumulative - tau[i]) / mu_0); *)
  omega_i ← omega @ i;
  R_sfc ← rd p "source flux" i;
  tau_i ← tau @ i;
  let exponential_term :=
    omega_i * M_PI * R_sfc * std_exp (- (ws_tau_cumulative w - tau_i) / mu_0) in
  (* denominator_term = (lambda * lambda - 1 / (mu_0 * mu_0)); *)
  lambda ← rd p "lambda" i;
  let denominator_term := denominator lambda mu_0 in
  (* tau_cumulative += tau[i]; *)
  let tau_cumulative := ws_tau_cumulative w + tau_i in
  (* S_sfc_i[i] = R_sfc * mu_0 * std::exp(-tau_cumulative / mu_0); *)
  p ← wr p "infrared source flux" i
        (R_sfc * mu_0 * std_exp (- tau_cumulative / mu_0));
  (* S_sfc_s[i] = M_PI * R_sfc; *)
  R_sfc ← rd p "source flux" i;
  p ← wr p "solar source flux" i (M_PI * R_sfc);
  (* C_downwelling[i] = exponential_term
       * (((gamma1[i] + 1) / mu_0) * gamma4[i] + gamma2[i] * gamma3[i]); *)
  gamma1_i ← rd p "gamma1" i;
  gamma4_i ← rd p "gamma4" i;
  gamma2_i ← rd p "gamma2" i;
  gamma3_i ← rd p "gamma3" i;
  c ← wr c "C_downwelling" i
        (exponential_term
         * (((gamma1_i + lit 1) / mu_0) * gamma4_i + gamma2_i * gamma3_i));
  (* C_upwelling[i] = exponential_term
       * (((gamma1[i] - 1) / mu_0) * gamma3[i] + gamma4[i] * gamma2[i]); *)
  c ← wr c "C_upwelling" i
        (exponential_term
         * (((gamma1_i - lit 1) / mu_0) * gamma3_i + gamma4_i * gamma2_i));
  Ok {| ws_tau_cumulative := tau_cumulative;
        ws_solution := p;
        ws_sources := c |}.

Record Initialized := {
  radiator_states : RadiatorState T;
  parameters : gmap string (list T);
  sources : gmap string (list T)
}.

Definition InitializeVariables {ProfilePolicy : Type}
    (solar_zenith_angles : list T)
    (grids : gmap string Grid)
    (profiles : gmap string ProfilePolicy)
    (solver_parameters : gmap string (list T))
    (solution_parameters : gmap string (list T))
    (source_terms : gmap string (list T))
    (accumulated_radiator_states : RadiatorState T) : result Initialized :=
  let number_of_columns := Z.of_nat (length solar_zenith_angles) in
  vertical_grid ← map_at grids "altitude [m]";
  wavelength_grid ← map_at grids "wavelength [m]";
  _ ← assert (NumberOfColumns vertical_grid =? number_of_columns)%Z;
  _ ← assert (NumberOfColumns wavelength_grid =? 1)%Z;
  r ← delta_scaling number_of_columns accumulated_radiator_states;
  let r := slant_optical_depth r in
  _ ← map_at source_terms "C_upwelling";
  _ ← map_at source_terms "C_downwelling";
  _ ← map_at solution_parameters "infrared source flux";
  _ ← map_at solution_parameters "solar source flux";
  _ ← map_at solution_parameters "lambda";
  _ ← map_at solution_parameters "gamma1";
  _ ← map_at solution_parameters "gamma2";
  _ ← map_at solution_parameters "gamma3";
  _ ← map_at solution_parameters "gamma4";
  _ ← map_at solution_parameters "mu";
  _ ← map_at solution_parameters "source flux";
  w ← for_ 0 number_of_columns 1 (source_terms_body solar_zenith_angles r)
        {| ws_tau_cumulative := lit 0;
           ws_solution := solution_parameters;
           ws_sources := source_terms |};
  Ok {| radiator_states := r;
        parameters := ws_solution w;
        sources := ws_sources w |}.
End Initialization.

(** ** AssembleTridiagonalMatrix and AssembleCoeffcientVector
       (delta_eddington.hh, lines 130-226) *)

Section Assembly.
Context {T : Type} `{Scalar T}.
Local Open Scope scalar_scope.
Local Abbreviation lit := of_int.

(** The [n + 1] of the loop bodies and the [n += 2] of the loop headers do
    not wrap: [n] is below a bound that is itself at most [2^64 - 1] and has
    the parity of the first index.  The size and the two bounds can wrap
    and are computed with [size_t]. *)
Definition matrix_size (number_of_layers : Z) : Z := size_t (2 * number_of_layers).

(** Lines 162-164. *)
Definition matrix_odd_row (e1 e2 e3 e4 : list T) (n : Z)
    (m : TridiagonalMatrix T) : result (TridiagonalMatrix T) :=
  (* upper_diagonal[n] = e2[n + 1] * e1[n] - e3[n] * e4[n + 1]; *)
  e2_n1 ← e2 @ (n + 1); e1_n ← e1 @ n; e3_n ← e3 @ n; e4_n1 ← e4 @ (n + 1);
  upper ← vec_set (upper_diagonal_ m) n (e2_n1 * e1_n - e3_n * e4_n1);
  (* main_diagonal[n] = e2[n] * e2[n + 1] - e3[n] * e4[n + 1]; *)
  e2_n ← e2 @ n;
  main ← vec_set (main_diagonal_ m) n (e2_n * e2_n1 - e3_n * e4_n1);
  (* lower_diagonal[n] = e3[n] * e4[n + 1] - e1[n + 1] * e2[n + 1]; *)
  e1_n1 ← e1 @ (n + 1);
  lower ← vec_set (lower_diagonal_ m) n (e3_n * e4_n1 - e1_n1 * e2_n1);
  Ok {| upper_diagonal_ := upper; main_diagonal_ := main; lower_diagonal_ := lower |}.

(** Lines 170-172. *)
Definition matrix_even_row (e1 e2 e3 e4 : list T) (n : Z)
    (m : TridiagonalMatrix T) : result (TridiagonalMatrix T) :=
  (* upper_diagonal[n] = e2[n] * e3[n] - e4[n] * e1[n]; *)
  e2_n ← e2 @ n; e3_n ← e3 @ n; e4_n ← e4 @ n; e1_n ← e1 @ n;
  upper ← vec_set (upper_diagonal_ m) n (e2_n * e3_n - e4_n * e1_n);
  (* main_diagonal[n] = e1[n] * e1[n + 1] - e3[n] * e3[n + 1]; *)
  e1_n1 ← e1 @ (n + 1); e3_n1 ← e3 @ (n + 1);
  main ← vec_set (main_diagonal_ m) n (e1_n * e1_n1 - e3_n * e3_n1);
  (* lower_diagonal[n] = e3[n] * e4[n + 1] - e1[n + 1] * e2[n + 1]; *)
  e4_n1 ← e4 @ (n + 1); e2_n1 ← e2 @ (n + 1);
  lower ← vec_set (lower_diagonal_ m) n (e3_n * e4_n1 - e1_n1 * e2_n1);
  Ok {| upper_diagonal_ := upper; main_diagonal_ := main; lower_diagonal_ := lower |}.

(** Lines 155-157. *)
Definition matrix_first_row (e1 e2 : list T) (m : TridiagonalMatrix T)
    : result (TridiagonalMatrix T) :=
  (* upper_diagonal.front() = 0; *)
  upper ← set_front (upper_diagonal_ m) (lit 0);
  (* main_diagonal.front() = e1.front(); *)
  e1_front ← front e1;
  main ← set_front (main_diagonal_ m) e1_front;
  (* lower_diagonal.front() = -e2.front(); *)
  e2_front ← front e2;
  lower ← set_front (lower_diagonal_ m) (- e2_front);
  Ok {| upper_diagonal_ := upper; main_diagonal_ := main; lower_diagonal_ := lower |}.

(** Lines 176-178. *)
Definition matrix_last_row (e1 e2 e3 e4 : list T) (R_sfc : T)
    (m : TridiagonalMatrix T) : result (TridiagonalMatrix T) :=
  (* lower_diagonal.back() = e1.back() - R_sfc * e3.back(); *)
  e1_back ← back e1; e3_back ← back e3;
  lower ← set_back (lower_diagonal_ m) (e1_back - R_sfc * e3_back);
  (* main_diagonal.back() = e2.back() - R_sfc * e4.back(); *)
  e2_back ← back e2; e4_back ← back e4;
  main ← set_back (main_diagonal_ m) (e2_back - R_sfc * e4_back);
  (* upper_diagonal.back() = 0; *)
  upper ← set_back (upper_diagonal_ m) (lit 0);
  Ok {| upper_diagonal_ := upper; main_diagonal_ := main; lower_diagonal_ := lower |}.

Definition AssembleTridiagonalMatrix
    (number_of_layers : Z)
    (solution_parameters : gmap string (list T))
    (solver_parameters : gmap string T)
    (coeffcient_matrix : TridiagonalMatrix T) : result (TridiagonalMatrix T) :=
  let matrix_size := matrix_size number_of_layers in
  e1 ← map_at solution_parameters "e1";
  e2 ← map_at solution_parameters "e2";
  e3 ← map_at solution_parameters "e3";
  e4 ← map_at solution_parameters "e4";
  R_sfc ← map_at solver_parameters "Surface Reflectivity";
  (* first row *)
  m ← matrix_first_row e1 e2 coeffcient_matrix;
  (* odd rows: for (n = 1; n < matrix_size - 1; n += 2) *)
  m ← for_ 1 (size_t (matrix_size - 1)) 2 (matrix_odd_row e1 e2 e3 e4) m;
  (* even rows: for (n = 2; n < matrix_size - 2; n += 2) *)
  m ← for_ 2 (size_t (matrix_size - 2)) 2 (matrix_even_row e1 e2 e3 e4) m;
  (* last row *)
  matrix_last_row e1 e2 e3 e4 R_sfc m.

(** [std::vector] has no member [start()]; what [C_upwelling.start()] and
    [C_downwelling.start()] denote is left open. *)
Variable start : list T -> result T.

(** Lines 213-214. *)
Definition vector_odd_row (e1 e3 C_upwelling C_downwelling : list T) (n : Z)
    (b : list T) : result (list T) :=
  e3_n ← e3 @ n; up_start ← start C_upwelling; up_n ← C_upwelling @ n;
  e1_n ← e1 @ n; down_n ← C_downwelling @ n; down_start ← start C_downwelling;
  vec_set b n (e3_n * (up_start - up_n) + e1_n * (down_n - down_start)).

(** Lines 220-221. *)
Definition vector_even_row (e2 e4 C_upwelling C_downwelling : list T) (n : Z)
    (b : list T) : result (list T) :=
  e2_n1 ← e2 @ (n + 1); up_start ← start C_upwelling; up_n ← C_upwelling @ n;
  e4_n1 ← e4 @ (n + 1); down_start ← start C_downwelling; down_n ← C_downwelling @ n;
  vec_set b n (e2_n1 * (up_start - up_n) + e4_n1 * (down_start - down_n)).

Definition AssembleCoeffcientVector
    (number_of_layers : Z)
    (solution_parameters : gmap string (list T))
    (source_terms : gmap string (list T))
    (solver_parameters : gmap string T)
    (coeffcient_vector : list T) : result (list T) :=
  let matrix_size := matrix_size number_of_layers in
  e1 ← map_at solution_parameters "e1";
  e2 ← map_at solution_parameters "e2";
  e3 ← map_at solution_parameters "e3";
  e4 ← map_at solution_parameters "e4";
  R_sfc ← map_at solver_parameters "Surface Reflectivity";
  f_0 ← map_at solver_parameters "source flux";
  C_upwelling ← map_at source_terms "C_upwelling";
  C_downwelling ← map_at source_terms "C_downwelling";
  (* first row: coeffcient_vector.front() = f_0 - C_downwelling.front(); *)
  down_front ← front C_downwelling;
  b ← set_front coeffcient_vector (f_0 - down_front);
  (* odd rows *)
  b ← for_ 1 (size_t (matrix_size - 1)) 2
        (vector_odd_row e1 e3 C_upwelling C_downwelling) b;
  (* even rows *)
  b ← for_ 2 (size_t (matrix_size - 2)) 2
        (vector_even_row e2 e4 C_upwelling C_downwelling) b;
  (* last row: the source has the comment and no statement *)
  Ok b.
End Assembly.

(** ** Solve (solve.hh, lines 49-51): the tridiagonal system variables *)

Section SystemVariables.
Context {T : Type} `{Scalar T}.

(** Modelled from the spec: the constructor [TridiagonalMatrix<T>(size,
    value)] of [tuvx/linear_algebra/linear_algebra.hpp], which is not among
    the solver files.  The spec's data model gives the system three
    diagonals of one length, the row count; the constructor builds them
    with [size] entries equal to [value]. *)
Definition TridiagonalMatrix_new (size : Z) (value : T) : TridiagonalMatrix T :=
  {| upper_diagonal_ := replicate (Z.to_nat size) value;
     main_diagonal_ := replicate (Z.to_nat size) value;
     lower_diagonal_ := replicate (Z.to_nat size) value |}.

(** [TridiagonalMatrix<T> coeffcient_matrix(number_of_columns, 0);]
    [std::vector<T> coeffcient_vector(number_of_columns, 0);] *)
Definition Solve_system_variables (solar_zenith_angles : list T)
    : TridiagonalMatrix T * list T :=
  let number_of_columns := Z.of_nat (length solar_zenith_angles) in
  (TridiagonalMatrix_new number_of_columns (of_int 0),
   replicate (Z.to_nat number_of_columns) (of_int 0)).
End SystemVariables.

(** ** Vocabulary of the statements about ComputeRadiationField *)

Section RadiationFieldVocabulary.
Context {T : Type} `{Scalar T}.

(** The values [offset, offset + 1, ...] an array of [n] elements gets. *)
Definition counting (offset : Z) (n : nat) : list T :=
  of_int <$> seqZ offset (Z.of_nat n).

Definition same_lengths (x y : RadiationFieldComponents T) : Prop :=
  length (direct_ x) = length (direct_ y) /\
  length (upwelling_ x) = length (upwelling_ y) /\
  length (downwelling_ x) = length (downwelling_ y).

(** The field of consecutive integers for arrays of the lengths of [f]. *)
Definition placeholder_field (f : RadiationField T) : RadiationField T :=
  {| spectral_irradiance_ :=
       {| direct_ := counting 42 (length (direct_ (spectral_irradiance_ f)));
          upwelling_ := counting 93 (length (upwelling_ (spectral_irradiance_ f)));
          downwelling_ := counting 52 (length (downwelling_ (spectral_irradiance_ f))) |};
     actinic_flux_ :=
       {| direct_ := counting 5 (length (direct_ (actinic_flux_ f)));
          upwelling_ := counting 24 (length (upwelling_ (actinic_flux_ f)));
          downwelling_ := counting 97 (length (downwelling_ (actinic_flux_ f))) |} |}.

(** No counter leaves the range of [int]. *)
Definition counters_fit (f : RadiationField T) : Prop :=
  42 + Z.of_nat (length (direct_ (spectral_irradiance_ f))) <= INT_MAX /\
  93 + Z.of_nat (length (upwelling_ (spectral_irradiance_ f))) <= INT_MAX /\
  52 + Z.of_nat (length (downwelling_ (spectral_irradiance_ f))) <= INT_MAX /\
  5 + Z.of_nat (length (direct_ (actinic_flux_ f))) <= INT_MAX /\
  24 + Z.of_nat (length (upwelling_ (actinic_flux_ f))) <= INT_MAX /\
  97 + Z.of_nat (length (downwelling_ (actinic_flux_ f))) <= INT_MAX.
End RadiationFieldVocabulary.

(** ** Vocabulary of the statements about the assembly *)

Section AssemblyVocabulary.
Context {T : Type}.

(** The three diagonals have [n] entries each. *)
Definition has_rows (m : TridiagonalMatrix T) (n : Z) : Prop :=
  Z.of_nat (length (upper_diagonal_ m)) = n /\
  Z.of_nat (length (main_diagonal_ m)) = n /\
  Z.of_nat (length (lower_diagonal_ m)) = n.

(** A vector has an entry for each of the [2N] rows. *)
Definition covers_rows (number_of_layers : Z) (v : list T) : Prop :=
  2 * number_of_layers <= Z.of_nat (length v).

(** The layer count for which [2 * number_of_layers] does not wrap. *)
Definition layer_count (number_of_layers : Z) : Prop :=
  1 <= number_of_layers /\ 2 * number_of_layers <= SIZE_MAX.
End AssemblyVocabulary.

(** ** Concrete inputs

    A two-layer system over the rationals: four rows, with vectors that have
    an entry for each row. *)

Definition example_solution_parameters : gmap string (list Q) :=
  list_to_map
    [("e1", [2; 3; 5; 7]); ("e2", [11; 13; 17; 19]);
     ("e3", [23; 29; 31; 37]); ("e4", [41; 43; 47; 53])]%Q.

Definition example_solver_parameters : gmap string Q :=
  list_to_map [("Surface Reflectivity", 1 # 10); ("source flux", 1)]%Q.

Definition example_source_terms : gmap string (list Q) :=
  list_to_map
    [("C_upwelling", [1 # 2; 1 # 3; 1 # 4; 1 # 5]);
     ("C_downwelling", [1 # 6; 1 # 7; 1 # 8; 1 # 9])]%Q.

(** A matrix and a right-hand side of four rows in which every entry is 9,
    so that an entry the assembly does not write can be told from one it
    sets to zero. *)
Definition example_matrix : TridiagonalMatrix Q := TridiagonalMatrix_new 4 9%Q.
Definition example_vector : list Q := replicate 4 9%Q.

(** Two radiation fields with arrays of the same lengths and different
    contents, and the inputs of two unrelated invocations. *)
Definition example_field : RadiationField Q :=
  {| spectral_irradiance_ :=
       {| direct_ := [0; 0; 0]; upwelling_ := [0; 0; 0]; downwelling_ := [0; 0; 0] |};
     actinic_flux_ :=
       {| direct_ := [0; 0; 0]; upwelling_ := [0; 0; 0]; downwelling_ := [0; 0; 0] |} |}%Q.

Definition example_field' : RadiationField Q :=
  {| spectral_irradiance_ :=
       {| direct_ := [1; 2; 3]; upwelling_ := [4; 5; 6]; downwelling_ := [7; 8; 9] |};
     actinic_flux_ :=
       {| direct_ := [1 # 2; 1 # 3; 1 # 4]; upwelling_ := [5; 5; 5];
          downwelling_ := [6; 6; 6] |} |}%Q.

Definition example_grids : gmap string Grid :=
  list_to_map [("altitude [m]", {| NumberOfColumns := 1 |});
               ("wavelength [m]", {| NumberOfColumns := 1 |})].

(** A radiation field over the reals with two layer boundaries. *)
Definition example_real_field : RadiationField R :=
  {| spectral_irradiance_ :=
       {| direct_ := [0; 0]; upwelling_ := [0; 0]; downwelling_ := [0; 0] |};
     actinic_flux_ :=
       {| direct_ := [0; 0]; upwelling_ := [0; 0]; downwelling_ := [0; 0] |} |}%R.

(** ** The reconstruction the specification describes

    Beer's law for the direct beam, in the spec's words:
    [F0 * exp(-tau_cum / mu0)]. *)
Definition beer_law {T : Type} `{Scalar T} `{Elementary T}
    (F0 tau_cum mu0 : T) : T :=
  (F0 * std_exp (- tau_cum / mu0))%T.

(** ** One column with one layer

    The inputs of the parameter derivation and of the initialization for a
    single column with a single layer, as functions of the values stored. *)

Section OneLayer.
Context {T : Type}.

Definition one_layer_state (optical_depth albedo asymmetry : T) : RadiatorState T :=
  {| optical_depth_ := [optical_depth];
     single_scattering_albedo_ := [albedo];
     assymetry_parameter_ := [asymmetry] |}.

Definition one_layer_gammas (gamma1 gamma2 gamma3 gamma4 mu : T)
    : gmap string (list T) :=
  list_to_map
    [("gamma1", [gamma1]); ("gamma2", [gamma2]); ("gamma3", [gamma3]);
     ("gamma4", [gamma4]); ("mu", [mu])].

Definition one_layer_parameters
    (gamma1 gamma2 gamma3 gamma4 mu lambda source_flux infrared solar : T)
    : gmap string (list T) :=
  list_to_map
    [("gamma1", [gamma1]); ("gamma2", [gamma2]); ("gamma3", [gamma3]);
     ("gamma4", [gamma4]); ("mu", [mu]); ("lambda", [lambda]);
     ("source flux", [source_flux]); ("infrared source flux", [infrared]);
     ("solar source flux", [solar])].

Definition one_layer_sources (C_upwelling C_downwelling : T)
    : gmap string (list T) :=
  list_to_map
    [("C_upwelling", [C_upwelling]); ("C_downwelling", [C_downwelling])].
End OneLayer.

(** ** The formulas of the specification

    Written from the words of the specification (sections 4.1 and 4.2), to be
    compared with what the functions above compute. *)

Section SpecifiedFormulas.
Context {T : Type} `{Scalar T} `{Elementary T}.
Local Open Scope scalar_scope.
Local Abbreviation lit := of_int.

(** Delta scaling: [f = g^2], [omega' = omega (1 - f) / (1 - omega f)],
    [g' = g / (1 + g)], [tau' = (1 - omega f) tau], all from the unscaled
    values. *)
Definition spec_f (g : T) : T := g * g.
Definition spec_scaled_omega (omega g : T) : T :=
  omega * (lit 1 - spec_f g) / (lit 1 - omega * spec_f g).
Definition spec_scaled_g (g : T) : T := g / (lit 1 + g).
Definition spec_scaled_tau (omega g tau : T) : T :=
  (lit 1 - omega * spec_f g) * tau.

(** The gamma coefficients, the eigenvalue and the coupling ratio. *)
Definition spec_gamma1 (omega' g' : T) : T :=
  (lit 7 - omega' * (lit 4 + lit 3 * g')) / lit 4.
Definition spec_gamma2 (omega' g' : T) : T :=
  - (lit 1 - omega' * (lit 4 - lit 3 * g')) / lit 4.
Definition spec_gamma3 (g' mu0 : T) : T := (lit 2 - lit 3 * g' * mu0) / lit 4.
Definition spec_gamma4 (gamma3 : T) : T := lit 1 - gamma3.
Definition spec_lambda (gamma1 gamma2 : T) : T :=
  std_sqrt (gamma1 * gamma1 - gamma2 * gamma2).
Definition spec_Gamma (gamma1 gamma2 : T) : T :=
  gamma2 / (gamma1 + spec_lambda gamma1 gamma2).

(** The source terms. *)
Definition spec_exp_term (omega' mu0 F0 tau_cum : T) : T :=
  omega' * M_PI * mu0 * F0 * std_exp (- tau_cum / mu0).
Definition spec_denom (lambda mu0 : T) : T :=
  lambda * lambda - lit 1 / (mu0 * mu0).
Definition spec_C_downwelling
    (exp_term gamma1 gamma2 gamma3 gamma4 mu0 denom : T) : T :=
  exp_term * ((gamma1 + lit 1) / mu0 * gamma4 + gamma2 * gamma3) / denom.
Definition spec_C_upwelling
    (exp_term gamma1 gamma2 gamma3 gamma4 mu0 denom : T) : T :=
  exp_term * ((gamma1 - lit 1) / mu0 * gamma3 + gamma4 * gamma2) / denom.
End SpecifiedFormulas.

(** [mu0] is the cosine of the solar zenith angle. *)
Definition spec_mu0 (solar_zenith_angle : R) : R := cos solar_zenith_angle.

(** ** Vocabulary of the statements about the initialization *)

Section InitializationVocabulary.
Context {T : Type}.
(** The map has a vector at [key] with at least [n] entries. *)
Definition long_vector (n : nat) (m : gmap string (list T)) (key : string) : Prop :=
  exists v, m !! key = Some v /\ (n <= length v)%nat.

(** The keys that [InitializeVariables] looks up in its two maps. *)
Definition solution_keys : list string :=
  ["infrared source flux"; "solar source flux"; "lambda"; "gamma1"; "gamma2";
   "gamma3"; "gamma4"; "mu"; "source flux"].

Definition source_keys : list string := ["C_upwelling"; "C_downwelling"].

(** The two grids are present and pass the assertions. *)
Definition grids_agree (grids : gmap string Grid) (number_of_columns : nat) : Prop :=
  exists vertical_grid wavelength_grid,
    grids !! "altitude [m]" = Some vertical_grid /\
    grids !! "wavelength [m]" = Some wavelength_grid /\
    NumberOfColumns vertical_grid = Z.of_nat number_of_columns /\
    NumberOfColumns wavelength_grid = 1.

(** Every array read or written at the column indices has an entry for each
    column. *)
Definition state_covers (n : nat) (r : RadiatorState T) : Prop :=
  (n <= length (optical_depth_ r))%nat /\
  (n <= length (single_scattering_albedo_ r))%nat /\
  (n <= length (assymetry_parameter_ r))%nat.

Definition maps_cover (n : nat) (solution sources : gmap string (list T)) : Prop :=
  Forall (long_vector n solution) solution_keys /\
  Forall (long_vector n sources) source_keys.

(** Every entry is an integer converted to [T]. *)
Definition integer_valued `{Scalar T} (v : list T) : Prop :=
  Forall (fun x => exists z : Z, x = of_int z) v.

Definition components_integer_valued `{Scalar T}
    (c : RadiationFieldComponents T) : Prop :=
  integer_valued (direct_ c) /\ integer_valued (upwelling_ c) /\
  integer_valued (downwelling_ c).
End InitializationVocabulary.

(** ** Vocabulary of the statements about the loops over the columns *)

Section DerivationVocabulary.
Context {T : Type} `{Scalar T} `{Elementary T}.
Local Open Scope scalar_scope.
Local Abbreviation lit := of_int.

(** The first [n] entries of [v'] are those [f] gives and the others are
    those of [v]; [v'] is as long as [v]. *)
Definition prefix_written (n : nat) (f : nat -> option T) (v v' : list T) : Prop :=
  length v' = length v /\
  (forall j : nat, (j < n)%nat -> v' !! j = f j) /\
  (forall j : nat, (n <= j)%nat -> v' !! j = v !! j).

(** Lines 38-40 for column [j]: what is stored at index [j] of the vectors
    at "gamma1", "gamma2" and "gamma3", [omega] and [g] being the arrays the
    source gives these names. *)
Definition stored_gamma1 (omega g : list T) (j : nat) : option T :=
  omega_j ← omega !! j; g_j ← g !! j;
  Some (lit 7 - omega_j * (lit 4 + lit 3 * g_j)).

Definition stored_gamma2 (omega g : list T) (j : nat) : option T :=
  omega_j ← omega !! j; g_j ← g !! j;
  Some (- (lit 1 - omega_j * (lit 4 - lit 3 * g_j)) / lit 4).

Definition stored_gamma3 (g solar_zenith_angles : list T) (j : nat) : option T :=
  g_j ← g !! j; sza ← solar_zenith_angles !! j;
  Some ((lit 2 - lit 3 * g_j * std_acos sza) / lit 4).
End DerivationVocabulary.

Section InitializationFormulas.
Context {T : Type} `{Scalar T} `{Elementary T}.
Local Open Scope scalar_scope.
Local Abbreviation lit := of_int.

(** Lines 81-84 for one column, from the values [omega] and [g] the column
    has on entry. *)
Definition scaled_asymmetry (omega g : T) : T :=
  let f := omega * omega in
  (lit 1 - f) * g / (lit 1 - g * f).

Definition scaled_albedo (omega g : T) : T :=
  let f := omega * omega in
  (lit 1 - scaled_asymmetry omega g * f) * ((omega - f) / (lit 1 - f)).

Definition stored_scaled_albedo (omega g : list T) (j : nat) : option T :=
  omega_j ← omega !! j; g_j ← g !! j; Some (scaled_albedo omega_j g_j).

Definition stored_scaled_asymmetry (omega g : list T) (j : nat) : option T :=
  omega_j ← omega !! j; g_j ← g !! j; Some (scaled_asymmetry omega_j g_j).

(** The value of [tau_cumulative] when iteration [j] begins: the optical
    depths of the columns before [j], added up from 0 in order. *)
Definition optical_depth_before (tau : list T) (j : nat) : T :=
  foldl add (lit 0) (take j tau).

(** Lines 117-125 for column [j]: what is stored at index [j] of the four
    vectors written. *)
Definition stored_infrared_source_flux
    (solar_zenith_angles tau source_flux : list T) (j : nat) : option T :=
  sza ← solar_zenith_angles !! j; tau_j ← tau !! j; R_sfc ← source_flux !! j;
  let mu_0 := std_acos sza in
  Some (R_sfc * mu_0 * std_exp (- (optical_depth_before tau j + tau_j) / mu_0)).

Definition stored_solar_source_flux (source_flux : list T) (j : nat) : option T :=
  R_sfc ← source_flux !! j; Some (M_PI * R_sfc).

Definition stored_exponential_term
    (solar_zenith_angles tau omega source_flux : list T) (j : nat) : option T :=
  sza ← solar_zenith_angles !! j; tau_j ← tau !! j; omega_j ← omega !! j;
  R_sfc ← source_flux !! j;
  Some (omega_j * M_PI * R_sfc
        * std_exp (- (optical_depth_before tau j - tau_j) / std_acos sza)).

Definition stored_C_downwelling
    (solar_zenith_angles tau omega source_flux gamma1 gamma2 gamma3 gamma4 : list T)
    (j : nat) : option T :=
  exponential_term ←
    stored_exponential_term solar_zenith_angles tau omega source_flux j;
  sza ← solar_zenith_angles !! j;
  gamma1_j ← gamma1 !! j; gamma2_j ← gamma2 !! j;
  gamma3_j ← gamma3 !! j; gamma4_j ← gamma4 !! j;
  Some (exponential_term
        * (((gamma1_j + lit 1) / std_acos sza) * gamma4_j + gamma2_j * gamma3_j)).

Definition stored_C_upwelling
    (solar_zenith_angles tau omega source_flux gamma1 gamma2 gamma3 gamma4 : list T)
    (j : nat) : option T :=
  exponential_term ←
    stored_exponential_term solar_zenith_angles tau omega source_flux j;
  sza ← solar_zenith_angles !! j;
  gamma1_j ← gamma1 !! j; gamma2_j ← gamma2 !! j;
  gamma3_j ← gamma3 !! j; gamma4_j ← gamma4 !! j;
  Some (exponential_term
        * (((gamma1_j - lit 1) / std_acos sza) * gamma3_j + gamma4_j * gamma2_j)).
End InitializationFormulas.

Section AssemblyFormulas.
Context {T : Type} `{Scalar T}.
Local Open Scope scalar_scope.

(** Lines 162-164: the three entries of an odd row [k]. *)
Definition odd_row_upper (e1 e2 e3 e4 : list T) (k : nat) : option T :=
  e2_k1 ← e2 !! S k; e1_k ← e1 !! k; e3_k ← e3 !! k; e4_k1 ← e4 !! S k;
  Some (e2_k1 * e1_k - e3_k * e4_k1).

Definition odd_row_main (e1 e2 e3 e4 : list T) (k : nat) : option T :=
  e2_k ← e2 !! k; e2_k1 ← e2 !! S k; e3_k ← e3 !! k; e4_k1 ← e4 !! S k;
  Some (e2_k * e2_k1 - e3_k * e4_k1).

Definition odd_row_lower (e1 e2 e3 e4 : list T) (k : nat) : option T :=
  e3_k ← e3 !! k; e4_k1 ← e4 !! S k; e1_k1 ← e1 !! S k; e2_k1 ← e2 !! S k;
  Some (e3_k * e4_k1 - e1_k1 * e2_k1).

(** Lines 170-172: the three entries of an even row [k]. *)
Definition even_row_upper (e1 e2 e3 e4 : list T) (k : nat) : option T :=
  e2_k ← e2 !! k; e3_k ← e3 !! k; e4_k ← e4 !! k; e1_k ← e1 !! k;
  Some (e2_k * e3_k - e4_k * e1_k).

Definition even_row_main (e1 e2 e3 e4 : list T) (k : nat) : option T :=
  e1_k ← e1 !! k; e1_k1 ← e1 !! S k; e3_k ← e3 !! k; e3_k1 ← e3 !! S k;
  Some (e1_k * e1_k1 - e3_k * e3_k1).

Definition even_row_lower (e1 e2 e3 e4 : list T) (k : nat) : option T :=
  e3_k ← e3 !! k; e4_k1 ← e4 !! S k; e1_k1 ← e1 !! S k; e2_k1 ← e2 !! S k;
  Some (e3_k * e4_k1 - e1_k1 * e2_k1).

(** Lines 213-214 and 220-221: the entry of an odd and of an even row [k] of
    the right-hand side, given what [start()] returns. *)
Definition odd_row_rhs (e1 e3 C_upwelling C_downwelling : list T)
    (up_start down_start : T) (k : nat) : option T :=
  e3_k ← e3 !! k; up_k ← C_upwelling !! k;
  e1_k ← e1 !! k; down_k ← C_downwelling !! k;
  Some (e3_k * (up_start - up_k) + e1_k * (down_k - down_start)).

Definition even_row_rhs (e2 e4 C_upwelling C_downwelling : list T)
    (up_start down_start : T) (k : nat) : option T :=
  e2_k1 ← e2 !! S k; up_k ← C_upwelling !! k;
  e4_k1 ← e4 !! S k; down_k ← C_downwelling !! k;
  Some (e2_k1 * (up_start - up_k) + e4_k1 * (down_start - down_k)).

(** Row [k] of the matrix [m'] is row [k] of [m]. *)
Definition same_row (m m' : TridiagonalMatrix T) (k : nat) : Prop :=
  upper_diagonal_ m' !! k = upper_diagonal_ m !! k /\
  main_diagonal_ m' !! k = main_diagonal_ m !! k /\
  lower_diagonal_ m' !! k = lower_diagonal_ m !! k.

Definition is_odd_row (e1 e2 e3 e4 : list T) (m : TridiagonalMatrix T) (k : nat) : Prop :=
  upper_diagonal_ m !! k = odd_row_upper e1 e2 e3 e4 k /\
  main_diagonal_ m !! k = odd_row_main e1 e2 e3 e4 k /\
  lower_diagonal_ m !! k = odd_row_lower e1 e2 e3 e4 k.

Definition is_even_row (e1 e2 e3 e4 : list T) (m : TridiagonalMatrix T) (k : nat) : Prop :=
  upper_diagonal_ m !! k = even_row_upper e1 e2 e3 e4 k /\
  main_diagonal_ m !! k = even_row_main e1 e2 e3 e4 k /\
  lower_diagonal_ m !! k = even_row_lower e1 e2 e3 e4 k.
End AssemblyFormulas.

(** Maps with the keys the solver looks up, as functions of the vectors
    stored. *)
Section Maps.
Context {T : Type}.

Definition gamma_map (gamma1 gamma2 gamma3 gamma4 mu : list T)
    : gmap string (list T) :=
  list_to_map
    [("gamma1", gamma1); ("gamma2", gamma2); ("gamma3", gamma3);
     ("gamma4", gamma4); ("mu", mu)].

Definition parameter_map
    (gamma1 gamma2 gamma3 gamma4 mu lambda source_flux infrared solar : list T)
    : gmap string (list T) :=
  list_to_map
    [("gamma1", gamma1); ("gamma2", gamma2); ("gamma3", gamma3);
     ("gamma4", gamma4); ("mu", mu); ("lambda", lambda);
     ("source flux", source_flux); ("infrared source flux", infrared);
     ("solar source flux", solar)].

Definition source_map (C_upwelling C_downwelling : list T)
    : gmap string (list T) :=
  list_to_map [("C_upwelling", C_upwelling); ("C_downwelling", C_downwelling)].

Definition eigen_map (e1 e2 e3 e4 : list T) : gmap string (list T) :=
  list_to_map [("e1", e1); ("e2", e2); ("e3", e3); ("e4", e4)].
End Maps.

(** Two columns over the reals. *)
Definition two_angles : list R := [0; 1 / 2]%R.

Definition two_column_state : RadiatorState R :=
  {| optical_depth_ := [1 / 10; 2 / 10];
     single_scattering_albedo_ := [1 / 2; 1 / 4];
     assymetry_parameter_ := [1 / 3; 1 / 5] |}%R.

Definition two_column_grids : gmap string Grid :=
  list_to_map [("altitude [m]", {| NumberOfColumns := 2 |});
               ("wavelength [m]", {| NumberOfColumns := 1 |})].

Definition two_column_gammas : gmap string (list R) :=
  (gamma_map [0; 0] [0; 0] [0; 0] [1 / 2; 1 / 2] [0; 0])%R.

Definition two_column_parameters : gmap string (list R) :=
  (parameter_map [1; 2] [0; 1] [1 / 2; 1 / 4] [1 / 2; 3 / 4] [0; 0] [2; 3]
     [1; 1] [0; 0] [0; 0])%R.

Definition two_column_sources : gmap string (list R) :=
  (source_map [0; 0] [0; 0])%R.

(** A three-layer system over the rationals: six rows. *)
Definition three_layer_parameters : gmap string (list Q) :=
  (eigen_map [2; 3; 5; 7; 11; 13] [17; 19; 23; 29; 31; 37]
     [41; 43; 47; 53; 59; 61] [67; 71; 73; 79; 83; 89])%Q.

Definition three_layer_sources : gmap string (list Q) :=
  (source_map [1 # 2; 1 # 3; 1 # 4; 1 # 5; 1 # 6; 1 # 7]
     [1 # 8; 1 # 9; 1 # 10; 1 # 11; 1 # 12; 1 # 13])%Q.

Definition six_row_matrix : TridiagonalMatrix Q := TridiagonalMatrix_new 6 9%Q.
Definition six_row_vector : list Q := replicate 6 9%Q.

(** Grids for no column at all. *)
Definition no_column_grids : gmap string Grid :=
  list_to_map [("altitude [m]", {| NumberOfColumns := 0 |});
               ("wavelength [m]", {| NumberOfColumns := 1 |})].

(** ** Vocabulary of the statements about completion *)

(** Shapes: the length of the vector at each key. *)
Definition same_shape {V : Type} (m m' : gmap string (list V)) : Prop :=
  forall key : string, length <$> (m' !! key) = length <$> (m !! key).

Section CompletionVocabulary.
Context {T : Type}.

(** Every array and vector that [DeltaEddingtonApproximation] indexes has an
    entry for each solar zenith angle, and the key "gamma4" is present. *)
Definition derivation_inputs_cover
    (accumulated_radiator_states : RadiatorState T)
    (solution_parameters : gmap string (list T))
    (solar_zenith_angles : list T) : Prop :=
  let n := length solar_zenith_angles in
  (n <= length (optical_depth_ accumulated_radiator_states))%nat /\
  (n <= length (single_scattering_albedo_ accumulated_radiator_states))%nat /\
  long_vector n solution_parameters "gamma1" /\
  long_vector n solution_parameters "gamma2" /\
  long_vector n solution_parameters "gamma3" /\
  is_Some (solution_parameters !! "gamma4") /\
  long_vector n solution_parameters "mu".

(** The grids agree, every array and vector that [InitializeVariables]
    indexes has an entry for each solar zenith angle, and the key "mu" is
    present. *)
Definition initialization_inputs_cover
    (solar_zenith_angles : list T) (grids : gmap string Grid)
    (solution_parameters source_terms : gmap string (list T))
    (accumulated_radiator_states : RadiatorState T) : Prop :=
  let n := length solar_zenith_angles in
  grids_agree grids n /\
  state_covers n accumulated_radiator_states /\
  (forall key : string,
     key ∈ solution_keys -> key <> "mu" -> long_vector n solution_parameters key) /\
  is_Some (solution_parameters !! "mu") /\
  (forall key : string, key ∈ source_keys -> long_vector n source_terms key).

(** The keys that [AssembleTridiagonalMatrix] looks up are present. *)
Definition assembly_keys_present
    (solution_parameters : gmap string (list T))
    (solver_parameters : gmap string T) : Prop :=
  (forall key, key ∈ ["e1"; "e2"; "e3"; "e4"] ->
     is_Some (solution_parameters !! key)) /\
  is_Some (solver_parameters !! "Surface Reflectivity").
End CompletionVocabulary.

(** * Properties *)

(** ** The result monad and vectors *)

Lemma bind_Ok {A B : Type} (r : result A) (k : A -> result B) (b : B) :
  r ≫= k = Ok b -> exists a, r = Ok a /\ k a = Ok b.
Proof. destruct r as [a|f]; [intros E; exists a; split; [reflexivity|exact E] | discriminate]. Qed.

Lemma vec_get_Ok {V : Type} (v : list V) (i : Z) (x : V) :
  vec_get v i = Ok x <-> v !! Z.to_nat i = Some x.
Proof.
  unfold vec_get. destruct (v !! Z.to_nat i); split; intros E;
    try discriminate; congruence.
Qed.

Lemma vec_get_lt {V : Type} (v : list V) (i : Z) :
  (Z.to_nat i < length v)%nat -> exists x, vec_get v i = Ok x.
Proof.
  intros L. destruct (lookup_lt_is_Some_2 v _ L) as [x E].
  exists x. now apply vec_get_Ok.
Qed.

Lemma vec_set_lt {V : Type} (v : list V) (i : Z) (x : V) :
  (Z.to_nat i < length v)%nat -> vec_set v i x = Ok (<[Z.to_nat i := x]> v).
Proof.
  intros L. unfold vec_set.
  destruct (Nat.ltb_spec (Z.to_nat i) (length v)); [reflexivity | lia].
Qed.

Lemma vec_set_Ok {V : Type} (v v' : list V) (i : Z) (x : V) :
  vec_set v i x = Ok v' ->
  (Z.to_nat i < length v)%nat /\ v' = <[Z.to_nat i := x]> v.
Proof.
  unfold vec_set. destruct (Nat.ltb_spec (Z.to_nat i) (length v));
    [intros [= <-]; split; [assumption | reflexivity] | discriminate].
Qed.

Lemma set_back_cons {V : Type} (v : list V) (x : V) :
  (0 < length v)%nat ->
  set_back v x = Ok (<[(length v - 1)%nat := x]> v).
Proof.
  intros L. destruct v as [|a v]; [simpl in L; lia|].
  unfold set_back. rewrite vec_set_lt.
  - f_equal. f_equal. simpl length. lia.
  - simpl length. lia.
Qed.

Lemma back_cons {V : Type} (v : list V) :
  (0 < length v)%nat -> exists x, back v = Ok x /\ last v = Some x.
Proof.
  intros L. destruct v as [|a v]; [simpl in L; lia|].
  unfold back.
  destruct (vec_get_lt (a :: v) (Z.of_nat (length (a :: v)) - 1)) as [x E].
  { simpl length. lia. }
  exists x. split; [exact E|].
  apply vec_get_Ok in E. rewrite last_lookup. rewrite <- E. f_equal.
  simpl length. lia.
Qed.

(** ** Loops: an invariant rule

    If the body keeps [P] and does not fault on the indices the loop visits,
    the loop ends without a fault in a state where [P] holds. *)

Lemma for_loop_invariant {S : Type} (P : S -> Prop) (body : Z -> S -> result S)
    (bound step : Z) (fuel : nat) (n : Z) (s : S) (start : Z) :
  (0 < step)%Z ->
  (start <= n)%Z ->
  (forall i s, (start <= i < bound)%Z -> P s -> exists s', body i s = Ok s' /\ P s') ->
  P s ->
  exists s', for_loop fuel n bound step body s = Ok s' /\ P s'.
Proof.
  intros Hstep Hn Hbody. revert n s Hn.
  induction fuel as [|fuel IH]; intros n s Hn HP; simpl.
  - exists s. split; [reflexivity | assumption].
  - destruct (Z.ltb_spec n bound) as [Hlt|Hge].
    + destruct (Hbody n s) as [s' [E HP']]; [lia | assumption |].
      rewrite E. simpl. apply IH; [lia | assumption].
    + exists s. split; [reflexivity | assumption].
Qed.

Lemma for_invariant {S : Type} (P : S -> Prop) (body : Z -> S -> result S)
    (start bound step : Z) (s : S) :
  (0 < step)%Z ->
  (forall i s, (start <= i < bound)%Z -> P s -> exists s', body i s = Ok s' /\ P s') ->
  P s ->
  exists s', for_ start bound step body s = Ok s' /\ P s'.
Proof.
  intros Hstep Hbody HP. unfold for_.
  apply for_loop_invariant with (start := start); auto. lia.
Qed.

(** The fuel of [for_] is enough: when it is used up the loop condition is
    false.  More fuel does not change the result. *)
Lemma for_loop_fuel {S : Type} (body : Z -> S -> result S) (bound step : Z)
    (fuel : nat) (n : Z) (s : S) (extra : nat) :
  (0 < step)%Z ->
  (Z.to_nat (bound - n) <= fuel)%nat ->
  for_loop (fuel + extra) n bound step body s = for_loop fuel n bound step body s.
Proof.
  intros Hstep. revert n s.
  induction fuel as [|fuel IH]; intros n s Hfuel.
  - simpl. destruct extra as [|extra]; [reflexivity|]. simpl.
    destruct (Z.ltb_spec n bound); [lia | reflexivity].
  - simpl. destruct (Z.ltb_spec n bound); [|reflexivity].
    destruct (body n s) as [s'|f]; simpl; [|reflexivity].
    apply IH. lia.
Qed.

(** ** ComputeRadiationField *)

Section RadiationFieldProperties.
Context {T : Type} `{Scalar T}.

Lemma counting_S (offset : Z) (n : nat) :
  counting offset (S n) = of_int offset :: counting (offset + 1) n.
Proof.
  unfold counting. rewrite Nat2Z.inj_succ, seqZ_cons by lia.
  simpl. do 3 f_equal. lia.
Qed.

Lemma fill_from_shape (offset : Z) (a b : list T) :
  length a = length b -> fill_from offset a = fill_from offset b.
Proof.
  revert offset b. induction a as [|x a IH]; intros offset [|y b] L;
    simpl in *; try discriminate; [reflexivity|].
  destruct (offset <? INT_MAX); [|reflexivity].
  rewrite (IH (offset + 1) b); [reflexivity | congruence].
Qed.

Lemma fill_from_counting (offset : Z) (a : list T) :
  offset + Z.of_nat (length a) <= INT_MAX ->
  fill_from offset a = Ok (counting offset (length a)).
Proof.
  revert offset. induction a as [|x a IH]; intros offset L; [reflexivity|].
  simpl fill_from. simpl length in *.
  destruct (Z.ltb_spec offset INT_MAX); [|lia].
  rewrite IH by lia. simpl. now rewrite counting_S.
Qed.

Lemma fill_from_Ok (offset : Z) (a a' : list T) :
  fill_from offset a = Ok a' -> a' = counting offset (length a).
Proof.
  revert offset a'. induction a as [|x a IH]; intros offset a'; simpl.
  - now intros [= <-].
  - destruct (offset <? INT_MAX); [|discriminate].
    intros E. apply bind_Ok in E as [a'' [E1 [= <-]]].
    rewrite counting_S. f_equal. now apply IH.
Qed.

Lemma counting_lookup (offset : Z) (n k : nat) :
  (k < n)%nat -> counting offset n !! k = Some (of_int (offset + Z.of_nat k)).
Proof.
  intros L. unfold counting. rewrite list_lookup_fmap.
  rewrite lookup_seqZ_lt by lia. reflexivity.
Qed.

Lemma ComputeRadiationField_Ok {GridPolicy ProfilePolicy : Type}
    (sza : list T) (grids : gmap string GridPolicy)
    (profiles : gmap string ProfilePolicy) (params : Array2D T)
    (f f' : RadiationField T) :
  ComputeRadiationField sza grids profiles params f = Ok f' ->
  f' = placeholder_field f.
Proof.
  unfold ComputeRadiationField. intros E.
  repeat (apply bind_Ok in E as [? [?%fill_from_Ok E]]).
  injection E as <-. subst. reflexivity.
Qed.

Lemma ComputeRadiationField_fits {GridPolicy ProfilePolicy : Type}
    (sza : list T) (grids : gmap string GridPolicy)
    (profiles : gmap string ProfilePolicy) (params : Array2D T)
    (f : RadiationField T) :
  counters_fit f ->
  ComputeRadiationField sza grids profiles params f = Ok (placeholder_field f).
Proof.
  intros (F1 & F2 & F3 & F4 & F5 & F6). unfold ComputeRadiationField.
  rewrite !fill_from_counting by assumption. reflexivity.
Qed.
End RadiationFieldProperties.

(** C10. Two invocations of [ComputeRadiationField] on radiation fields whose
    arrays have the same lengths give the same outcome, whatever the solar
    zenith angles, grids, profiles and solution parameters of either are.  A
    completed invocation returns the field whose six arrays hold the
    consecutive integers from 42, 93, 52 (direct, upwelling, downwelling
    irradiance) and 5, 24, 97 (direct, upwelling, downwelling actinic flux),
    and the invocation completes when the counters stay in the range of
    [int]. *)
Theorem ComputeRadiationField_output_independent_of_inputs
    {T : Type} `{Scalar T} {GridPolicy ProfilePolicy : Type}
    (sza1 sza2 : list T) (grids1 grids2 : gmap string GridPolicy)
    (profiles1 profiles2 : gmap string ProfilePolicy)
    (params1 params2 : Array2D T) (f1 f2 : RadiationField T) :
  same_lengths (spectral_irradiance_ f1) (spectral_irradiance_ f2) ->
  same_lengths (actinic_flux_ f1) (actinic_flux_ f2) ->
  ComputeRadiationField sza1 grids1 profiles1 params1 f1
  = ComputeRadiationField sza2 grids2 profiles2 params2 f2
  /\ (forall f' : RadiationField T,
        ComputeRadiationField sza1 grids1 profiles1 params1 f1 = Ok f' ->
        f' = placeholder_field f1)
  /\ (counters_fit f1 ->
      ComputeRadiationField sza1 grids1 profiles1 params1 f1
      = Ok (placeholder_field f1)).
Proof.
  intros (I1 & I2 & I3) (A1 & A2 & A3). split; [|split].
  - unfold ComputeRadiationField.
    rewrite (fill_from_shape 42 _ _ I1), (fill_from_shape 93 _ _ I2),
      (fill_from_shape 52 _ _ I3), (fill_from_shape 5 _ _ A1),
      (fill_from_shape 24 _ _ A2), (fill_from_shape 97 _ _ A3).
    reflexivity.
  - intros f'. apply ComputeRadiationField_Ok.
  - apply ComputeRadiationField_fits.
Qed.

(** C1, as the code has it. Whenever [ComputeRadiationField] completes, the
    direct spectral irradiance has the length it had and its entry at index
    [k] is the integer [42 + k]: a sequential fill, in which neither the
    incident flux nor an optical depth nor a zenith angle occurs. *)
Theorem direct_irradiance_is_sequential_fill
    {T : Type} `{Scalar T} {GridPolicy ProfilePolicy : Type}
    (sza : list T) (grids : gmap string GridPolicy)
    (profiles : gmap string ProfilePolicy) (params : Array2D T)
    (f f' : RadiationField T) :
  ComputeRadiationField sza grids profiles params f = Ok f' ->
  length (direct_ (spectral_irradiance_ f'))
  = length (direct_ (spectral_irradiance_ f))
  /\ forall k : nat,
       (k < length (direct_ (spectral_irradiance_ f)))%nat ->
       direct_ (spectral_irradiance_ f') !! k = Some (of_int (42 + Z.of_nat k)).
Proof.
  intros E. apply ComputeRadiationField_Ok in E. subst f'. simpl. split.
  - unfold counting. rewrite length_fmap, length_seqZ. lia.
  - intros k L. now apply counting_lookup.
Qed.

(** ** Assembly of the tridiagonal system *)

Lemma bind_Ok_l {A B : Type} (a : A) (k : A -> result B) : Ok a ≫= k = k a.
Proof. reflexivity. Qed.

Lemma map_at_Some {V : Type} (m : gmap string V) (key : string) (x : V) :
  m !! key = Some x -> map_at m key = Ok x.
Proof. intros E. unfold map_at. now rewrite E. Qed.

(** A read or a write inside the bounds goes through; the side condition on
    the index is left to the caller. *)
Ltac read_vec :=
  match goal with
  | |- context [vec_get ?v ?i] =>
      let x := fresh "x" in
      let E := fresh "E" in
      destruct (vec_get_lt v i) as [x E]; [ | rewrite E ]
  end.

Ltac write_vec :=
  match goal with
  | |- context [vec_set ?v ?i ?x] => rewrite (vec_set_lt v i x)
  end.

Ltac run_row :=
  repeat first [ rewrite bind_Ok_l | read_vec; [lia|] | write_vec; [|lia] ].

Section RowProperties.
Context {T : Type} `{Scalar T}.
Variable number_of_layers : Z.
Variables e1 e2 e3 e4 : list T.
Hypothesis cover1 : covers_rows number_of_layers e1.
Hypothesis cover2 : covers_rows number_of_layers e2.
Hypothesis cover3 : covers_rows number_of_layers e3.
Hypothesis cover4 : covers_rows number_of_layers e4.

(** An interior row [n] of the matrix is written without a fault, and only
    the entries of index [n] change. *)
Lemma matrix_odd_row_writes (n : Z) (m : TridiagonalMatrix T) :
  has_rows m (2 * number_of_layers) ->
  1 <= n < 2 * number_of_layers - 1 ->
  exists m', matrix_odd_row e1 e2 e3 e4 n m = Ok m'
    /\ has_rows m' (2 * number_of_layers)
    /\ forall k : nat, k <> Z.to_nat n ->
         upper_diagonal_ m' !! k = upper_diagonal_ m !! k /\
         main_diagonal_ m' !! k = main_diagonal_ m !! k /\
         lower_diagonal_ m' !! k = lower_diagonal_ m !! k.
Proof.
  unfold covers_rows, has_rows in *. intros (R1 & R2 & R3) Hn.
  unfold matrix_odd_row. run_row.
  eexists. split; [reflexivity|]. simpl. rewrite !length_insert.
  split; [lia|]. intros k Hk. rewrite !list_lookup_insert_ne by lia. auto.
Qed.

Lemma matrix_even_row_writes (n : Z) (m : TridiagonalMatrix T) :
  has_rows m (2 * number_of_layers) ->
  1 <= n < 2 * number_of_layers - 1 ->
  exists m', matrix_even_row e1 e2 e3 e4 n m = Ok m'
    /\ has_rows m' (2 * number_of_layers)
    /\ forall k : nat, k <> Z.to_nat n ->
         upper_diagonal_ m' !! k = upper_diagonal_ m !! k /\
         main_diagonal_ m' !! k = main_diagonal_ m !! k /\
         lower_diagonal_ m' !! k = lower_diagonal_ m !! k.
Proof.
  unfold covers_rows, has_rows in *. intros (R1 & R2 & R3) Hn.
  unfold matrix_even_row. run_row.
  eexists. split; [reflexivity|]. simpl. rewrite !length_insert.
  split; [lia|]. intros k Hk. rewrite !list_lookup_insert_ne by lia. auto.
Qed.

Variables C_upwelling C_downwelling : list T.
Variable start : list T -> result T.
Variables up_start down_start : T.
Hypothesis cover_up : covers_rows number_of_layers C_upwelling.
Hypothesis cover_down : covers_rows number_of_layers C_downwelling.
Hypothesis start_up : start C_upwelling = Ok up_start.
Hypothesis start_down : start C_downwelling = Ok down_start.

(** The same for an interior row of the right-hand side. *)
Lemma vector_odd_row_writes (n : Z) (b : list T) :
  Z.of_nat (length b) = 2 * number_of_layers ->
  1 <= n < 2 * number_of_layers - 1 ->
  exists b', vector_odd_row start e1 e3 C_upwelling C_downwelling n b = Ok b'
    /\ Z.of_nat (length b') = 2 * number_of_layers
    /\ forall k : nat, k <> Z.to_nat n -> b' !! k = b !! k.
Proof.
  unfold covers_rows in *. intros L Hn.
  unfold vector_odd_row. rewrite start_up, start_down.
  run_row.
  eexists. split; [reflexivity|]. rewrite length_insert.
  split; [lia|]. intros k Hk. now rewrite list_lookup_insert_ne by lia.
Qed.

Lemma vector_even_row_writes (n : Z) (b : list T) :
  Z.of_nat (length b) = 2 * number_of_layers ->
  1 <= n < 2 * number_of_layers - 1 ->
  exists b', vector_even_row start e2 e4 C_upwelling C_downwelling n b = Ok b'
    /\ Z.of_nat (length b') = 2 * number_of_layers
    /\ forall k : nat, k <> Z.to_nat n -> b' !! k = b !! k.
Proof.
  unfold covers_rows in *. intros L Hn.
  unfold vector_even_row. rewrite start_up, start_down.
  run_row.
  eexists. split; [reflexivity|]. rewrite length_insert.
  split; [lia|]. intros k Hk. now rewrite list_lookup_insert_ne by lia.
Qed.
End RowProperties.

Lemma size_t_small (z : Z) : (0 <= z <= 2 ^ 64 - 1)%Z -> size_t z = z.
Proof. unfold size_t. intros. apply Z.mod_small. lia. Qed.

Lemma last_insert_back {V : Type} (v : list V) (x : V) :
  (0 < length v)%nat -> last (<[(length v - 1)%nat := x]> v) = Some x.
Proof.
  intros L. rewrite last_lookup, length_insert.
  replace (Nat.pred (length v)) with (length v - 1)%nat by lia.
  apply list_lookup_insert_eq. lia.
Qed.

Section AssemblyProperties.
Context {T : Type} `{Scalar T}.
Variable number_of_layers : Z.
Variable solution_parameters : gmap string (list T).
Variable solver_parameters : gmap string T.
Variables e1 e2 e3 e4 : list T.
Variable R_sfc : T.
Hypothesis layers : layer_count number_of_layers.
Hypothesis at_e1 : solution_parameters !! "e1" = Some e1.
Hypothesis at_e2 : solution_parameters !! "e2" = Some e2.
Hypothesis at_e3 : solution_parameters !! "e3" = Some e3.
Hypothesis at_e4 : solution_parameters !! "e4" = Some e4.
Hypothesis at_R_sfc : solver_parameters !! "Surface Reflectivity" = Some R_sfc.
Hypothesis cover1 : covers_rows number_of_layers e1.
Hypothesis cover2 : covers_rows number_of_layers e2.
Hypothesis cover3 : covers_rows number_of_layers e3.
Hypothesis cover4 : covers_rows number_of_layers e4.

(** The matrix assembly on a well-formed system: it completes, keeps the
    row count, and the first and the last row hold what lines 155-157 and
    176-178 assign. *)
Lemma AssembleTridiagonalMatrix_result (coeffcient_matrix : TridiagonalMatrix T) :
  has_rows coeffcient_matrix (2 * number_of_layers) ->
  exists m e1_0 e2_0 e1_b e2_b e3_b e4_b,
    AssembleTridiagonalMatrix number_of_layers solution_parameters
      solver_parameters coeffcient_matrix = Ok m
    /\ has_rows m (2 * number_of_layers)
    /\ (e1 !! 0%nat = Some e1_0 /\ e2 !! 0%nat = Some e2_0)
    /\ (last e1 = Some e1_b /\ last e2 = Some e2_b /\
        last e3 = Some e3_b /\ last e4 = Some e4_b)
    /\ (upper_diagonal_ m !! 0%nat = Some (of_int 0) /\
        main_diagonal_ m !! 0%nat = Some e1_0 /\
        lower_diagonal_ m !! 0%nat = Some (- e2_0)%T)
    /\ (last (upper_diagonal_ m) = Some (of_int 0) /\
        last (main_diagonal_ m) = Some (e2_b - R_sfc * e4_b)%T /\
        last (lower_diagonal_ m) = Some (e1_b - R_sfc * e3_b)%T).
Proof.
  intros Hrows. destruct layers as [L1 L2]. pose proof L2 as L3. unfold SIZE_MAX in L3.
  unfold AssembleTridiagonalMatrix.
  rewrite (map_at_Some _ _ _ at_e1), (map_at_Some _ _ _ at_e2),
    (map_at_Some _ _ _ at_e3), (map_at_Some _ _ _ at_e4),
    (map_at_Some _ _ _ at_R_sfc), !bind_Ok_l.
  unfold matrix_size. rewrite (size_t_small (2 * number_of_layers)) by lia.
  rewrite (size_t_small (2 * number_of_layers - 1)), (size_t_small (2 * number_of_layers - 2)) by lia.
  (* first row *)
  pose proof Hrows as (R1 & R2 & R3).
  pose proof cover1 as K1. pose proof cover2 as K2. pose proof cover3 as K3. pose proof cover4 as K4.
  unfold covers_rows in K1, K2, K3, K4.
  unfold matrix_first_row, set_front, front.
  destruct (vec_get_lt e1 0) as [x E]; [lia|].
  destruct (vec_get_lt e2 0) as [x0 E0]; [lia|].
  rewrite E, E0. run_row.
  apply vec_get_Ok in E, E0. change (Z.to_nat 0) with 0%nat in *.
  set (P := fun m : TridiagonalMatrix T =>
     has_rows m (2 * number_of_layers) /\
     upper_diagonal_ m !! 0%nat = Some (of_int 0) /\
     main_diagonal_ m !! 0%nat = Some x /\
     lower_diagonal_ m !! 0%nat = Some (- x0)%T).
  match goal with |- context [for_ 1 _ 2 _ ?m1] => 
    destruct (for_invariant P (matrix_odd_row e1 e2 e3 e4) 1 (2 * number_of_layers - 1) 2 m1) as [m2 [E2 P2]] end.
  { lia. }
  { intros i s Hi (Ps & Pu & Pm & Pl).
    destruct (matrix_odd_row_writes number_of_layers e1 e2 e3 e4 cover1 cover2 cover3 cover4 i s Ps) as (s' & Es & Rs & Keep); [lia|].
    exists s'. split; [exact Es|]. split; [exact Rs|].
    destruct (Keep 0%nat) as (-> & -> & ->); [lia|]. auto. }
  { unfold P, has_rows. simpl. rewrite !length_insert.
    rewrite !list_lookup_insert_eq by lia. auto. }
  rewrite E2, bind_Ok_l.
  destruct (for_invariant P (matrix_even_row e1 e2 e3 e4) 2 (2 * number_of_layers - 2) 2 m2) as [m3 [E3 P3]].
  { lia. }
  { intros i s Hi (Ps & Pu & Pm & Pl).
    destruct (matrix_even_row_writes number_of_layers e1 e2 e3 e4 cover1 cover2 cover3 cover4 i s Ps) as (s' & Es & Rs & Keep); [lia|].
    exists s'. split; [exact Es|]. split; [exact Rs|].
    destruct (Keep 0%nat) as (-> & -> & ->); [lia|]. auto. }
  { exact P2. }
  rewrite E3, bind_Ok_l. clear E2 E3 P2.
  destruct P3 as ((S1 & S2 & S3) & Pu & Pm & Pl).
  unfold matrix_last_row.
  destruct (back_cons e1) as (e1_b & B1 & Last1); [lia|].
  destruct (back_cons e2) as (e2_b & B2 & Last2); [lia|].
  destruct (back_cons e3) as (e3_b & B3 & Last3); [lia|].
  destruct (back_cons e4) as (e4_b & B4 & Last4); [lia|].
  rewrite B1, B2, B3, B4, !bind_Ok_l.
  repeat first [ rewrite bind_Ok_l | rewrite set_back_cons by lia ].
  eexists _, x, x0, e1_b, e2_b, e3_b, e4_b.
  split; [reflexivity|]. simpl. unfold has_rows. simpl.
  rewrite !length_insert, !last_insert_back by lia.
  rewrite !list_lookup_insert_ne by lia. 
  repeat split; auto.
Qed.

Variable source_terms : gmap string (list T).
Variables C_upwelling C_downwelling : list T.
Variable f_0 : T.
Variable start : list T -> result T.
Variables up_start down_start : T.
Hypothesis at_f_0 : solver_parameters !! "source flux" = Some f_0.
Hypothesis at_up : source_terms !! "C_upwelling" = Some C_upwelling.
Hypothesis at_down : source_terms !! "C_downwelling" = Some C_downwelling.
Hypothesis cover_up : covers_rows number_of_layers C_upwelling.
Hypothesis cover_down : covers_rows number_of_layers C_downwelling.
Hypothesis start_up : start C_upwelling = Ok up_start.
Hypothesis start_down : start C_downwelling = Ok down_start.

(** The assembly of the right-hand side on a well-formed system: it
    completes, the first entry is the one line 208 assigns, and the last
    entry is the one the vector had on entry. *)
Lemma AssembleCoeffcientVector_result (coeffcient_vector : list T) :
  Z.of_nat (length coeffcient_vector) = 2 * number_of_layers ->
  exists b down_0,
    AssembleCoeffcientVector start number_of_layers solution_parameters
      source_terms solver_parameters coeffcient_vector = Ok b
    /\ Z.of_nat (length b) = 2 * number_of_layers
    /\ C_downwelling !! 0%nat = Some down_0
    /\ b !! 0%nat = Some (f_0 - down_0)%T
    /\ last b = last coeffcient_vector.
Proof.
  intros Hlen. destruct layers as [L1 L2]. pose proof L2 as L3. unfold SIZE_MAX in L3.
  unfold AssembleCoeffcientVector.
  rewrite (map_at_Some _ _ _ at_e1), (map_at_Some _ _ _ at_e2),
    (map_at_Some _ _ _ at_e3), (map_at_Some _ _ _ at_e4),
    (map_at_Some _ _ _ at_R_sfc), (map_at_Some _ _ _ at_f_0),
    (map_at_Some _ _ _ at_up), (map_at_Some _ _ _ at_down), !bind_Ok_l.
  unfold matrix_size. rewrite (size_t_small (2 * number_of_layers)) by lia.
  rewrite (size_t_small (2 * number_of_layers - 1)),
    (size_t_small (2 * number_of_layers - 2)) by lia.
  pose proof cover_down as K. unfold covers_rows in K.
  unfold set_front, front.
  destruct (vec_get_lt C_downwelling 0) as [down_0 E]; [lia|].
  rewrite E. run_row.
  apply vec_get_Ok in E. change (Z.to_nat 0) with 0%nat in *.
  set (P := fun b : list T =>
     Z.of_nat (length b) = 2 * number_of_layers /\
     b !! 0%nat = Some (f_0 - down_0)%T /\
     last b = last coeffcient_vector).
  match goal with |- context [for_ 1 _ 2 _ ?b1] =>
    destruct (for_invariant P
                (vector_odd_row start e1 e3 C_upwelling C_downwelling)
                1 (2 * number_of_layers - 1) 2 b1) as [b2 [E2 P2]] end.
  { lia. }
  { intros i s Hi (Ps & P0 & Pl).
    destruct (vector_odd_row_writes number_of_layers e1 e2 e3 e4
                cover1 cover3 C_upwelling C_downwelling start
                up_start down_start cover_up cover_down start_up start_down
                i s Ps) as (s' & Es & Rs & Keep); [lia|].
    exists s'. split; [exact Es|]. split; [exact Rs|].
    rewrite last_lookup, (Keep 0%nat), Keep by lia.
    rewrite <- Pl, last_lookup. split; [assumption|]. do 2 f_equal. lia. }
  { unfold P. rewrite last_lookup, length_insert.
    rewrite list_lookup_insert_eq, list_lookup_insert_ne by lia.
    now rewrite last_lookup. }
  rewrite E2, bind_Ok_l.
  destruct (for_invariant P
              (vector_even_row start e2 e4 C_upwelling C_downwelling)
              2 (2 * number_of_layers - 2) 2 b2) as [b3 [E3 P3]].
  { lia. }
  { intros i s Hi (Ps & P0 & Pl).
    destruct (vector_even_row_writes number_of_layers e1 e2 e3 e4
                cover2 cover4 C_upwelling C_downwelling start
                up_start down_start cover_up cover_down start_up start_down
                i s Ps) as (s' & Es & Rs & Keep); [lia|].
    exists s'. split; [exact Es|]. split; [exact Rs|].
    rewrite last_lookup, (Keep 0%nat), Keep by lia.
    rewrite <- Pl, last_lookup. split; [assumption|]. do 2 f_equal. lia. }
  { exact P2. }
  rewrite E3, bind_Ok_l. destruct P3 as (S1 & S2 & S3).
  exists b3, down_0. auto.
Qed.

(** C8. Row 0 of the assembled system: the main diagonal is [e1[0]], the
    lower diagonal is [-e2[0]], the upper diagonal is 0, and the
    right-hand side is the incident flux (the solver parameter
    ["source flux"]) minus the downwelling source term of layer 0. *)
Theorem top_of_atmosphere_row
    (coeffcient_matrix : TridiagonalMatrix T) (coeffcient_vector : list T) :
  has_rows coeffcient_matrix (2 * number_of_layers) ->
  Z.of_nat (length coeffcient_vector) = 2 * number_of_layers ->
  exists m b e1_0 e2_0 down_0,
    AssembleTridiagonalMatrix number_of_layers solution_parameters
      solver_parameters coeffcient_matrix = Ok m
    /\ AssembleCoeffcientVector start number_of_layers solution_parameters
         source_terms solver_parameters coeffcient_vector = Ok b
    /\ e1 !! 0%nat = Some e1_0
    /\ e2 !! 0%nat = Some e2_0
    /\ C_downwelling !! 0%nat = Some down_0
    /\ main_diagonal_ m !! 0%nat = Some e1_0
    /\ lower_diagonal_ m !! 0%nat = Some (- e2_0)%T
    /\ upper_diagonal_ m !! 0%nat = Some (of_int 0)
    /\ b !! 0%nat = Some (f_0 - down_0)%T.
Proof.
  intros Hm Hb.
  destruct (AssembleTridiagonalMatrix_result coeffcient_matrix Hm)
    as (m & e1_0 & e2_0 & _ & _ & _ & _ & Em & _ & (E1 & E2) & _
        & (U0 & M0 & L0) & _).
  destruct (AssembleCoeffcientVector_result coeffcient_vector Hb)
    as (b & down_0 & Eb & _ & D0 & B0 & _).
  exists m, b, e1_0, e2_0, down_0. repeat split; assumption.
Qed.

(** C6, as the code has it. Called on diagonals of [2 * N] entries, the
    assembly completes and returns diagonals of [2 * N] entries (it does
    not allocate or resize), and the upper-diagonal entries of the first
    and of the last row are exactly zero. *)
Theorem assembled_system_rows_and_zero_entries
    (coeffcient_matrix : TridiagonalMatrix T) :
  has_rows coeffcient_matrix (2 * number_of_layers) ->
  exists m,
    AssembleTridiagonalMatrix number_of_layers solution_parameters
      solver_parameters coeffcient_matrix = Ok m
    /\ has_rows m (2 * number_of_layers)
    /\ upper_diagonal_ m !! 0%nat = Some (of_int 0)
    /\ last (upper_diagonal_ m) = Some (of_int 0).
Proof.
  intros Hm.
  destruct (AssembleTridiagonalMatrix_result coeffcient_matrix Hm)
    as (m & ? & ? & ? & ? & ? & ? & Em & Rows & _ & _ & (U0 & _) & (Ul & _)).
  exists m. repeat split; assumption || apply Rows.
Qed.
End AssemblyProperties.

(** The two-layer system on a matrix and a right-hand side that hold 9
    everywhere: rows 0, 1 and 3 of the matrix and rows 0 and 1 of the
    right-hand side are written. *)
Example AssembleTridiagonalMatrix_two_layers :
  AssembleTridiagonalMatrix 2 example_solution_parameters
    example_solver_parameters example_matrix
  = Ok {| upper_diagonal_ := [0; -1312; 9; 0];
          main_diagonal_ := [2; -1142; 9; 137 # 10];
          lower_diagonal_ := [-11; 1278; 9; 33 # 10] |}%Q.
Proof. vm_compute. reflexivity. Qed.

Example AssembleCoeffcientVector_two_layers :
  AssembleCoeffcientVector front 2 example_solution_parameters
    example_source_terms example_solver_parameters example_vector
  = Ok [5 # 6; 1200 # 252; 9; 9]%Q.
Proof. vm_compute. reflexivity. Qed.

(** The system [Solve] allocates for three columns has three rows; the
    assembly for two layers returns it with three rows. *)
Example AssembleTridiagonalMatrix_three_columns :
  AssembleTridiagonalMatrix 2 example_solution_parameters
    example_solver_parameters (fst (Solve_system_variables [0; 0; 0]%Q))
  = Ok {| upper_diagonal_ := [0; -1312; 0];
          main_diagonal_ := [2; -1142; 137 # 10];
          lower_diagonal_ := [-11; 1278; 33 # 10] |}%Q.
Proof. vm_compute. reflexivity. Qed.

(** Delta scaling on the rationals, for the layer with albedo 1/2 and
    asymmetry parameter 1/3: the optical depth is not touched. *)
Example delta_scaling_one_layer :
  delta_scaling 1 (one_layer_state 1 (1 # 2) (1 # 3))%Q
  = Ok (one_layer_state 1 (3936 # 12672) (36 # 132))%Q.
Proof. vm_compute. reflexivity. Qed.

Lemma top_of_atmosphere_row_witness :
  exists m b e1_0 e2_0 down_0,
    AssembleTridiagonalMatrix 2 example_solution_parameters
      example_solver_parameters example_matrix = Ok m
    /\ AssembleCoeffcientVector front 2 example_solution_parameters
         example_source_terms example_solver_parameters example_vector = Ok b
    /\ [2; 3; 5; 7]%Q !! 0%nat = Some e1_0
    /\ [11; 13; 17; 19]%Q !! 0%nat = Some e2_0
    /\ [1 # 6; 1 # 7; 1 # 8; 1 # 9]%Q !! 0%nat = Some down_0
    /\ main_diagonal_ m !! 0%nat = Some e1_0
    /\ lower_diagonal_ m !! 0%nat = Some (- e2_0)%T
    /\ upper_diagonal_ m !! 0%nat = Some (of_int 0)
    /\ b !! 0%nat = Some (1%Q - down_0)%T.
Proof.
  apply (top_of_atmosphere_row 2 example_solution_parameters
           example_solver_parameters
           [2; 3; 5; 7]%Q [11; 13; 17; 19]%Q [23; 29; 31; 37]%Q
           [41; 43; 47; 53]%Q (1 # 10)%Q)
    with (C_upwelling := [1 # 2; 1 # 3; 1 # 4; 1 # 5]%Q)
         (up_start := (1 # 2)%Q) (down_start := (1 # 6)%Q);
    try (vm_compute; reflexivity);
    unfold layer_count, covers_rows, has_rows, SIZE_MAX; simpl; lia.
Defined.

Lemma assembled_system_rows_and_zero_entries_witness :
  exists m,
    AssembleTridiagonalMatrix 2 example_solution_parameters
      example_solver_parameters example_matrix = Ok m
    /\ has_rows m (2 * 2)
    /\ upper_diagonal_ m !! 0%nat = Some (of_int 0)
    /\ last (upper_diagonal_ m) = Some (of_int 0).
Proof.
  apply (assembled_system_rows_and_zero_entries 2 example_solution_parameters
           example_solver_parameters
           [2; 3; 5; 7]%Q [11; 13; 17; 19]%Q [23; 29; 31; 37]%Q
           [41; 43; 47; 53]%Q (1 # 10)%Q);
    try (vm_compute; reflexivity);
    unfold layer_count, covers_rows, has_rows, SIZE_MAX; simpl; lia.
Defined.

(** C6 fails as stated: on the two-layer system the lower-diagonal entry of
    the last row is [e1.back() - R_sfc * e3.back() = 7 - 37/10], not zero. *)
Lemma last_row_lower_diagonal_not_zero :
  exists m x,
    has_rows example_matrix (2 * 2)
    /\ AssembleTridiagonalMatrix 2 example_solution_parameters
         example_solver_parameters example_matrix = Ok m
    /\ last (lower_diagonal_ m) = Some x
    /\ (x == 33 # 10)%Q
    /\ ~ (x == 0)%Q.
Proof.
  eexists _, _. split; [unfold has_rows; simpl; lia|].
  split; [vm_compute; reflexivity|].
  split; [vm_compute; reflexivity|].
  split; [reflexivity | discriminate].
Qed.

(** The system variables of [Solve] have one row per column, whatever the
    number of layers is. *)
Lemma Solve_system_variables_rows {T : Type} `{Scalar T} (sza : list T) :
  has_rows (fst (Solve_system_variables sza)) (Z.of_nat (length sza))
  /\ length (snd (Solve_system_variables sza)) = length sza.
Proof.
  unfold has_rows, Solve_system_variables. simpl.
  rewrite !length_replicate. lia.
Qed.

(** C7, at the two-layer system whose matrix and right-hand side hold 9 in
    every entry on entry. The last row of the matrix is assigned: its lower
    and main diagonal combine the last entries of [e1 .. e4] with [R_sfc],
    its upper diagonal is 0. The last entry of the right-hand side is not
    assigned: it still holds 9. *)
Theorem surface_row_right_hand_side_not_assigned :
  exists m b,
    AssembleTridiagonalMatrix 2 example_solution_parameters
      example_solver_parameters example_matrix = Ok m
    /\ AssembleCoeffcientVector front 2 example_solution_parameters
         example_source_terms example_solver_parameters example_vector = Ok b
    /\ last (lower_diagonal_ m) = Some (7 - (1 # 10) * 37)%Q
    /\ last (main_diagonal_ m) = Some (19 - (1 # 10) * 53)%Q
    /\ last (upper_diagonal_ m) = Some 0%Q
    /\ last example_vector = Some 9%Q
    /\ last b = Some 9%Q.
Proof.
  eexists _, _. repeat split; vm_compute; reflexivity.
Qed.

Lemma ComputeRadiationField_output_independent_of_inputs_witness :
  ComputeRadiationField [0%Q] (∅ : gmap string Grid) (∅ : gmap string unit)
    [] example_field
  = ComputeRadiationField [1 # 2; 1 # 3]%Q example_grids
      (∅ : gmap string unit) [[1; 2]; [3; 4]]%Q example_field'
  /\ (forall f' : RadiationField Q,
        ComputeRadiationField [0%Q] (∅ : gmap string Grid)
          (∅ : gmap string unit) [] example_field = Ok f' ->
        f' = placeholder_field example_field)
  /\ (counters_fit example_field ->
      ComputeRadiationField [0%Q] (∅ : gmap string Grid) (∅ : gmap string unit)
        [] example_field
      = Ok (placeholder_field example_field)).
Proof.
  apply ComputeRadiationField_output_independent_of_inputs;
    unfold same_lengths; simpl; auto.
Defined.

Lemma direct_irradiance_is_sequential_fill_witness :
  length (direct_ (spectral_irradiance_ (placeholder_field example_field)))
  = length (direct_ (spectral_irradiance_ example_field))
  /\ forall k : nat,
       (k < length (direct_ (spectral_irradiance_ example_field)))%nat ->
       direct_ (spectral_irradiance_ (placeholder_field example_field)) !! k
       = Some (of_int (42 + Z.of_nat k)).
Proof.
  apply (direct_irradiance_is_sequential_fill [1 # 2]%Q example_grids
           (∅ : gmap string unit) [] example_field).
  vm_compute. reflexivity.
Defined.

(** C1 fails as stated: on a field with two layer boundaries the direct
    irradiance comes out as [42; 43].  It increases downwards, so it is
    [F0 * exp(-tau_cum / mu0)] for no incident flux [F0], no [mu0 > 0] and no
    cumulative optical depths [0 <= tau0 <= tau1]. *)
Lemma direct_irradiance_not_beer_law :
  exists f',
    ComputeRadiationField [0%R] example_grids (∅ : gmap string unit) []
      example_real_field = Ok f'
    /\ direct_ (spectral_irradiance_ f') = [42%R; 43%R]
    /\ ~ exists F0 mu0 tau0 tau1 : R,
          (0 < mu0)%R /\ (0 <= tau0 <= tau1)%R /\
          direct_ (spectral_irradiance_ f')
          = [beer_law F0 tau0 mu0; beer_law F0 tau1 mu0].
Proof.
  eexists. split; [reflexivity|]. split; [reflexivity|].
  intros (F0 & mu0 & tau0 & tau1 & Hmu & Htau & E).
  simpl in E. unfold beer_law in E. simpl in E.
  injection E as E0 E1.
  assert (Hle : (exp (- tau1 / mu0) <= exp (- tau0 / mu0))%R).
  { assert (Hdiv : (- tau1 / mu0 <= - tau0 / mu0)%R).
    { unfold Rdiv. apply Rmult_le_compat_r; [|lra].
      left. now apply Rinv_0_lt_compat. }
    destruct Hdiv as [Hlt | ->]; [left; now apply exp_increasing | right; reflexivity]. }
  pose proof (exp_pos (- tau0 / mu0)) as P0.
  pose proof (exp_pos (- tau1 / mu0)) as P1.
  change (42 + 1)%Z with 43%Z in E1.
  set (x0 := exp (- tau0 / mu0)) in *. set (x1 := exp (- tau1 / mu0)) in *.
  assert (HF : (0 < F0)%R).
  { destruct (Rle_or_lt F0 0) as [Hneg|]; [|assumption].
    assert ((F0 * x0 <= 0)%R) by nra. lra. }
  assert ((F0 * x1 <= F0 * x0)%R) by (apply Rmult_le_compat_l; lra).
  lra.
Qed.

(** ** One column with one layer, symbolically *)

Section OneLayerEvaluation.
Context {T : Type} `{Scalar T} `{Elementary T}.
Local Open Scope scalar_scope.
Local Abbreviation lit := of_int.

(** The functions evaluated on one column with one layer, for arbitrary
    stored values: what each statement of the source computes. *)
Lemma derive_parameters_one_layer
    (optical_depth albedo sza gamma1 gamma2 gamma3 gamma4 mu : T) :
  let omega := optical_depth in
  let g := albedo in
  let mu_0 := std_acos sza in
  let gamma1' := lit 7 - omega * (lit 4 + lit 3 * g) in
  let gamma2' := - (lit 1 - omega * (lit 4 - lit 3 * g)) / lit 4 in
  derive_parameters [optical_depth] [albedo] [sza] 0
    (one_layer_gammas gamma1 gamma2 gamma3 gamma4 mu)
  = Ok (one_layer_gammas gamma1' gamma2'
          ((lit 2 - lit 3 * g * mu_0) / lit 4)
          gamma4
          (std_sqrt (gamma1' * gamma1' - gamma2' * gamma2'))).
Proof. vm_compute. reflexivity. Qed.

Lemma DeltaEddingtonApproximation_one_layer
    (optical_depth albedo asymmetry sza gamma1 gamma2 gamma3 gamma4 mu : T) :
  let omega := optical_depth in
  let g := albedo in
  let mu_0 := std_acos sza in
  DeltaEddingtonApproximation
    (one_layer_state optical_depth albedo asymmetry)
    (one_layer_gammas gamma1 gamma2 gamma3 gamma4 mu) [sza]
  = Ok (one_layer_gammas
          (lit 7 - omega * (lit 4 + lit 3 * g))
          (- (lit 1 - omega * (lit 4 - lit 3 * g)) / lit 4)
          ((lit 2 - lit 3 * g * mu_0) / lit 4)
          gamma4
          one_half).
Proof. vm_compute. reflexivity. Qed.

Lemma InitializeVariables_one_layer
    (tau omega g sza gamma1 gamma2 gamma3 gamma4 mu lambda F0 S_i S_s Cu Cd : T) :
  let f := omega * omega in
  let omega1 := (omega - f) / (lit 1 - f) in
  let g' := (lit 1 - f) * g / (lit 1 - g * f) in
  let omega' := (lit 1 - g' * f) * omega1 in
  let mu_0 := std_acos sza in
  let exponential_term := omega' * M_PI * F0 * std_exp (- (lit 0 - tau) / mu_0) in
  let tau_cumulative := lit 0 + tau in
  InitializeVariables [sza] example_grids (∅ : gmap string unit) ∅
    (one_layer_parameters gamma1 gamma2 gamma3 gamma4 mu lambda F0 S_i S_s)
    (one_layer_sources Cu Cd)
    (one_layer_state tau omega g)
  = Ok {| radiator_states := one_layer_state tau omega' g';
          parameters :=
            one_layer_parameters gamma1 gamma2 gamma3 gamma4 mu lambda F0
              (F0 * mu_0 * std_exp (- tau_cumulative / mu_0))
              (M_PI * F0);
          sources :=
            one_layer_sources
              (exponential_term
               * (((gamma1 - lit 1) / mu_0) * gamma3 + gamma4 * gamma2))
              (exponential_term
               * (((gamma1 + lit 1) / mu_0) * gamma4 + gamma2 * gamma3)) |}.
Proof. vm_compute. reflexivity. Qed.

Lemma one_layer_gammas_lookup (gamma1 gamma2 gamma3 gamma4 mu : T) :
  let p := one_layer_gammas gamma1 gamma2 gamma3 gamma4 mu in
  p !! "gamma1" = Some [gamma1] /\ p !! "gamma2" = Some [gamma2] /\
  p !! "gamma3" = Some [gamma3] /\ p !! "gamma4" = Some [gamma4] /\
  p !! "mu" = Some [mu] /\ p !! "lambda" = None /\ p !! "Gamma" = None.
Proof. repeat split; vm_compute; reflexivity. Qed.

Lemma one_layer_sources_lookup (C_upwelling C_downwelling : T) :
  let c := one_layer_sources C_upwelling C_downwelling in
  c !! "C_upwelling" = Some [C_upwelling] /\
  c !! "C_downwelling" = Some [C_downwelling].
Proof. repeat split; vm_compute; reflexivity. Qed.
End OneLayerEvaluation.

(** ** InitializeVariables: completion, and the denominator *)

Lemma rd_long {V : Type} (n : nat) (m : gmap string (list V)) (key : string) (i : Z) :
  long_vector n m key -> (Z.to_nat i < n)%nat -> exists x, rd m key i = Ok x.
Proof.
  intros (v & E & L) Hi. unfold rd. rewrite (map_at_Some _ _ _ E), bind_Ok_l.
  apply vec_get_lt. lia.
Qed.

Lemma wr_long {V : Type} (n : nat) (m : gmap string (list V)) (key : string) (i : Z) (x : V) :
  long_vector n m key -> (Z.to_nat i < n)%nat ->
  exists m', wr m key i x = Ok m'
    /\ forall key', long_vector n m key' -> long_vector n m' key'.
Proof.
  intros (v & E & L) Hi. unfold wr.
  rewrite (map_at_Some _ _ _ E), bind_Ok_l, vec_set_lt, bind_Ok_l by lia.
  eexists. split; [reflexivity|].
  intros key' (v' & E' & L').
  destruct (decide (key = key')) as [<-|Hne].
  - exists (<[Z.to_nat i := x]> v). rewrite lookup_insert_eq, length_insert. auto.
  - exists v'. rewrite lookup_insert_ne by assumption. auto.
Qed.

Section Totality.
Context {T : Type} `{Scalar T} `{Elementary T}.

Lemma delta_scaling_body_runs (n : nat) (i : Z) (r : RadiatorState T) :
  state_covers n r -> (0 <= i < Z.of_nat n) ->
  exists r', delta_scaling_body i r = Ok r' /\ state_covers n r'.
Proof.
  unfold state_covers. intros (L1 & L2 & L3) Hi.
  unfold delta_scaling_body.
  repeat first
    [ rewrite bind_Ok_l
    | progress cbn [with_albedo with_asymmetry optical_depth_
                      single_scattering_albedo_ assymetry_parameter_]
    | read_vec; [rewrite ?length_insert; lia|]
    | write_vec; [|rewrite ?length_insert; lia] ].
  eexists. split; [reflexivity|]. cbn. rewrite !length_insert. auto.
Qed.

Ltac key_in :=
  match goal with
  | F : Forall (long_vector ?n ?m) ?keys |- long_vector ?n ?m ?k =>
      apply (proj1 (Forall_forall _ _) F); unfold solution_keys, source_keys; repeat constructor
  end.

Lemma source_terms_body_runs (n : nat) (sza : list T) (r : RadiatorState T)
    (i : Z) (w : Workspace) :
  (n <= length sza)%nat -> state_covers n r ->
  maps_cover n (ws_solution w) (ws_sources w) ->
  (0 <= i < Z.of_nat n) ->
  exists w', source_terms_body sza r i w = Ok w'
    /\ maps_cover n (ws_solution w') (ws_sources w').
Proof.
  unfold state_covers, maps_cover. intros Ls (L1 & L2 & L3) (Fp & Fc) Hi.
  unfold source_terms_body.
  repeat first
    [ rewrite bind_Ok_l
    | read_vec; [lia|]
    | match goal with
      | |- context [rd ?m ?k i] =>
          let x := fresh "x" in
          let E := fresh "E" in
          destruct (rd_long n m k i) as [x E]; [key_in | lia | rewrite E]
      | |- context [wr ?m ?k i ?v] =>
          let m' := fresh "m" in
          let E := fresh "E" in
          let K := fresh "K" in
          destruct (wr_long n m k i v) as (m' & E & K); [key_in | lia |];
          rewrite E;
          first [ assert (Forall (long_vector n m') solution_keys)
                    by (eapply Forall_impl; [eassumption | exact K])
                | assert (Forall (long_vector n m') source_keys)
                    by (eapply Forall_impl; [eassumption | exact K]) ]
      end ].
  eexists. split; [reflexivity|]. cbn. auto.
Qed.

Lemma long_vector_at (n : nat) (m : gmap string (list T)) (keys : list string) (key : string) :
  Forall (long_vector n m) keys -> key ∈ keys -> exists v, map_at m key = Ok v.
Proof.
  intros F Hin. destruct (proj1 (Forall_forall _ _) F key Hin) as (v & E & _).
  exists v. now apply map_at_Some.
Qed.

(** On well-formed inputs the initialization completes: no value stored in
    the maps or the radiator state can make it fail. *)
Lemma InitializeVariables_runs {ProfilePolicy : Type}
    (solar_zenith_angles : list T) (grids : gmap string Grid)
    (profiles : gmap string ProfilePolicy)
    (solver_parameters solution_parameters source_terms : gmap string (list T))
    (accumulated_radiator_states : RadiatorState T) :
  let number_of_columns := length solar_zenith_angles in
  grids_agree grids number_of_columns ->
  state_covers number_of_columns accumulated_radiator_states ->
  maps_cover number_of_columns solution_parameters source_terms ->
  exists out,
    InitializeVariables solar_zenith_angles grids profiles solver_parameters
      solution_parameters source_terms accumulated_radiator_states = Ok out.
Proof.
  intros n (vg & wg & Evg & Ewg & Nvg & Nwg) Hr (Fp & Fc).
  unfold InitializeVariables. fold n.
  rewrite (map_at_Some _ _ _ Evg), (map_at_Some _ _ _ Ewg), !bind_Ok_l.
  rewrite Nvg, Nwg, !Z.eqb_refl. cbn [assert]. rewrite !bind_Ok_l.
  destruct (for_invariant (state_covers n) delta_scaling_body 0 (Z.of_nat n) 1
              accumulated_radiator_states) as (r & Er & Pr).
  { lia. }
  { intros i s Hi Ps. now apply delta_scaling_body_runs. }
  { exact Hr. }
  unfold delta_scaling. rewrite Er, bind_Ok_l.
  assert (Pr' : state_covers n (slant_optical_depth r)).
  { destruct Pr as (? & ? & ?). unfold state_covers, slant_optical_depth. cbn.
    rewrite length_map. auto. }
  repeat match goal with
  | |- context [map_at source_terms ?k] =>
      let v := fresh "v" in let E := fresh "E" in
      destruct (long_vector_at n source_terms source_keys k Fc) as [v E];
      [unfold source_keys; repeat constructor | rewrite E, bind_Ok_l; clear E v]
  | |- context [map_at solution_parameters ?k] =>
      let v := fresh "v" in let E := fresh "E" in
      destruct (long_vector_at n solution_parameters solution_keys k Fp) as [v E];
      [unfold solution_keys; repeat constructor | rewrite E, bind_Ok_l; clear E v]
  end.
  match goal with |- context [for_ 0 _ 1 ?body ?w0] =>
    destruct (for_invariant
                (fun w => maps_cover n (ws_solution w) (ws_sources w))
                body 0 (Z.of_nat n) 1 w0) as (w & Ew & Pw)
  end.
  { lia. }
  { intros i s Hi Ps. apply (source_terms_body_runs n); auto. }
  { split; assumption. }
  rewrite Ew, bind_Ok_l. eexists. reflexivity.
Qed.
End Totality.

Section DenominatorProperties.
Context {T : Type} `{Scalar T} `{Elementary T}.

Lemma counting_integer_valued (offset : Z) (n : nat) :
  integer_valued (counting offset n).
Proof.
  unfold integer_valued, counting. apply Forall_fmap, Forall_forall.
  intros z _. now exists z.
Qed.

Lemma example_grids_agree : grids_agree example_grids 1.
Proof.
  exists {| NumberOfColumns := 1 |}, {| NumberOfColumns := 1 |}.
  repeat split; vm_compute; reflexivity.
Qed.

Lemma one_layer_maps_cover
    (gamma1 gamma2 gamma3 gamma4 mu lambda F0 S_i S_s Cu Cd : T) :
  maps_cover 1
    (one_layer_parameters gamma1 gamma2 gamma3 gamma4 mu lambda F0 S_i S_s)
    (one_layer_sources Cu Cd).
Proof.
  split; repeat constructor;
    (eexists; split; [vm_compute; reflexivity | simpl; lia]).
Qed.
End DenominatorProperties.

(** C5, as the code has it. No error is signalled for the denominator: on
    every well-formed input the initialization completes, whatever the
    values of the eigenvalues and the zenith angles are; and every value
    that [ComputeRadiationField] writes into the radiation field is an
    integer. *)
Theorem denominator_never_signalled
    {T : Type} `{Scalar T} `{Elementary T} {GridPolicy ProfilePolicy : Type}
    (solar_zenith_angles : list T) (grids : gmap string Grid)
    (profiles : gmap string ProfilePolicy)
    (solver_parameters solution_parameters source_terms : gmap string (list T))
    (accumulated_radiator_states : RadiatorState T)
    (sza : list T) (field_grids : gmap string GridPolicy)
    (params : Array2D T) (f f' : RadiationField T) :
  grids_agree grids (length solar_zenith_angles) ->
  state_covers (length solar_zenith_angles) accumulated_radiator_states ->
  maps_cover (length solar_zenith_angles) solution_parameters source_terms ->
  (exists out,
     InitializeVariables solar_zenith_angles grids profiles solver_parameters
       solution_parameters source_terms accumulated_radiator_states = Ok out)
  /\ (ComputeRadiationField sza field_grids profiles params f = Ok f' ->
      components_integer_valued (spectral_irradiance_ f')
      /\ components_integer_valued (actinic_flux_ f')).
Proof.
  intros Hg Hr Hm. split.
  - now apply InitializeVariables_runs.
  - intros E. apply ComputeRadiationField_Ok in E. subst f'.
    unfold components_integer_valued, placeholder_field. cbn.
    repeat split; apply counting_integer_valued.
Qed.

(** ** The functions at concrete layers, over the real numbers *)

Section RealEvaluation.
Local Open Scope R_scope.

(** Goals [Some [x] = Some [y]] are reduced to [x = y]. *)
Ltac one_entry :=
  lazymatch goal with
  | |- Some [_] = Some [_] => do 2 f_equal
  | |- _ => idtac
  end.

Lemma Rdiv_eq_mult (a x c : R) : x <> 0 -> a / x = c -> a = c * x.
Proof. intros Hx <-. field. exact Hx. Qed.

Lemma PI_gt_3 : 3 < PI.
Proof. pose proof PI2_3_2. lra. Qed.

(** C2, at the layer with optical depth 1, single-scattering albedo 1/2 and
    asymmetry parameter 1/3. The specification gives [f = 1/9],
    [omega' = 8/17], [g' = 1/4] and [tau' = 17/18]. The source takes
    [f = omega^2 = 1/4] and leaves the layer with albedo 41/132, asymmetry
    parameter 3/11 and the optical depth 1 it had. *)
Theorem delta_scaling_at_one_layer :
  exists out,
    InitializeVariables [0] example_grids (∅ : gmap string unit) ∅
      (one_layer_parameters 0 0 0 0 0 0 0 0 0)
      (one_layer_sources 0 0)
      (one_layer_state 1 (1 / 2) (1 / 3)) = Ok out
    /\ radiator_states out = one_layer_state 1 (41 / 132) (3 / 11)
    /\ spec_scaled_omega (1 / 2) (1 / 3) = 8 / 17
    /\ spec_scaled_g (1 / 3) = 1 / 4
    /\ spec_scaled_tau (1 / 2) (1 / 3) 1 = 17 / 18.
Proof.
  rewrite InitializeVariables_one_layer. eexists. split; [reflexivity|].
  cbn -[one_layer_state].
  split; [ f_equal; field | ].
  unfold spec_scaled_omega, spec_scaled_g, spec_scaled_tau, spec_f. cbn.
  repeat split; field.
Qed.

(** C3, at the layer with optical depth 1/2, delta-scaled albedo 1/4 and
    asymmetry parameter 0 under a zenith angle 0. The specification gives
    [gamma1 = 3/2], [gamma2 = 0], [gamma3 = 1/2] and [gamma4 = 1/2]. The
    source computes [gamma1 = 37/8], [gamma2 = 5/32] and
    [gamma3 = (2 - 3 (1/4) (PI/2)) / 4] from the optical depth, the albedo
    and the arc cosine of the angle, and leaves [gamma4] as it was. *)
Theorem gamma_coefficients_at_one_layer :
  exists p,
    DeltaEddingtonApproximation (one_layer_state (1 / 2) (1 / 4) 0)
      (one_layer_gammas 0 0 0 0 0) [0] = Ok p
    /\ p !! "gamma1" = Some [37 / 8]
    /\ p !! "gamma2" = Some [5 / 32]
    /\ p !! "gamma3" = Some [(2 - 3 * (1 / 4) * (PI / 2)) / 4]
    /\ p !! "gamma4" = Some [0]
    /\ spec_gamma1 (1 / 4) 0 = 3 / 2
    /\ spec_gamma2 (1 / 4) 0 = 0
    /\ spec_gamma3 0 (spec_mu0 0) = 1 / 2
    /\ spec_gamma4 (spec_gamma3 0 (spec_mu0 0)) = 1 / 2.
Proof.
  rewrite DeltaEddingtonApproximation_one_layer. eexists. split; [reflexivity|].
  match goal with |- context [one_layer_gammas ?a ?b ?c ?d ?e] =>
    destruct (one_layer_gammas_lookup a b c d e) as (-> & -> & -> & -> & _)
  end.
  unfold spec_gamma1, spec_gamma2, spec_gamma3, spec_gamma4, spec_mu0.
  cbn. rewrite acos_0, cos_0.
  repeat split; one_entry; field.
Qed.

(** C9, at a layer for which the source computes [gamma1 = 6] and
    [gamma2 = 0]. The specification gives [lambda = 6] and [Gamma = 0] in
    storage of their own. In the source both are written to the vector at
    ["mu"]: after the two square roots it holds 6, at the end of the
    iteration it holds 1/2, and nothing is stored at ["lambda"] or
    ["Gamma"]. *)
Theorem eigenvalue_and_coupling_ratio_at_one_layer :
  exists p1 p,
    derive_parameters [1 / 4] [0] [0] 0 (one_layer_gammas 0 0 0 0 0) = Ok p1
    /\ DeltaEddingtonApproximation (one_layer_state (1 / 4) 0 0)
         (one_layer_gammas 0 0 0 0 0) [0] = Ok p
    /\ p1 !! "gamma1" = Some [6] /\ p1 !! "gamma2" = Some [0]
    /\ p1 !! "mu" = Some [6]
    /\ p !! "mu" = Some [1 / 2]
    /\ p !! "lambda" = None /\ p !! "Gamma" = None
    /\ spec_lambda 6 0 = 6
    /\ spec_Gamma 6 0 = 0.
Proof.
  assert (S36 : sqrt (6 * 6 - 0 * 0) = 6).
  { replace (6 * 6 - 0 * 0) with (6 * 6) by ring. apply sqrt_square. lra. }
  rewrite derive_parameters_one_layer, DeltaEddingtonApproximation_one_layer.
  eexists _, _. split; [reflexivity|]. split; [reflexivity|].
  repeat match goal with |- context [one_layer_gammas ?a ?b ?c ?d ?e !! _] =>
    destruct (one_layer_gammas_lookup a b c d e) as (-> & -> & _ & _ & -> & -> & ->)
  end.
  unfold spec_lambda, spec_Gamma, spec_lambda. cbn.
  replace (7 - 1 / 4 * (4 + 3 * 0)) with 6 by field.
  replace (- (1 - 1 / 4 * (4 - 3 * 0)) / 4) with 0 by field.
  rewrite S36.
  repeat split; one_entry; try reflexivity; field.
Qed.

(** C4, at a layer with albedo 1/2 and no optical depth, under a zenith
    angle 0, with [gamma1 = gamma4 = 1], [gamma2 = gamma3 = 0],
    [lambda = 3/2] and a unit flux. The source stores
    [C_downwelling = 4/3]: the exponential term times the bracket, not
    divided by the denominator, which is [9/4 - 4/PI^2] here, neither 0 nor
    1. The formulas of the specification give [4 PI / 5]. *)
Theorem source_terms_at_one_layer :
  exists out,
    InitializeVariables [0] example_grids (∅ : gmap string unit) ∅
      (one_layer_parameters 1 0 0 1 0 (3 / 2) 1 0 0)
      (one_layer_sources 0 0)
      (one_layer_state 0 (1 / 2) 0) = Ok out
    /\ sources out !! "C_downwelling" = Some [4 / 3]
    /\ sources out !! "C_upwelling" = Some [0]
    /\ denominator (3 / 2) (std_acos 0) = 9 / 4 - 4 / (PI * PI)
    /\ denominator (3 / 2) (std_acos 0) <> 0
    /\ denominator (3 / 2) (std_acos 0) <> 1
    /\ spec_C_downwelling
         (spec_exp_term (spec_scaled_omega (1 / 2) 0) (spec_mu0 0) 1
            (spec_scaled_tau (1 / 2) 0 0))
         1 0 0 1 (spec_mu0 0) (spec_denom (3 / 2) (spec_mu0 0))
       = 4 * PI / 5
    /\ 4 * PI / 5 <> 4 / 3.
Proof.
  pose proof PI_gt_3 as HPI.
  assert (HPI2 : 9 < PI * PI) by nra.
  assert (Hden : denominator (3 / 2) (std_acos 0) = 9 / 4 - 4 / (PI * PI)).
  { unfold denominator. cbn. rewrite acos_0. field. lra. }
  rewrite InitializeVariables_one_layer. eexists. split; [reflexivity|].
  cbn [sources].
  match goal with |- context [one_layer_sources ?a ?b !! _] =>
    destruct (one_layer_sources_lookup a b) as (-> & ->)
  end.
  rewrite Hden.
  unfold spec_C_downwelling, spec_exp_term, spec_scaled_omega, spec_scaled_tau,
    spec_f, spec_denom, spec_mu0.
  cbn. rewrite acos_0, cos_0.
  replace (- (0 - 0) / (PI / 2)) with 0 by (field; lra).
  replace (- ((1 - 1 / 2 * (0 * 0)) * 0) / 1) with 0 by field.
  rewrite exp_0.
  repeat split; one_entry; try (field; lra).
  - intros E. assert (E' : 4 / (PI * PI) = 9 / 4) by lra.
    apply Rdiv_eq_mult in E'; lra.
  - intros E. assert (E' : 4 / (PI * PI) = 5 / 4) by lra.
    apply Rdiv_eq_mult in E'; lra.
  - lra.
Qed.

(** C5 fails as stated: with [lambda = 2/PI] under a zenith angle 0 the
    denominator the source computes is zero, and the initialization
    completes and stores the source terms. *)
Lemma zero_denominator_not_signalled :
  exists out,
    denominator (2 / PI) (std_acos 0) = 0
    /\ InitializeVariables [0] example_grids (∅ : gmap string unit) ∅
         (one_layer_parameters 1 0 0 1 0 (2 / PI) 1 0 0)
         (one_layer_sources 0 0)
         (one_layer_state 0 (1 / 2) 0) = Ok out
    /\ sources out !! "C_downwelling" = Some [4 / 3].
Proof.
  pose proof PI_gt_3 as HPI.
  rewrite InitializeVariables_one_layer. eexists.
  split; [unfold denominator; cbn; rewrite acos_0; field; lra|].
  split; [reflexivity|]. cbn [sources].
  match goal with |- context [one_layer_sources ?a ?b !! _] =>
    destruct (one_layer_sources_lookup a b) as (_ & ->)
  end.
  cbn. rewrite acos_0.
  replace (- (0 - 0) / (PI / 2)) with 0 by (field; lra).
  rewrite exp_0. one_entry. field. lra.
Qed.

Lemma denominator_never_signalled_witness :
  (exists out,
     InitializeVariables [0] example_grids (∅ : gmap string unit) ∅
       (one_layer_parameters 1 0 0 1 0 (2 / PI) 1 0 0)
       (one_layer_sources 0 0)
       (one_layer_state 0 (1 / 2) 0) = Ok out)
  /\ (ComputeRadiationField [0] example_grids (∅ : gmap string unit) []
        example_real_field = Ok (placeholder_field example_real_field) ->
      components_integer_valued
        (spectral_irradiance_ (placeholder_field example_real_field))
      /\ components_integer_valued
           (actinic_flux_ (placeholder_field example_real_field))).
Proof.
  apply denominator_never_signalled.
  - apply example_grids_agree.
  - unfold state_covers. simpl. lia.
  - apply one_layer_maps_cover.
Defined.
End RealEvaluation.

(** * The functions column by column and row by row *)

(** ** Loops with an index *)

Lemma for_loop_indexed {S : Type} (P : Z -> S -> Prop) (body : Z -> S -> result S)
    (bound step : Z) (fuel : nat) (n : Z) (s : S) :
  0 < step ->
  (Z.to_nat (bound - n) <= fuel)%nat ->
  (forall i s, n <= i < bound -> P i s ->
     exists s', body i s = Ok s' /\ P (i + step) s') ->
  P n s ->
  exists s' n', for_loop fuel n bound step body s = Ok s' /\ P n' s'
    /\ bound <= n' /\ n <= n'.
Proof.
  intros Hstep. revert n s.
  induction fuel as [|fuel IH]; intros n s Hfuel Hbody HP; simpl.
  - exists s, n. split; [reflexivity|]. split; [assumption|]. lia.
  - destruct (Z.ltb_spec n bound) as [Hlt|Hge].
    + destruct (Hbody n s) as (s1 & E & HP1); [lia | assumption |].
      rewrite E, bind_Ok_l.
      destruct (IH (n + step) s1) as (s' & n' & E' & HP' & B & L);
        [lia | | assumption |].
      { intros i t Hi. apply Hbody. lia. }
      exists s', n'. split; [assumption|]. split; [assumption|]. lia.
    + exists s, n. split; [reflexivity|]. split; [assumption|]. lia.
Qed.

Lemma for_indexed {S : Type} (P : Z -> S -> Prop) (body : Z -> S -> result S)
    (start bound step : Z) (s : S) :
  0 < step ->
  (forall i s, start <= i < bound -> P i s ->
     exists s', body i s = Ok s' /\ P (i + step) s') ->
  P start s ->
  exists s' n', for_ start bound step body s = Ok s' /\ P n' s'
    /\ bound <= n' /\ start <= n'.
Proof.
  intros. unfold for_. apply for_loop_indexed; auto; unfold iterations; lia.
Qed.

Lemma for_loop_Ok_invariant {S : Type} (P : S -> Prop) (body : Z -> S -> result S)
    (bound step : Z) (fuel : nat) (n : Z) (s s' : S) :
  (forall i s s', P s -> body i s = Ok s' -> P s') ->
  P s -> for_loop fuel n bound step body s = Ok s' -> P s'.
Proof.
  intros Hbody. revert n s.
  induction fuel as [|fuel IH]; intros n s HP; simpl.
  - now intros [= <-].
  - destruct (n <? bound); [|now intros [= <-]].
    intros E. apply bind_Ok in E as (s1 & E1 & E).
    apply (IH (n + step) s1); [eapply Hbody; eassumption | assumption].
Qed.

Lemma wr_Some {V : Type} (m : gmap string (list V)) (key : string) (i : Z) (x : V) (v : list V) :
  m !! key = Some v -> (Z.to_nat i < length v)%nat ->
  wr m key i x = Ok (<[key := <[Z.to_nat i := x]> v]> m).
Proof.
  intros E L. unfold wr. now rewrite (map_at_Some _ _ _ E), bind_Ok_l, vec_set_lt, bind_Ok_l.
Qed.

Lemma rd_Some {V : Type} (m : gmap string (list V)) (key : string) (i : Z) (x : V) (v : list V) :
  m !! key = Some v -> v !! Z.to_nat i = Some x -> rd m key i = Ok x.
Proof.
  intros E L. unfold rd. rewrite (map_at_Some _ _ _ E), bind_Ok_l. now apply vec_get_Ok.
Qed.

Lemma wr_Ok {V : Type} (m m' : gmap string (list V)) (key : string) (i : Z) (x : V) :
  wr m key i x = Ok m' ->
  exists v, m !! key = Some v /\ (Z.to_nat i < length v)%nat
    /\ m' = <[key := <[Z.to_nat i := x]> v]> m.
Proof.
  unfold wr, map_at. destruct (m !! key) as [v|]; [|discriminate].
  rewrite bind_Ok_l. intros E. apply bind_Ok in E as (v' & E1 & [= <-]).
  apply vec_set_Ok in E1 as [L ->]. exists v. auto.
Qed.

Lemma prefix_written_0 {T : Type} (f : nat -> option T) (v : list T) :
  prefix_written 0 f v v.
Proof. split; [reflexivity|]. split; [intros; lia | reflexivity]. Qed.

Lemma prefix_written_S {T : Type} (n : nat) (f : nat -> option T) (v v' : list T) (x : T) :
  prefix_written n f v v' -> f n = Some x -> (n < length v)%nat ->
  prefix_written (S n) f v (<[n := x]> v').
Proof.
  intros (L & Lo & Hi) E Ln. split; [|split].
  - now rewrite length_insert.
  - intros j Hj. destruct (decide (j = n)) as [->|Hne].
    + rewrite list_lookup_insert_eq by lia. now rewrite E.
    + rewrite list_lookup_insert_ne by lia. apply Lo. lia.
  - intros j Hj. rewrite list_lookup_insert_ne by lia. apply Hi. lia.
Qed.

(** ** DeltaEddingtonApproximation: the result *)

Lemma assign_scalar_Some {T : Type} `{Scalar T} (m : gmap string (list T)) (key : string) (x : T) (v : list T) :
  m !! key = Some v ->
  assign_scalar m key x = Ok (<[key := replicate (length v) x]> m).
Proof. intros E. unfold assign_scalar. now rewrite (map_at_Some _ _ _ E), bind_Ok_l. Qed.

Ltac map_lookup :=
  repeat first [ rewrite lookup_insert_eq | rewrite lookup_insert_ne by discriminate ].

Section Derivation.
Context {T : Type} `{Scalar T} `{Elementary T}.
Local Open Scope scalar_scope.
Local Abbreviation lit := of_int.

Lemma DeltaEddingtonApproximation_body_step
    (omega g sza : list T) (i : Z) (p : gmap string (list T))
    (v1 v2 v3 vm : list T) (z omega_i g_i : T) :
  let j := Z.to_nat i in
  sza !! j = Some z -> omega !! j = Some omega_i -> g !! j = Some g_i ->
  p !! "gamma1" = Some v1 -> p !! "gamma2" = Some v2 ->
  p !! "gamma3" = Some v3 -> p !! "mu" = Some vm ->
  (j < length v1)%nat -> (j < length v2)%nat -> (j < length v3)%nat ->
  (j < length vm)%nat ->
  DeltaEddingtonApproximation_body omega g sza i p
  = Ok (<["mu" := replicate (length vm) one_half]>
          (<["gamma3" := <[j := (lit 2 - lit 3 * g_i * std_acos z) / lit 4]> v3]>
             (<["gamma2" := <[j := - (lit 1 - omega_i * (lit 4 - lit 3 * g_i)) / lit 4]> v2]>
                (<["gamma1" := <[j := lit 7 - omega_i * (lit 4 + lit 3 * g_i)]> v1]> p)))).
Proof.
  intros j Ez Eo Eg E1 E2 E3 Em L1 L2 L3 Lm.
  unfold DeltaEddingtonApproximation_body, derive_parameters.
  rewrite (proj2 (vec_get_Ok _ _ _) Ez), (proj2 (vec_get_Ok _ _ _) Eo),
    (proj2 (vec_get_Ok _ _ _) Eg), !bind_Ok_l.
  rewrite (wr_Some _ _ _ _ v1), bind_Ok_l by (map_lookup; assumption).
  rewrite (wr_Some _ _ _ _ v2), bind_Ok_l by (map_lookup; assumption).
  rewrite (wr_Some _ _ _ _ v3), bind_Ok_l by (map_lookup; assumption).
  rewrite !(rd_Some _ "gamma1" _ _ (<[j := lit 7 - omega_i * (lit 4 + lit 3 * g_i)]> v1))
    by (map_lookup; try reflexivity; now apply list_lookup_insert_eq).
  rewrite bind_Ok_l.
  rewrite !(rd_Some _ "gamma2" _ _ (<[j := - (lit 1 - omega_i * (lit 4 - lit 3 * g_i)) / lit 4]> v2))
    by (map_lookup; try reflexivity; now apply list_lookup_insert_eq).
  rewrite bind_Ok_l.
  rewrite (wr_Some _ _ _ _ vm), bind_Ok_l by (map_lookup; assumption).
  rewrite !(rd_Some _ "gamma1" _ _ (<[j := lit 7 - omega_i * (lit 4 + lit 3 * g_i)]> v1))
    by (map_lookup; try reflexivity; now apply list_lookup_insert_eq).
  rewrite bind_Ok_l.
  rewrite !(rd_Some _ "gamma2" _ _ (<[j := - (lit 1 - omega_i * (lit 4 - lit 3 * g_i)) / lit 4]> v2))
    by (map_lookup; try reflexivity; now apply list_lookup_insert_eq).
  rewrite bind_Ok_l.
  rewrite (wr_Some _ "mu" _ _ (<[j := std_sqrt ((lit 7 - omega_i * (lit 4 + lit 3 * g_i)) * (lit 7 - omega_i * (lit 4 + lit 3 * g_i)) - (- (lit 1 - omega_i * (lit 4 - lit 3 * g_i)) / lit 4) * (- (lit 1 - omega_i * (lit 4 - lit 3 * g_i)) / lit 4))]> vm))
    by (map_lookup; first [reflexivity | rewrite length_insert; assumption]).
  rewrite bind_Ok_l.
  erewrite assign_scalar_Some by (map_lookup; reflexivity).
  rewrite !length_insert, !insert_insert_eq. reflexivity.
Qed.

Variable accumulated_radiator_states : RadiatorState T.
Variable solution_parameters : gmap string (list T).
Variable solar_zenith_angles : list T.
Variables v1 v2 v3 v4 vm : list T.
Hypothesis at_gamma1 : solution_parameters !! "gamma1" = Some v1.
Hypothesis at_gamma2 : solution_parameters !! "gamma2" = Some v2.
Hypothesis at_gamma3 : solution_parameters !! "gamma3" = Some v3.
Hypothesis at_gamma4 : solution_parameters !! "gamma4" = Some v4.
Hypothesis at_mu : solution_parameters !! "mu" = Some vm.
Hypothesis cover_omega :
  (length solar_zenith_angles <= length (optical_depth_ accumulated_radiator_states))%nat.
Hypothesis cover_g :
  (length solar_zenith_angles
   <= length (single_scattering_albedo_ accumulated_radiator_states))%nat.
Hypothesis cover1 : (length solar_zenith_angles <= length v1)%nat.
Hypothesis cover2 : (length solar_zenith_angles <= length v2)%nat.
Hypothesis cover3 : (length solar_zenith_angles <= length v3)%nat.
Hypothesis cover_mu : (length solar_zenith_angles <= length vm)%nat.

Lemma DeltaEddingtonApproximation_result :
  let omega := optical_depth_ accumulated_radiator_states in
  let g := single_scattering_albedo_ accumulated_radiator_states in
  let n := length solar_zenith_angles in
  exists p v1' v2' v3' vm',
    DeltaEddingtonApproximation accumulated_radiator_states
      solution_parameters solar_zenith_angles = Ok p
    /\ (p !! "gamma1" = Some v1' /\ prefix_written n (stored_gamma1 omega g) v1 v1')
    /\ (p !! "gamma2" = Some v2' /\ prefix_written n (stored_gamma2 omega g) v2 v2')
    /\ (p !! "gamma3" = Some v3'
        /\ prefix_written n (stored_gamma3 g solar_zenith_angles) v3 v3')
    /\ (p !! "mu" = Some vm'
        /\ vm' = if decide (n = 0%nat) then vm else replicate (length vm) one_half)
    /\ (forall key : string,
          key <> "gamma1" -> key <> "gamma2" -> key <> "gamma3" -> key <> "mu" ->
          p !! key = solution_parameters !! key).
Proof.
  intros omega g n. unfold DeltaEddingtonApproximation.
  rewrite (map_at_Some _ _ _ at_gamma1), (map_at_Some _ _ _ at_gamma2),
    (map_at_Some _ _ _ at_gamma3), (map_at_Some _ _ _ at_gamma4),
    (map_at_Some _ _ _ at_mu), !bind_Ok_l.
  fold omega g.
  set (Inv := fun (i : Z) (p : gmap string (list T)) =>
    (0 <= i <= Z.of_nat n)%Z
    /\ (exists v1', p !! "gamma1" = Some v1'
          /\ prefix_written (Z.to_nat i) (stored_gamma1 omega g) v1 v1')
    /\ (exists v2', p !! "gamma2" = Some v2'
          /\ prefix_written (Z.to_nat i) (stored_gamma2 omega g) v2 v2')
    /\ (exists v3', p !! "gamma3" = Some v3'
          /\ prefix_written (Z.to_nat i) (stored_gamma3 g solar_zenith_angles) v3 v3')
    /\ (exists vm', p !! "mu" = Some vm' /\ length vm' = length vm
          /\ vm' = if decide (Z.to_nat i = 0%nat) then vm
                   else replicate (length vm) one_half)
    /\ (forall key : string,
          key <> "gamma1" -> key <> "gamma2" -> key <> "gamma3" -> key <> "mu" ->
          p !! key = solution_parameters !! key)).
  destruct (for_indexed Inv
              (DeltaEddingtonApproximation_body omega g solar_zenith_angles)
              0 (Z.of_nat n) 1 solution_parameters)
    as (p & n' & E & HInv & B & _).
  { lia. }
  { intros i q Hi (Ri & (q1 & Q1 & W1) & (q2 & Q2 & W2) & (q3 & Q3 & W3)
                   & (qm & Qm & Lm & Wm) & Frame).
    assert (Hj : (Z.to_nat i < n)%nat) by lia.
    destruct (lookup_lt_is_Some_2 solar_zenith_angles (Z.to_nat i)) as [z Ez];
      [exact Hj|].
    destruct (lookup_lt_is_Some_2 omega (Z.to_nat i)) as [omega_i Eo];
      [unfold omega; lia|].
    destruct (lookup_lt_is_Some_2 g (Z.to_nat i)) as [g_i Eg];
      [unfold g; lia|].
    pose proof W1 as (L1 & _). pose proof W2 as (L2 & _). pose proof W3 as (L3 & _).
    eexists. split.
    { apply (DeltaEddingtonApproximation_body_step omega g solar_zenith_angles
               i q q1 q2 q3 qm z omega_i g_i); try assumption; lia. }
    unfold Inv. replace (Z.to_nat (i + 1)) with (S (Z.to_nat i)) by lia.
    split; [lia|].
    split; [eexists; split; [map_lookup; reflexivity|] |].
    { apply prefix_written_S; [assumption | | lia].
      unfold stored_gamma1. now rewrite Eo, Eg. }
    split; [eexists; split; [map_lookup; reflexivity|] |].
    { apply prefix_written_S; [assumption | | lia].
      unfold stored_gamma2. now rewrite Eo, Eg. }
    split; [eexists; split; [map_lookup; reflexivity|] |].
    { apply prefix_written_S; [assumption | | lia].
      unfold stored_gamma3. now rewrite Eg, Ez. }
    split; [eexists; split; [map_lookup; reflexivity|] |].
    { rewrite length_replicate, Lm. split; [reflexivity|].
      destruct (decide (S (Z.to_nat i) = 0%nat)); [lia | reflexivity]. }
    intros key K1 K2 K3 Km.
    rewrite !lookup_insert_ne by congruence. now apply Frame. }
  { split; [lia|]. change (Z.to_nat 0) with 0%nat.
    split; [exists v1; split; [assumption | apply prefix_written_0]|].
    split; [exists v2; split; [assumption | apply prefix_written_0]|].
    split; [exists v3; split; [assumption | apply prefix_written_0]|].
    split; [exists vm; repeat split; assumption || reflexivity|].
    reflexivity. }
  destruct HInv as (Ri & (q1 & Q1 & W1) & (q2 & Q2 & W2) & (q3 & Q3 & W3)
                    & (qm & Qm & Lm & Wm) & Frame).
  assert (Hn' : Z.to_nat n' = n) by lia. rewrite Hn' in *.
  exists p, q1, q2, q3, qm. split; [exact E | auto 10].
Qed.
End Derivation.

(** ** InitializeVariables: delta scaling *)

Section Scaling.
Context {T : Type} `{Scalar T}.
Local Open Scope scalar_scope.
Local Abbreviation lit := of_int.

Lemma delta_scaling_body_step (i : Z) (r : RadiatorState T) (omega_i g_i : T) :
  let j := Z.to_nat i in
  single_scattering_albedo_ r !! j = Some omega_i ->
  assymetry_parameter_ r !! j = Some g_i ->
  delta_scaling_body i r
  = Ok {| optical_depth_ := optical_depth_ r;
          single_scattering_albedo_ :=
            <[j := scaled_albedo omega_i g_i]> (single_scattering_albedo_ r);
          assymetry_parameter_ :=
            <[j := scaled_asymmetry omega_i g_i]> (assymetry_parameter_ r) |}.
Proof.
  intros j Eo Eg.
  assert (Lo := lookup_lt_Some _ _ _ Eo). assert (Lg := lookup_lt_Some _ _ _ Eg).
  unfold delta_scaling_body.
  rewrite (proj2 (vec_get_Ok _ _ _) Eo), !bind_Ok_l.
  rewrite vec_set_lt, bind_Ok_l by assumption.
  cbn [with_albedo with_asymmetry optical_depth_ single_scattering_albedo_
         assymetry_parameter_].
  rewrite (proj2 (vec_get_Ok _ _ _) Eg), !bind_Ok_l.
  rewrite vec_set_lt, bind_Ok_l by assumption.
  cbn [with_albedo with_asymmetry optical_depth_ single_scattering_albedo_
         assymetry_parameter_].
  rewrite (proj2 (vec_get_Ok (<[j := _]> (assymetry_parameter_ r)) i _)
             (list_lookup_insert_eq _ _ _ Lg)), bind_Ok_l.
  rewrite (proj2 (vec_get_Ok (<[j := _]> (single_scattering_albedo_ r)) i _)
             (list_lookup_insert_eq _ _ _ Lo)), bind_Ok_l.
  rewrite vec_set_lt, bind_Ok_l by (rewrite length_insert; assumption).
  unfold with_albedo. cbn. rewrite list_insert_insert_eq. reflexivity.
Qed.

Lemma delta_scaling_result (n : nat) (r : RadiatorState T) :
  (n <= length (single_scattering_albedo_ r))%nat ->
  (n <= length (assymetry_parameter_ r))%nat ->
  exists r',
    delta_scaling (Z.of_nat n) r = Ok r'
    /\ optical_depth_ r' = optical_depth_ r
    /\ prefix_written n
         (stored_scaled_albedo (single_scattering_albedo_ r) (assymetry_parameter_ r))
         (single_scattering_albedo_ r) (single_scattering_albedo_ r')
    /\ prefix_written n
         (stored_scaled_asymmetry (single_scattering_albedo_ r) (assymetry_parameter_ r))
         (assymetry_parameter_ r) (assymetry_parameter_ r').
Proof.
  intros Lo Lg.
  set (omega := single_scattering_albedo_ r). set (g := assymetry_parameter_ r).
  set (Inv := fun (i : Z) (s : RadiatorState T) =>
    (0 <= i <= Z.of_nat n)%Z
    /\ optical_depth_ s = optical_depth_ r
    /\ prefix_written (Z.to_nat i) (stored_scaled_albedo omega g) omega
         (single_scattering_albedo_ s)
    /\ prefix_written (Z.to_nat i) (stored_scaled_asymmetry omega g) g
         (assymetry_parameter_ s)).
  destruct (for_indexed Inv delta_scaling_body 0 (Z.of_nat n) 1 r)
    as (r' & n' & E & (Ri & Eod & Wo & Wg) & B & _).
  { lia. }
  { intros i s Hi (Ri & Eod & Wo & Wg).
    assert (Hj : (Z.to_nat i < n)%nat) by lia.
    destruct (lookup_lt_is_Some_2 omega (Z.to_nat i)) as [omega_i Eo];
      [unfold omega; lia|].
    destruct (lookup_lt_is_Some_2 g (Z.to_nat i)) as [g_i Eg]; [unfold g; lia|].
    pose proof Wo as (_ & _ & Ho). pose proof Wg as (_ & _ & Hg).
    eexists. split.
    { apply (delta_scaling_body_step i s omega_i g_i).
      - now rewrite Ho by lia.
      - now rewrite Hg by lia. }
    unfold Inv. cbn. replace (Z.to_nat (i + 1)) with (S (Z.to_nat i)) by lia.
    split; [lia|]. split; [assumption|].
    split; (apply prefix_written_S; [assumption | | unfold omega, g; lia]).
    - unfold stored_scaled_albedo. now rewrite Eo, Eg.
    - unfold stored_scaled_asymmetry. now rewrite Eo, Eg. }
  { split; [lia|]. split; [reflexivity|]. change (Z.to_nat 0) with 0%nat.
    split; apply prefix_written_0. }
  assert (Hn' : Z.to_nat n' = n) by lia. rewrite Hn' in *.
  exists r'. auto.
Qed.
End Scaling.

(** ** InitializeVariables: the source terms *)

Section SourceTerms.
Context {T : Type} `{Scalar T} `{Elementary T}.
Local Open Scope scalar_scope.
Local Abbreviation lit := of_int.

Lemma optical_depth_before_S (tau : list T) (j : nat) (tau_j : T) :
  tau !! j = Some tau_j ->
  optical_depth_before tau (S j) = optical_depth_before tau j + tau_j.
Proof.
  intros E. unfold optical_depth_before.
  now rewrite (take_S_r _ _ _ E), foldl_snoc.
Qed.

Lemma source_terms_body_step
    (sza : list T) (r : RadiatorState T) (i : Z) (w : Workspace)
    (v_flux v_lambda v_infrared v_solar v1 v2 v3 v4 v_down v_up : list T)
    (z omega_i tau_i R_sfc gamma1_i gamma2_i gamma3_i gamma4_i : T) :
  let j := Z.to_nat i in
  let p := ws_solution w in
  let c := ws_sources w in
  let mu_0 := std_acos z in
  let exponential_term :=
    omega_i * M_PI * R_sfc * std_exp (- (ws_tau_cumulative w - tau_i) / mu_0) in
  sza !! j = Some z ->
  single_scattering_albedo_ r !! j = Some omega_i ->
  optical_depth_ r !! j = Some tau_i ->
  p !! "source flux" = Some v_flux -> v_flux !! j = Some R_sfc ->
  p !! "lambda" = Some v_lambda -> (j < length v_lambda)%nat ->
  p !! "infrared source flux" = Some v_infrared -> (j < length v_infrared)%nat ->
  p !! "solar source flux" = Some v_solar -> (j < length v_solar)%nat ->
  p !! "gamma1" = Some v1 -> v1 !! j = Some gamma1_i ->
  p !! "gamma2" = Some v2 -> v2 !! j = Some gamma2_i ->
  p !! "gamma3" = Some v3 -> v3 !! j = Some gamma3_i ->
  p !! "gamma4" = Some v4 -> v4 !! j = Some gamma4_i ->
  c !! "C_downwelling" = Some v_down -> (j < length v_down)%nat ->
  c !! "C_upwelling" = Some v_up -> (j < length v_up)%nat ->
  source_terms_body sza r i w
  = Ok {| ws_tau_cumulative := ws_tau_cumulative w + tau_i;
          ws_solution :=
            <["solar source flux" := <[j := M_PI * R_sfc]> v_solar]>
              (<["infrared source flux" :=
                   <[j := R_sfc * mu_0
                          * std_exp (- (ws_tau_cumulative w + tau_i) / mu_0)]>
                     v_infrared]> p);
          ws_sources :=
            <["C_upwelling" :=
                <[j := exponential_term
                       * (((gamma1_i - lit 1) / mu_0) * gamma3_i
                          + gamma4_i * gamma2_i)]> v_up]>
              (<["C_downwelling" :=
                   <[j := exponential_term
                          * (((gamma1_i + lit 1) / mu_0) * gamma4_i
                             + gamma2_i * gamma3_i)]> v_down]> c) |}.
Proof.
  intros j p c mu_0 exponential_term Ez Eo Et Pf Ef Pl Ll Pi Li Ps Ls
    P1 E1 P2 E2 P3 E3 P4 E4 Cd Ld Cu Lu.
  destruct (lookup_lt_is_Some_2 v_lambda j Ll) as [lambda_i El].
  unfold source_terms_body. fold p c.
  rewrite (proj2 (vec_get_Ok _ _ _) Ez), (proj2 (vec_get_Ok _ _ _) Eo),
    (proj2 (vec_get_Ok _ _ _) Et), !bind_Ok_l.
  rewrite (rd_Some _ _ _ _ _ Pf Ef), !bind_Ok_l.
  rewrite (rd_Some _ _ _ _ _ Pl El), !bind_Ok_l.
  rewrite (wr_Some _ _ _ _ _ Pi Li), !bind_Ok_l.
  rewrite (rd_Some _ "source flux" _ R_sfc v_flux), !bind_Ok_l
    by (map_lookup; assumption).
  rewrite (wr_Some _ "solar source flux" _ _ v_solar), !bind_Ok_l
    by (map_lookup; assumption).
  rewrite (rd_Some _ "gamma1" _ gamma1_i v1), !bind_Ok_l by (map_lookup; assumption).
  rewrite (rd_Some _ "gamma4" _ gamma4_i v4), !bind_Ok_l by (map_lookup; assumption).
  rewrite (rd_Some _ "gamma2" _ gamma2_i v2), !bind_Ok_l by (map_lookup; assumption).
  rewrite (rd_Some _ "gamma3" _ gamma3_i v3), !bind_Ok_l by (map_lookup; assumption).
  rewrite (wr_Some _ _ _ _ _ Cd Ld), !bind_Ok_l.
  rewrite (wr_Some _ "C_upwelling" _ _ v_up), !bind_Ok_l by (map_lookup; assumption).
  reflexivity.
Qed.

Variable ProfilePolicy : Type.
Variable solar_zenith_angles : list T.
Variable grids : gmap string Grid.
Variable profiles : gmap string ProfilePolicy.
Variables solver_parameters solution_parameters source_terms : gmap string (list T).
Variable accumulated_radiator_states : RadiatorState T.
Variables v_flux v_lambda v_infrared v_solar v1 v2 v3 v4 v_mu v_down v_up : list T.
Local Abbreviation n := (length solar_zenith_angles).
Hypothesis grids_ok : grids_agree grids n.
Hypothesis state_ok : state_covers n accumulated_radiator_states.
Hypothesis at_flux : solution_parameters !! "source flux" = Some v_flux.
Hypothesis at_lambda : solution_parameters !! "lambda" = Some v_lambda.
Hypothesis at_infrared : solution_parameters !! "infrared source flux" = Some v_infrared.
Hypothesis at_solar : solution_parameters !! "solar source flux" = Some v_solar.
Hypothesis at_gamma1 : solution_parameters !! "gamma1" = Some v1.
Hypothesis at_gamma2 : solution_parameters !! "gamma2" = Some v2.
Hypothesis at_gamma3 : solution_parameters !! "gamma3" = Some v3.
Hypothesis at_gamma4 : solution_parameters !! "gamma4" = Some v4.
Hypothesis at_mu : solution_parameters !! "mu" = Some v_mu.
Hypothesis at_down : source_terms !! "C_downwelling" = Some v_down.
Hypothesis at_up : source_terms !! "C_upwelling" = Some v_up.
Hypothesis cover_flux : (n <= length v_flux)%nat.
Hypothesis cover_lambda : (n <= length v_lambda)%nat.
Hypothesis cover_infrared : (n <= length v_infrared)%nat.
Hypothesis cover_solar : (n <= length v_solar)%nat.
Hypothesis cover1 : (n <= length v1)%nat.
Hypothesis cover2 : (n <= length v2)%nat.
Hypothesis cover3 : (n <= length v3)%nat.
Hypothesis cover4 : (n <= length v4)%nat.
Hypothesis cover_down : (n <= length v_down)%nat.
Hypothesis cover_up : (n <= length v_up)%nat.

Lemma InitializeVariables_result :
  let tau := optical_depth_ accumulated_radiator_states in
  let omega := single_scattering_albedo_ accumulated_radiator_states in
  let g := assymetry_parameter_ accumulated_radiator_states in
  exists out v_infrared' v_solar' v_down' v_up',
    InitializeVariables solar_zenith_angles grids profiles solver_parameters
      solution_parameters source_terms accumulated_radiator_states = Ok out
    /\ (optical_depth_ (radiator_states out) = tau
        /\ prefix_written n (stored_scaled_albedo omega g) omega
             (single_scattering_albedo_ (radiator_states out))
        /\ prefix_written n (stored_scaled_asymmetry omega g) g
             (assymetry_parameter_ (radiator_states out)))
    /\ (parameters out !! "infrared source flux" = Some v_infrared'
        /\ prefix_written n
             (stored_infrared_source_flux solar_zenith_angles tau v_flux)
             v_infrared v_infrared')
    /\ (parameters out !! "solar source flux" = Some v_solar'
        /\ prefix_written n (stored_solar_source_flux v_flux) v_solar v_solar')
    /\ (sources out !! "C_downwelling" = Some v_down'
        /\ prefix_written n
             (stored_C_downwelling solar_zenith_angles tau
                (single_scattering_albedo_ (radiator_states out))
                v_flux v1 v2 v3 v4)
             v_down v_down')
    /\ (sources out !! "C_upwelling" = Some v_up'
        /\ prefix_written n
             (stored_C_upwelling solar_zenith_angles tau
                (single_scattering_albedo_ (radiator_states out))
                v_flux v1 v2 v3 v4)
             v_up v_up')
    /\ (forall key : string,
          key <> "infrared source flux" -> key <> "solar source flux" ->
          parameters out !! key = solution_parameters !! key)
    /\ (forall key : string,
          key <> "C_downwelling" -> key <> "C_upwelling" ->
          sources out !! key = source_terms !! key).
Proof.
  intros tau omega g.
  destruct grids_ok as (vg & wg & Evg & Ewg & Nvg & Nwg).
  destruct state_ok as (Lt & Lo & Lg).
  unfold InitializeVariables. fold n.
  rewrite (map_at_Some _ _ _ Evg), (map_at_Some _ _ _ Ewg), !bind_Ok_l.
  rewrite Nvg, Nwg, !Z.eqb_refl. cbn [assert]. rewrite !bind_Ok_l.
  destruct (delta_scaling_result n accumulated_radiator_states Lo Lg)
    as (r & Er & Eod & Wo & Wg).
  rewrite Er, bind_Ok_l.
  rewrite (map_at_Some _ _ _ at_up), (map_at_Some _ _ _ at_down),
    (map_at_Some _ _ _ at_infrared), (map_at_Some _ _ _ at_solar),
    (map_at_Some _ _ _ at_lambda), (map_at_Some _ _ _ at_gamma1),
    (map_at_Some _ _ _ at_gamma2), (map_at_Some _ _ _ at_gamma3),
    (map_at_Some _ _ _ at_gamma4), (map_at_Some _ _ _ at_mu),
    (map_at_Some _ _ _ at_flux), !bind_Ok_l.
  assert (Eslant : slant_optical_depth r = r).
  { unfold slant_optical_depth, with_optical_depth. rewrite map_id.
    now destruct r. }
  rewrite Eslant.
  set (omega' := single_scattering_albedo_ r) in *.
  assert (Lo' : (n <= length omega')%nat).
  { destruct Wo as (-> & _). exact Lo. }
  assert (Lt' : (n <= length (optical_depth_ r))%nat) by (rewrite Eod; exact Lt).
  set (Inv := fun (i : Z) (w : Workspace) =>
    (0 <= i <= Z.of_nat n)%Z
    /\ ws_tau_cumulative w = optical_depth_before tau (Z.to_nat i)
    /\ (exists v', ws_solution w !! "infrared source flux" = Some v'
          /\ prefix_written (Z.to_nat i)
               (stored_infrared_source_flux solar_zenith_angles tau v_flux)
               v_infrared v')
    /\ (exists v', ws_solution w !! "solar source flux" = Some v'
          /\ prefix_written (Z.to_nat i) (stored_solar_source_flux v_flux)
               v_solar v')
    /\ (exists v', ws_sources w !! "C_downwelling" = Some v'
          /\ prefix_written (Z.to_nat i)
               (stored_C_downwelling solar_zenith_angles tau omega'
                  v_flux v1 v2 v3 v4) v_down v')
    /\ (exists v', ws_sources w !! "C_upwelling" = Some v'
          /\ prefix_written (Z.to_nat i)
               (stored_C_upwelling solar_zenith_angles tau omega'
                  v_flux v1 v2 v3 v4) v_up v')
    /\ (forall key : string,
          key <> "infrared source flux" -> key <> "solar source flux" ->
          ws_solution w !! key = solution_parameters !! key)
    /\ (forall key : string,
          key <> "C_downwelling" -> key <> "C_upwelling" ->
          ws_sources w !! key = source_terms !! key)).
  match goal with |- context [for_ 0 _ 1 ?body ?w0] =>
    destruct (for_indexed Inv body 0 (Z.of_nat n) 1 w0)
      as (w & n' & E & HInv & B & _)
  end.
  { lia. }
  { intros i s Hi (Ri & Etc & (qi & Qi & Wi) & (qs & Qs & Ws) & (qd & Qd & Wd)
                   & (qu & Qu & Wu) & Fp & Fc).
    assert (Hj : (Z.to_nat i < n)%nat) by lia.
    set (j := Z.to_nat i) in *.
    destruct (lookup_lt_is_Some_2 solar_zenith_angles j) as [z Ez]; [exact Hj|].
    destruct (lookup_lt_is_Some_2 omega' j) as [omega_i Eo]; [lia|].
    destruct (lookup_lt_is_Some_2 (optical_depth_ r) j) as [tau_i Et]; [lia|].
    destruct (lookup_lt_is_Some_2 v_flux j) as [R_sfc Ef]; [lia|].
    destruct (lookup_lt_is_Some_2 v1 j) as [gamma1_i E1]; [lia|].
    destruct (lookup_lt_is_Some_2 v2 j) as [gamma2_i E2]; [lia|].
    destruct (lookup_lt_is_Some_2 v3 j) as [gamma3_i E3]; [lia|].
    destruct (lookup_lt_is_Some_2 v4 j) as [gamma4_i E4]; [lia|].
    pose proof Wi as (Li & _). pose proof Ws as (Ls & _).
    pose proof Wd as (Ld & _). pose proof Wu as (Lu & _).
    eexists. split.
    { apply (source_terms_body_step solar_zenith_angles r i s
               v_flux v_lambda qi qs v1 v2 v3 v4 qd qu
               z omega_i tau_i R_sfc gamma1_i gamma2_i gamma3_i gamma4_i);
        fold j; try assumption; try lia;
        try (rewrite Fp by discriminate; assumption). }
    assert (Et' : tau !! j = Some tau_i) by (unfold tau; rewrite <- Eod; exact Et).
    unfold Inv. cbn [ws_tau_cumulative ws_solution ws_sources].
    replace (Z.to_nat (i + 1)) with (S j) by lia. fold j.
    split; [lia|].
    split; [rewrite Etc; symmetry; now apply optical_depth_before_S|].
    split; [eexists; split; [map_lookup; reflexivity|] |].
    { apply prefix_written_S; [assumption | | lia].
      unfold stored_infrared_source_flux. rewrite Ez, Et', Ef. cbn.
      now rewrite Etc. }
    split; [eexists; split; [map_lookup; reflexivity|] |].
    { apply prefix_written_S; [assumption | | lia].
      unfold stored_solar_source_flux. now rewrite Ef. }
    split; [eexists; split; [map_lookup; reflexivity|] |].
    { apply prefix_written_S; [assumption | | lia].
      unfold stored_C_downwelling, stored_exponential_term.
      rewrite Ez, Et', Eo, Ef, E1, E2, E3, E4. cbn. now rewrite Etc. }
    split; [eexists; split; [map_lookup; reflexivity|] |].
    { apply prefix_written_S; [assumption | | lia].
      unfold stored_C_upwelling, stored_exponential_term.
      rewrite Ez, Et', Eo, Ef, E1, E2, E3, E4. cbn. now rewrite Etc. }
    split.
    - intros key K1 K2. rewrite !lookup_insert_ne by congruence. now apply Fp.
    - intros key K1 K2. rewrite !lookup_insert_ne by congruence. now apply Fc. }
  { split; [lia|]. change (Z.to_nat 0) with 0%nat. cbn.
    split; [reflexivity|].
    split; [exists v_infrared; split; [assumption | apply prefix_written_0]|].
    split; [exists v_solar; split; [assumption | apply prefix_written_0]|].
    split; [exists v_down; split; [assumption | apply prefix_written_0]|].
    split; [exists v_up; split; [assumption | apply prefix_written_0]|].
    split; reflexivity. }
  destruct HInv as (Ri & Etc & (qi & Qi & Wi) & (qs & Qs & Ws) & (qd & Qd & Wd)
                    & (qu & Qu & Wu) & Fp & Fc).
  assert (Hn' : Z.to_nat n' = n) by lia. rewrite Hn' in *.
  rewrite E, bind_Ok_l.
  exists {| radiator_states := r; parameters := ws_solution w;
            sources := ws_sources w |}, qi, qs, qd, qu.
  split; [reflexivity|]. cbn [radiator_states parameters sources].
  fold omega'. auto 20.
Qed.
End SourceTerms.

(** ** AssembleTridiagonalMatrix: the interior rows *)

Lemma vec_get_nat {V : Type} (v : list V) (i : Z) (k : nat) (x : V) :
  Z.to_nat i = k -> vec_get v i = Ok x -> v !! k = Some x.
Proof. intros <-. apply vec_get_Ok. Qed.

Section Rows.
Context {T : Type} `{Scalar T}.
Variable number_of_layers : Z.
Variables e1 e2 e3 e4 : list T.
Hypothesis cover1 : covers_rows number_of_layers e1.
Hypothesis cover2 : covers_rows number_of_layers e2.
Hypothesis cover3 : covers_rows number_of_layers e3.
Hypothesis cover4 : covers_rows number_of_layers e4.

Lemma matrix_odd_row_entries (n : Z) (m : TridiagonalMatrix T) :
  has_rows m (2 * number_of_layers) ->
  1 <= n < 2 * number_of_layers - 1 ->
  exists m', matrix_odd_row e1 e2 e3 e4 n m = Ok m'
    /\ has_rows m' (2 * number_of_layers)
    /\ is_odd_row e1 e2 e3 e4 m' (Z.to_nat n)
    /\ forall k : nat, k <> Z.to_nat n -> same_row m m' k.
Proof.
  unfold covers_rows, has_rows in *. intros (R1 & R2 & R3) Hn.
  unfold matrix_odd_row. run_row.
  eexists. split; [reflexivity|]. cbn. rewrite !length_insert.
  split; [lia|].
  assert (HS : Z.to_nat (n + 1) = S (Z.to_nat n)) by lia.
  repeat match goal with
  | E : vec_get _ (n + 1) = Ok _ |- _ => apply (vec_get_nat _ _ _ _ HS) in E
  | E : vec_get _ n = Ok _ |- _ => apply (vec_get_nat _ _ _ _ eq_refl) in E
  end.
  split.
  - unfold is_odd_row, odd_row_upper, odd_row_main, odd_row_lower. cbn.
    rewrite !list_lookup_insert_eq by lia.
    repeat match goal with E : _ !! _ = Some _ |- _ => rewrite E; clear E end.
    auto.
  - intros k Hk. unfold same_row. cbn.
    rewrite !list_lookup_insert_ne by lia. auto.
Qed.

Lemma matrix_even_row_entries (n : Z) (m : TridiagonalMatrix T) :
  has_rows m (2 * number_of_layers) ->
  1 <= n < 2 * number_of_layers - 1 ->
  exists m', matrix_even_row e1 e2 e3 e4 n m = Ok m'
    /\ has_rows m' (2 * number_of_layers)
    /\ is_even_row e1 e2 e3 e4 m' (Z.to_nat n)
    /\ forall k : nat, k <> Z.to_nat n -> same_row m m' k.
Proof.
  unfold covers_rows, has_rows in *. intros (R1 & R2 & R3) Hn.
  unfold matrix_even_row. run_row.
  eexists. split; [reflexivity|]. cbn. rewrite !length_insert.
  split; [lia|].
  assert (HS : Z.to_nat (n + 1) = S (Z.to_nat n)) by lia.
  repeat match goal with
  | E : vec_get _ (n + 1) = Ok _ |- _ => apply (vec_get_nat _ _ _ _ HS) in E
  | E : vec_get _ n = Ok _ |- _ => apply (vec_get_nat _ _ _ _ eq_refl) in E
  end.
  split.
  - unfold is_even_row, even_row_upper, even_row_main, even_row_lower. cbn.
    rewrite !list_lookup_insert_eq by lia.
    repeat match goal with E : _ !! _ = Some _ |- _ => rewrite E; clear E end.
    auto.
  - intros k Hk. unfold same_row. cbn.
    rewrite !list_lookup_insert_ne by lia. auto.
Qed.
End Rows.

Section Interior.
Context {T : Type} `{Scalar T}.
Variable number_of_layers : Z.
Variable solution_parameters : gmap string (list T).
Variable solver_parameters : gmap string T.
Variables e1 e2 e3 e4 : list T.
Variable R_sfc : T.
Hypothesis layers : layer_count number_of_layers.
Hypothesis at_e1 : solution_parameters !! "e1" = Some e1.
Hypothesis at_e2 : solution_parameters !! "e2" = Some e2.
Hypothesis at_e3 : solution_parameters !! "e3" = Some e3.
Hypothesis at_e4 : solution_parameters !! "e4" = Some e4.
Hypothesis at_R_sfc : solver_parameters !! "Surface Reflectivity" = Some R_sfc.
Hypothesis cover1 : covers_rows number_of_layers e1.
Hypothesis cover2 : covers_rows number_of_layers e2.
Hypothesis cover3 : covers_rows number_of_layers e3.
Hypothesis cover4 : covers_rows number_of_layers e4.

Lemma same_row_refl (m : TridiagonalMatrix T) (k : nat) : same_row m m k.
Proof. repeat split. Qed.

Lemma same_row_trans (m1 m2 m3 : TridiagonalMatrix T) (k : nat) :
  same_row m1 m2 k -> same_row m2 m3 k -> same_row m1 m3 k.
Proof.
  intros (A1 & A2 & A3) (B1 & B2 & B3). unfold same_row.
  rewrite B1, B2, B3. auto.
Qed.

Lemma is_odd_row_same (m m' : TridiagonalMatrix T) (k : nat) :
  is_odd_row e1 e2 e3 e4 m k -> same_row m m' k -> is_odd_row e1 e2 e3 e4 m' k.
Proof.
  intros (A1 & A2 & A3) (B1 & B2 & B3). unfold is_odd_row.
  rewrite B1, B2, B3. auto.
Qed.

Lemma is_even_row_same (m m' : TridiagonalMatrix T) (k : nat) :
  is_even_row e1 e2 e3 e4 m k -> same_row m m' k -> is_even_row e1 e2 e3 e4 m' k.
Proof.
  intros (A1 & A2 & A3) (B1 & B2 & B3). unfold is_even_row.
  rewrite B1, B2, B3. auto.
Qed.

Lemma AssembleTridiagonalMatrix_rows (coeffcient_matrix : TridiagonalMatrix T) :
  has_rows coeffcient_matrix (2 * number_of_layers) ->
  exists m,
    AssembleTridiagonalMatrix number_of_layers solution_parameters
      solver_parameters coeffcient_matrix = Ok m
    /\ (forall q : nat, 2 * Z.of_nat q + 1 < 2 * number_of_layers - 1 ->
          is_odd_row e1 e2 e3 e4 m (2 * q + 1))
    /\ (forall q : nat, (1 <= q)%nat -> 2 * Z.of_nat q < 2 * number_of_layers - 2 ->
          is_even_row e1 e2 e3 e4 m (2 * q))
    /\ (2 <= number_of_layers ->
          same_row coeffcient_matrix m (Z.to_nat (2 * number_of_layers - 2))).
Proof.
  intros Hrows. destruct layers as [L1 L2]. pose proof L2 as L3. unfold SIZE_MAX in L3.
  unfold AssembleTridiagonalMatrix.
  rewrite (map_at_Some _ _ _ at_e1), (map_at_Some _ _ _ at_e2),
    (map_at_Some _ _ _ at_e3), (map_at_Some _ _ _ at_e4),
    (map_at_Some _ _ _ at_R_sfc), !bind_Ok_l.
  unfold matrix_size. rewrite (size_t_small (2 * number_of_layers)) by lia.
  rewrite (size_t_small (2 * number_of_layers - 1)),
    (size_t_small (2 * number_of_layers - 2)) by lia.
  pose proof Hrows as (R1 & R2 & R3).
  pose proof cover1 as K1. pose proof cover2 as K2.
  pose proof cover3 as K3. pose proof cover4 as K4.
  unfold covers_rows in K1, K2, K3, K4.
  (* first row *)
  unfold matrix_first_row, set_front, front. run_row.
  match goal with |- context [for_ 1 _ 2 _ ?m] => set (m1 := m) end.
  assert (Rows1 : has_rows m1 (2 * number_of_layers)).
  { unfold has_rows, m1. cbn. rewrite !length_insert. auto. }
  assert (Same1 : forall k : nat, k <> 0%nat -> same_row coeffcient_matrix m1 k).
  { intros k Hk. unfold same_row, m1. cbn.
    change (Z.to_nat 0) with 0%nat. rewrite !list_lookup_insert_ne by lia. auto. }
  (* odd rows *)
  set (InvO := fun (i : Z) (m : TridiagonalMatrix T) =>
    (exists c : Z, 0 <= c /\ i = 2 * c + 1)
    /\ i <= 2 * number_of_layers
    /\ has_rows m (2 * number_of_layers)
    /\ (forall q : nat, 2 * Z.of_nat q + 1 < i ->
          is_odd_row e1 e2 e3 e4 m (2 * q + 1))
    /\ (forall k : nat, (i <= Z.of_nat k \/ exists q : nat, k = (2 * q)%nat) ->
          same_row m1 m k)).
  destruct (for_indexed InvO (matrix_odd_row e1 e2 e3 e4) 1
              (2 * number_of_layers - 1) 2 m1)
    as (m2 & n2 & E2 & ((c2 & C2 & ->) & U2 & Rows2 & Odd2 & Same2) & B2 & _).
  { lia. }
  { intros i m Hi ((c & Hc & ->) & Ui & Rows & Odd & Same).
    destruct (matrix_odd_row_entries number_of_layers e1 e2 e3 e4
                cover1 cover2 cover3 cover4 (2 * c + 1) m Rows)
      as (m' & Em & Rows' & Row & Keep); [lia|].
    exists m'. split; [exact Em|]. unfold InvO.
    split; [exists (c + 1); lia|]. split; [lia|]. split; [exact Rows'|].
    split.
    - intros q Hq. destruct (decide (Z.of_nat q = c)) as [<-|Hne].
      + replace (2 * q + 1)%nat with (Z.to_nat (2 * Z.of_nat q + 1)) by lia.
        exact Row.
      + apply is_odd_row_same with (m := m); [apply Odd; lia | apply Keep; lia].
    - intros k Hk. apply same_row_trans with (m2 := m).
      + apply Same. destruct Hk as [Hk|Hk]; [left; lia | right; exact Hk].
      + apply Keep. destruct Hk as [Hk|(q & ->)]; lia. }
  { unfold InvO. split; [exists 0; lia|]. split; [lia|]. split; [exact Rows1|].
    split; [intros q Hq; lia|]. intros k _. apply same_row_refl. }
  rewrite E2, bind_Ok_l.
  (* even rows *)
  set (InvE := fun (i : Z) (m : TridiagonalMatrix T) =>
    (exists c : Z, 1 <= c /\ i = 2 * c)
    /\ i <= Z.max 2 (2 * number_of_layers - 2)
    /\ has_rows m (2 * number_of_layers)
    /\ (forall q : nat, (1 <= q)%nat -> 2 * Z.of_nat q < i ->
          is_even_row e1 e2 e3 e4 m (2 * q))
    /\ (forall k : nat,
          (i <= Z.of_nat k \/ k = 0%nat \/ exists q : nat, k = (2 * q + 1)%nat) ->
          same_row m2 m k)).
  destruct (for_indexed InvE (matrix_even_row e1 e2 e3 e4) 2
              (2 * number_of_layers - 2) 2 m2)
    as (m3 & n3 & E3 & ((c3 & C3 & ->) & U3 & Rows3 & Even3 & Same3) & B3 & _).
  { lia. }
  { intros i m Hi ((c & Hc & ->) & Ui & Rows & Even & Same).
    destruct (matrix_even_row_entries number_of_layers e1 e2 e3 e4
                cover1 cover2 cover3 cover4 (2 * c) m Rows)
      as (m' & Em & Rows' & Row & Keep); [lia|].
    exists m'. split; [exact Em|]. unfold InvE.
    split; [exists (c + 1); lia|]. split; [lia|]. split; [exact Rows'|].
    split.
    - intros q Hq1 Hq. destruct (decide (Z.of_nat q = c)) as [<-|Hne].
      + replace (2 * q)%nat with (Z.to_nat (2 * Z.of_nat q)) by lia.
        exact Row.
      + apply is_even_row_same with (m := m); [apply Even; lia | apply Keep; lia].
    - intros k Hk. apply same_row_trans with (m2 := m).
      + apply Same. destruct Hk as [Hk|Hk]; [left; lia | right; exact Hk].
      + apply Keep. destruct Hk as [Hk|[->|(q & ->)]]; lia. }
  { unfold InvE. split; [exists 1; lia|]. split; [lia|]. split; [exact Rows2|].
    split; [intros q Hq1 Hq; lia|]. intros k _. apply same_row_refl. }
  rewrite E3, bind_Ok_l.
  (* last row *)
  destruct Rows3 as (S1 & S2 & S3).
  unfold matrix_last_row.
  destruct (back_cons e1) as (e1_b & B1 & _); [lia|].
  destruct (back_cons e2) as (e2_b & B2' & _); [lia|].
  destruct (back_cons e3) as (e3_b & B3' & _); [lia|].
  destruct (back_cons e4) as (e4_b & B4 & _); [lia|].
  rewrite B1, B2', B3', B4, !bind_Ok_l.
  repeat first [ rewrite bind_Ok_l | rewrite set_back_cons by lia ].
  match goal with |- context [Ok ?m] => set (m4 := m) end.
  assert (Same4 : forall k : nat, Z.of_nat k <> 2 * number_of_layers - 1 ->
                    same_row m3 m4 k).
  { intros k Hk. unfold same_row, m4. cbn.
    rewrite !list_lookup_insert_ne by lia. auto. }
  exists m4. split; [reflexivity|]. split; [|split].
  - intros q Hq. apply is_odd_row_same with (m := m3); [|apply Same4; lia].
    apply is_odd_row_same with (m := m2); [apply Odd2; lia|].
    apply Same3. right. right. now exists q.
  - intros q Hq1 Hq. apply is_even_row_same with (m := m3); [|apply Same4; lia].
    apply Even3; lia.
  - intros HN.
    apply same_row_trans with (m2 := m3); [|apply Same4; lia].
    apply same_row_trans with (m2 := m2); [|apply Same3; left; lia].
    apply same_row_trans with (m2 := m1); [apply Same1; lia|].
    apply Same2. right. exists (Z.to_nat (number_of_layers - 1)). lia.
Qed.
End Interior.

(** ** AssembleCoeffcientVector: the interior rows *)

Section VectorRows.
Context {T : Type} `{Scalar T}.
Variable number_of_layers : Z.
Variable solution_parameters : gmap string (list T).
Variable source_terms : gmap string (list T).
Variable solver_parameters : gmap string T.
Variables e1 e2 e3 e4 C_upwelling C_downwelling : list T.
Variables R_sfc f_0 : T.
Variable start : list T -> result T.
Variables up_start down_start : T.
Hypothesis layers : layer_count number_of_layers.
Hypothesis at_e1 : solution_parameters !! "e1" = Some e1.
Hypothesis at_e2 : solution_parameters !! "e2" = Some e2.
Hypothesis at_e3 : solution_parameters !! "e3" = Some e3.
Hypothesis at_e4 : solution_parameters !! "e4" = Some e4.
Hypothesis at_R_sfc : solver_parameters !! "Surface Reflectivity" = Some R_sfc.
Hypothesis at_f_0 : solver_parameters !! "source flux" = Some f_0.
Hypothesis at_up : source_terms !! "C_upwelling" = Some C_upwelling.
Hypothesis at_down : source_terms !! "C_downwelling" = Some C_downwelling.
Hypothesis cover1 : covers_rows number_of_layers e1.
Hypothesis cover2 : covers_rows number_of_layers e2.
Hypothesis cover3 : covers_rows number_of_layers e3.
Hypothesis cover4 : covers_rows number_of_layers e4.
Hypothesis cover_up : covers_rows number_of_layers C_upwelling.
Hypothesis cover_down : covers_rows number_of_layers C_downwelling.
Hypothesis start_up : start C_upwelling = Ok up_start.
Hypothesis start_down : start C_downwelling = Ok down_start.

Lemma vector_odd_row_entry (n : Z) (b : list T) :
  Z.of_nat (length b) = 2 * number_of_layers ->
  1 <= n < 2 * number_of_layers - 1 ->
  exists b', vector_odd_row start e1 e3 C_upwelling C_downwelling n b = Ok b'
    /\ Z.of_nat (length b') = 2 * number_of_layers
    /\ b' !! Z.to_nat n
       = odd_row_rhs e1 e3 C_upwelling C_downwelling up_start down_start (Z.to_nat n)
    /\ forall k : nat, k <> Z.to_nat n -> b' !! k = b !! k.
Proof.
  unfold covers_rows in *. intros L Hn.
  unfold vector_odd_row. rewrite start_up, start_down. run_row.
  eexists. split; [reflexivity|]. rewrite length_insert. split; [lia|].
  repeat match goal with
  | E : vec_get _ n = Ok _ |- _ => apply (vec_get_nat _ _ _ _ eq_refl) in E
  end.
  split.
  - unfold odd_row_rhs. rewrite list_lookup_insert_eq by lia.
    repeat match goal with E : _ !! _ = Some _ |- _ => rewrite E; clear E end.
    reflexivity.
  - intros k Hk. now rewrite list_lookup_insert_ne by lia.
Qed.

Lemma vector_even_row_entry (n : Z) (b : list T) :
  Z.of_nat (length b) = 2 * number_of_layers ->
  1 <= n < 2 * number_of_layers - 1 ->
  exists b', vector_even_row start e2 e4 C_upwelling C_downwelling n b = Ok b'
    /\ Z.of_nat (length b') = 2 * number_of_layers
    /\ b' !! Z.to_nat n
       = even_row_rhs e2 e4 C_upwelling C_downwelling up_start down_start (Z.to_nat n)
    /\ forall k : nat, k <> Z.to_nat n -> b' !! k = b !! k.
Proof.
  unfold covers_rows in *. intros L Hn.
  unfold vector_even_row. rewrite start_up, start_down. run_row.
  eexists. split; [reflexivity|]. rewrite length_insert. split; [lia|].
  assert (HS : Z.to_nat (n + 1) = S (Z.to_nat n)) by lia.
  repeat match goal with
  | E : vec_get _ (n + 1) = Ok _ |- _ => apply (vec_get_nat _ _ _ _ HS) in E
  | E : vec_get _ n = Ok _ |- _ => apply (vec_get_nat _ _ _ _ eq_refl) in E
  end.
  split.
  - unfold even_row_rhs. rewrite list_lookup_insert_eq by lia.
    repeat match goal with E : _ !! _ = Some _ |- _ => rewrite E; clear E end.
    reflexivity.
  - intros k Hk. now rewrite list_lookup_insert_ne by lia.
Qed.

Lemma AssembleCoeffcientVector_rows (coeffcient_vector : list T) :
  Z.of_nat (length coeffcient_vector) = 2 * number_of_layers ->
  exists b,
    AssembleCoeffcientVector start number_of_layers solution_parameters
      source_terms solver_parameters coeffcient_vector = Ok b
    /\ (forall q : nat, 2 * Z.of_nat q + 1 < 2 * number_of_layers - 1 ->
          b !! (2 * q + 1)%nat
          = odd_row_rhs e1 e3 C_upwelling C_downwelling up_start down_start
              (2 * q + 1))
    /\ (forall q : nat, (1 <= q)%nat -> 2 * Z.of_nat q < 2 * number_of_layers - 2 ->
          b !! (2 * q)%nat
          = even_row_rhs e2 e4 C_upwelling C_downwelling up_start down_start
              (2 * q))
    /\ (2 <= number_of_layers ->
          b !! Z.to_nat (2 * number_of_layers - 2)
          = coeffcient_vector !! Z.to_nat (2 * number_of_layers - 2)).
Proof.
  intros Hlen. destruct layers as [L1 L2]. pose proof L2 as L3. unfold SIZE_MAX in L3.
  unfold AssembleCoeffcientVector.
  rewrite (map_at_Some _ _ _ at_e1), (map_at_Some _ _ _ at_e2),
    (map_at_Some _ _ _ at_e3), (map_at_Some _ _ _ at_e4),
    (map_at_Some _ _ _ at_R_sfc), (map_at_Some _ _ _ at_f_0),
    (map_at_Some _ _ _ at_up), (map_at_Some _ _ _ at_down), !bind_Ok_l.
  unfold matrix_size. rewrite (size_t_small (2 * number_of_layers)) by lia.
  rewrite (size_t_small (2 * number_of_layers - 1)),
    (size_t_small (2 * number_of_layers - 2)) by lia.
  pose proof cover_down as K. unfold covers_rows in K.
  unfold set_front, front. run_row.
  match goal with |- context [for_ 1 _ 2 _ ?b] => set (b1 := b) end.
  assert (Len1 : Z.of_nat (length b1) = 2 * number_of_layers).
  { unfold b1. now rewrite length_insert. }
  assert (Same1 : forall k : nat, k <> 0%nat -> b1 !! k = coeffcient_vector !! k).
  { intros k Hk. unfold b1. change (Z.to_nat 0) with 0%nat.
    now rewrite list_lookup_insert_ne by lia. }
  set (InvO := fun (i : Z) (b : list T) =>
    (exists c : Z, 0 <= c /\ i = 2 * c + 1)
    /\ i <= 2 * number_of_layers
    /\ Z.of_nat (length b) = 2 * number_of_layers
    /\ (forall q : nat, 2 * Z.of_nat q + 1 < i ->
          b !! (2 * q + 1)%nat
          = odd_row_rhs e1 e3 C_upwelling C_downwelling up_start down_start
              (2 * q + 1))
    /\ (forall k : nat, (i <= Z.of_nat k \/ exists q : nat, k = (2 * q)%nat) ->
          b !! k = b1 !! k)).
  destruct (for_indexed InvO
              (vector_odd_row start e1 e3 C_upwelling C_downwelling) 1
              (2 * number_of_layers - 1) 2 b1)
    as (b2 & n2 & E2 & ((c2 & C2 & ->) & U2 & Len2 & Odd2 & Same2) & B2 & _).
  { lia. }
  { intros i b Hi ((c & Hc & ->) & Ui & Len & Odd & Same).
    destruct (vector_odd_row_entry (2 * c + 1) b Len)
      as (b' & Eb & Len' & Row & Keep); [lia|].
    exists b'. split; [exact Eb|]. unfold InvO.
    split; [exists (c + 1); lia|]. split; [lia|]. split; [exact Len'|].
    split.
    - intros q Hq. destruct (decide (Z.of_nat q = c)) as [<-|Hne].
      + replace (2 * q + 1)%nat with (Z.to_nat (2 * Z.of_nat q + 1)) by lia.
        exact Row.
      + rewrite Keep by lia. apply Odd. lia.
    - intros k Hk. rewrite Keep.
      + apply Same. destruct Hk as [Hk|Hk]; [left; lia | right; exact Hk].
      + destruct Hk as [Hk|(q & ->)]; lia. }
  { unfold InvO. split; [exists 0; lia|]. split; [lia|]. split; [exact Len1|].
    split; [intros q Hq; lia|]. reflexivity. }
  rewrite E2, bind_Ok_l.
  set (InvE := fun (i : Z) (b : list T) =>
    (exists c : Z, 1 <= c /\ i = 2 * c)
    /\ i <= Z.max 2 (2 * number_of_layers - 2)
    /\ Z.of_nat (length b) = 2 * number_of_layers
    /\ (forall q : nat, (1 <= q)%nat -> 2 * Z.of_nat q < i ->
          b !! (2 * q)%nat
          = even_row_rhs e2 e4 C_upwelling C_downwelling up_start down_start
              (2 * q))
    /\ (forall k : nat,
          (i <= Z.of_nat k \/ k = 0%nat \/ exists q : nat, k = (2 * q + 1)%nat) ->
          b !! k = b2 !! k)).
  destruct (for_indexed InvE
              (vector_even_row start e2 e4 C_upwelling C_downwelling) 2
              (2 * number_of_layers - 2) 2 b2)
    as (b3 & n3 & E3 & ((c3 & C3 & ->) & U3 & Len3 & Even3 & Same3) & B3 & _).
  { lia. }
  { intros i b Hi ((c & Hc & ->) & Ui & Len & Even & Same).
    destruct (vector_even_row_entry (2 * c) b Len)
      as (b' & Eb & Len' & Row & Keep); [lia|].
    exists b'. split; [exact Eb|]. unfold InvE.
    split; [exists (c + 1); lia|]. split; [lia|]. split; [exact Len'|].
    split.
    - intros q Hq1 Hq. destruct (decide (Z.of_nat q = c)) as [<-|Hne].
      + replace (2 * q)%nat with (Z.to_nat (2 * Z.of_nat q)) by lia.
        exact Row.
      + rewrite Keep by lia. apply Even; lia.
    - intros k Hk. rewrite Keep.
      + apply Same. destruct Hk as [Hk|Hk]; [left; lia | right; exact Hk].
      + destruct Hk as [Hk|[->|(q & ->)]]; lia. }
  { unfold InvE. split; [exists 1; lia|]. split; [lia|]. split; [exact Len2|].
    split; [intros q Hq1 Hq; lia|]. reflexivity. }
  rewrite E3, bind_Ok_l.
  exists b3. split; [reflexivity|]. split; [|split].
  - intros q Hq. rewrite Same3 by (right; right; now exists q). apply Odd2. lia.
  - intros q Hq1 Hq. apply Even3; lia.
  - intros HN. rewrite Same3 by (left; lia).
    rewrite Same2 by (right; exists (Z.to_nat (number_of_layers - 1)); lia).
    apply Same1. lia.
Qed.
End VectorRows.

(** ** Completion and failure *)

Section Field.
Context {T : Type} `{Scalar T}.

Lemma fill_from_Ok_fits (offset : Z) (a a' : list T) :
  offset <= INT_MAX -> fill_from offset a = Ok a' ->
  offset + Z.of_nat (length a) <= INT_MAX.
Proof.
  revert offset a'. induction a as [|x a IH]; intros offset a' Ho; simpl.
  - intros _. lia.
  - destruct (Z.ltb_spec offset INT_MAX); [|discriminate].
    intros E. apply bind_Ok in E as (a'' & E & _).
    apply IH in E; lia.
Qed.

Lemma length_counting (offset : Z) (n : nat) : length (counting (T := T) offset n) = n.
Proof. unfold counting. rewrite length_fmap, length_seqZ. lia. Qed.

Lemma ComputeRadiationField_shape {G1 G2 P1 P2 : Type}
    (sza1 sza2 : list T) (grids1 : gmap string G1) (grids2 : gmap string G2)
    (profiles1 : gmap string P1) (profiles2 : gmap string P2)
    (params1 params2 : Array2D T) (f1 f2 : RadiationField T) :
  same_lengths (spectral_irradiance_ f1) (spectral_irradiance_ f2) ->
  same_lengths (actinic_flux_ f1) (actinic_flux_ f2) ->
  ComputeRadiationField sza1 grids1 profiles1 params1 f1
  = ComputeRadiationField sza2 grids2 profiles2 params2 f2.
Proof.
  intros (I1 & I2 & I3) (A1 & A2 & A3). unfold ComputeRadiationField.
  rewrite (fill_from_shape 42 _ _ I1), (fill_from_shape 93 _ _ I2),
    (fill_from_shape 52 _ _ I3), (fill_from_shape 5 _ _ A1),
    (fill_from_shape 24 _ _ A2), (fill_from_shape 97 _ _ A3).
  reflexivity.
Qed.

(** X24.  The reconstruction completes exactly when none of the six [int]
    counters is incremented at [INT_MAX]: for each array, the start value
    plus the length is at most [INT_MAX]. *)
Theorem ComputeRadiationField_completes_iff {GridPolicy ProfilePolicy : Type}
    (sza : list T) (grids : gmap string GridPolicy)
    (profiles : gmap string ProfilePolicy) (params : Array2D T)
    (f : RadiationField T) :
  (exists f', ComputeRadiationField sza grids profiles params f = Ok f')
  <-> counters_fit f.
Proof.
  split.
  - intros (f' & E). unfold ComputeRadiationField in E.
    apply bind_Ok in E as (? & E1 & E). apply bind_Ok in E as (? & E2 & E).
    apply bind_Ok in E as (? & E3 & E). apply bind_Ok in E as (? & E4 & E).
    apply bind_Ok in E as (? & E5 & E). apply bind_Ok in E as (? & E6 & E).
    apply fill_from_Ok_fits in E1, E2, E3, E4, E5, E6;
      try (unfold INT_MAX; lia).
    repeat split; assumption.
  - intros Hf. eexists. now apply ComputeRadiationField_fits.
Qed.

(** X25.  Run on its own result, with any other inputs, the reconstruction
    returns that result again, and the arrays keep their lengths. *)
Theorem ComputeRadiationField_idempotent {G1 G2 P1 P2 : Type}
    (sza1 sza2 : list T) (grids1 : gmap string G1) (grids2 : gmap string G2)
    (profiles1 : gmap string P1) (profiles2 : gmap string P2)
    (params1 params2 : Array2D T) (f f' : RadiationField T) :
  ComputeRadiationField sza1 grids1 profiles1 params1 f = Ok f' ->
  ComputeRadiationField sza2 grids2 profiles2 params2 f' = Ok f'
  /\ same_lengths (spectral_irradiance_ f) (spectral_irradiance_ f')
  /\ same_lengths (actinic_flux_ f) (actinic_flux_ f').
Proof.
  intros E. pose proof (ComputeRadiationField_Ok _ _ _ _ _ _ E) as ->.
  assert (S1 : same_lengths (spectral_irradiance_ f)
                 (spectral_irradiance_ (placeholder_field f))).
  { unfold same_lengths, placeholder_field. cbn. now rewrite !length_counting. }
  assert (S2 : same_lengths (actinic_flux_ f) (actinic_flux_ (placeholder_field f))).
  { unfold same_lengths, placeholder_field. cbn. now rewrite !length_counting. }
  split; [|split; assumption].
  rewrite <- E. symmetry. now apply ComputeRadiationField_shape.
Qed.
End Field.

Section DerivationErrors.
Context {T : Type} `{Scalar T} `{Elementary T}.

(** X5.  If one of the keys "gamma1", "gamma2", "gamma3", "gamma4" and "mu" is
    absent from the solution parameters, the derivation fails with
    [std::out_of_range], whatever the other arguments are. *)
Theorem DeltaEddingtonApproximation_missing_key
    (accumulated_radiator_states : RadiatorState T)
    (solution_parameters : gmap string (list T))
    (solar_zenith_angles : list T) (key : string) :
  key ∈ ["gamma1"; "gamma2"; "gamma3"; "gamma4"; "mu"] ->
  solution_parameters !! key = None ->
  DeltaEddingtonApproximation accumulated_radiator_states solution_parameters
    solar_zenith_angles = Fault OutOfRange.
Proof.
  intros Hin Hnone. unfold DeltaEddingtonApproximation, map_at.
  repeat match goal with
  | |- context [solution_parameters !! ?k] =>
      lazymatch k with
      | key => fail
      | _ => destruct (solution_parameters !! k) eqn:?; [rewrite ?bind_Ok_l | reflexivity]
      end
  end.
  exfalso.
  repeat (apply elem_of_cons in Hin as [->|Hin]; [congruence|]).
  now apply elem_of_nil in Hin.
Qed.

(** X6.  With no solar zenith angle and the five keys present, the loop body
    never runs and the map is returned as it was. *)
Theorem DeltaEddingtonApproximation_no_columns
    (accumulated_radiator_states : RadiatorState T)
    (solution_parameters : gmap string (list T)) :
  (forall key, key ∈ ["gamma1"; "gamma2"; "gamma3"; "gamma4"; "mu"] ->
     is_Some (solution_parameters !! key)) ->
  DeltaEddingtonApproximation accumulated_radiator_states solution_parameters []
  = Ok solution_parameters.
Proof.
  intros Hkeys. unfold DeltaEddingtonApproximation.
  repeat match goal with
  | |- context [map_at solution_parameters ?k] =>
      let v := fresh "v" in let E := fresh "E" in
      destruct (Hkeys k) as [v E]; [repeat constructor|];
      rewrite (map_at_Some _ _ _ E), bind_Ok_l; clear E v
  end.
  reflexivity.
Qed.
End DerivationErrors.

Lemma for_loop_Ok_visits {S : Type} (I : S -> Prop) (body : Z -> S -> result S)
    (bound step : Z) (fuel : nat) (n : Z) (s s' : S) :
  0 < step ->
  (Z.to_nat (bound - n) <= fuel)%nat ->
  (forall i s s', I s -> body i s = Ok s' -> I s') ->
  I s ->
  for_loop fuel n bound step body s = Ok s' ->
  I s' /\ forall c : Z, 0 <= c -> n + c * step < bound ->
            exists sk sk', I sk /\ body (n + c * step) sk = Ok sk'.
Proof.
  intros Hstep. revert n s.
  induction fuel as [|fuel IH]; intros n s Hfuel Hbody HI; simpl.
  - intros [= <-]. split; [assumption|]. intros c Hc Hlt. nia.
  - destruct (Z.ltb_spec n bound) as [Hlt|Hge].
    + intros E. apply bind_Ok in E as (s1 & E1 & E).
      destruct (IH (n + step) s1) as [HI' Hvisit];
        [lia | assumption | eapply Hbody; eassumption | assumption |].
      split; [assumption|]. intros c Hc Hc'.
      destruct (Z.eq_dec c 0) as [->|Hne].
      * exists s, s1. rewrite Z.mul_0_l, Z.add_0_r. auto.
      * destruct (Hvisit (c - 1)) as (sk & sk' & Isk & Ek); [lia | nia |].
        exists sk, sk'. split; [assumption|].
        replace (n + c * step) with (n + step + (c - 1) * step) by ring.
        assumption.
    + intros [= <-]. split; [assumption|]. intros c Hc Hc'. nia.
Qed.

Lemma for_Ok_visits {S : Type} (I : S -> Prop) (body : Z -> S -> result S)
    (start bound : Z) (s s' : S) :
  (forall i s s', I s -> body i s = Ok s' -> I s') ->
  I s ->
  for_ start bound 1 body s = Ok s' ->
  I s' /\ forall k : Z, start <= k < bound ->
            exists sk sk', I sk /\ body k sk = Ok sk'.
Proof.
  intros Hbody HI E. unfold for_, iterations in E.
  assert (H1 : 0 < 1) by lia.
  destruct (for_loop_Ok_visits I body bound 1 _ start s s' H1 (Nat.le_refl _)
              Hbody HI E) as [HI' Hv].
  split; [assumption|]. intros k Hk.
  destruct (Hv (k - start)) as (sk & sk' & Isk & Ek); [lia | lia |].
  exists sk, sk'. split; [assumption|].
  replace (start + (k - start) * 1) with k in Ek by ring. assumption.
Qed.


Lemma same_shape_refl {V : Type} (m : gmap string (list V)) : same_shape m m.
Proof. intros key. reflexivity. Qed.

Lemma same_shape_trans {V : Type} (m1 m2 m3 : gmap string (list V)) :
  same_shape m1 m2 -> same_shape m2 m3 -> same_shape m1 m3.
Proof. intros A B key. now rewrite B, A. Qed.

Lemma same_shape_long_vector {V : Type} (m m' : gmap string (list V))
    (n : nat) (key : string) :
  same_shape m m' -> long_vector n m' key -> long_vector n m key.
Proof.
  intros S (v' & E & L). specialize (S key). rewrite E in S. cbn in S.
  destruct (m !! key) as [v|] eqn:Em; [|discriminate]. injection S as S.
  exists v. split; [assumption | lia].
Qed.

Lemma wr_Ok_shape {V : Type} (m m' : gmap string (list V)) (key : string)
    (i : Z) (x : V) :
  wr m key i x = Ok m' ->
  long_vector (S (Z.to_nat i)) m key /\ same_shape m m'.
Proof.
  intros E. apply wr_Ok in E as (v & Ev & L & ->). split.
  - exists v. split; [assumption | lia].
  - intros k. destruct (decide (key = k)) as [<-|Hne].
    + rewrite lookup_insert_eq, Ev. cbn. now rewrite length_insert.
    + now rewrite lookup_insert_ne.
Qed.

Lemma rd_Ok_long {V : Type} (m : gmap string (list V)) (key : string)
    (i : Z) (x : V) :
  rd m key i = Ok x -> long_vector (S (Z.to_nat i)) m key.
Proof.
  unfold rd, map_at. destruct (m !! key) as [v|] eqn:Em; [|discriminate].
  rewrite bind_Ok_l. intros E. apply vec_get_Ok in E.
  apply lookup_lt_Some in E. exists v. split; [assumption | lia].
Qed.

Lemma vec_get_Ok_lt {V : Type} (v : list V) (i : Z) (x : V) :
  vec_get v i = Ok x -> (S (Z.to_nat i) <= length v)%nat.
Proof. intros E. apply vec_get_Ok, lookup_lt_Some in E. lia. Qed.

Lemma assign_scalar_Ok_shape {T : Type} `{Scalar T} (m m' : gmap string (list T))
    (key : string) (x : T) :
  assign_scalar m key x = Ok m' -> same_shape m m'.
Proof.
  unfold assign_scalar, map_at. destruct (m !! key) as [v|] eqn:Ev; [|discriminate].
  rewrite bind_Ok_l. intros [= <-] k. destruct (decide (key = k)) as [<-|Hne].
  - rewrite lookup_insert_eq, Ev. cbn. now rewrite length_replicate.
  - now rewrite lookup_insert_ne.
Qed.

Ltac invert_binds :=
  repeat match goal with
  | E : mbind _ _ = Ok _ |- _ =>
      let x := fresh "x" in let E1 := fresh "E" in
      apply bind_Ok in E as (x & E1 & E)
  end.

Section DerivationConverse.
Context {T : Type} `{Scalar T} `{Elementary T}.

Lemma DeltaEddingtonApproximation_body_Ok
    (omega g sza : list T) (i : Z) (p p' : gmap string (list T)) :
  DeltaEddingtonApproximation_body omega g sza i p = Ok p' ->
  let n := S (Z.to_nat i) in
  ((n <= length sza)%nat /\ (n <= length omega)%nat /\ (n <= length g)%nat
   /\ long_vector n p "gamma1" /\ long_vector n p "gamma2"
   /\ long_vector n p "gamma3" /\ long_vector n p "mu")
  /\ same_shape p p'.
Proof.
  intros E n. unfold DeltaEddingtonApproximation_body, derive_parameters in E.
  cbv zeta in E. invert_binds.
  repeat match goal with
  | E : vec_get _ _ = Ok _ |- _ => apply vec_get_Ok_lt in E
  | E : wr _ _ _ _ = Ok _ |- _ => apply wr_Ok_shape in E as [? ?]
  | E : assign_scalar _ _ _ = Ok _ |- _ => apply assign_scalar_Ok_shape in E
  end.
  repeat match goal with
  | S : same_shape ?a ?b, L : long_vector _ ?b _ |- _ =>
      apply (same_shape_long_vector a b _ _ S) in L
  end.
  split; [auto 10|].
  repeat (eapply same_shape_trans; [eassumption|]). apply same_shape_refl.
Qed.
End DerivationConverse.

Section DerivationIff.
Context {T : Type} `{Scalar T} `{Elementary T}.


(** X1.  The derivation completes exactly on inputs that cover the columns:
    the five keys are present, and [optical_depth_],
    [single_scattering_albedo_] and the vectors at "gamma1", "gamma2",
    "gamma3" and "mu" have an entry for every solar zenith angle.  The vector
    at "gamma4" is looked up and never indexed, and [assymetry_parameter_] is
    never read. *)
Theorem DeltaEddingtonApproximation_completes_iff
    (accumulated_radiator_states : RadiatorState T)
    (solution_parameters : gmap string (list T))
    (solar_zenith_angles : list T) :
  (exists p,
     DeltaEddingtonApproximation accumulated_radiator_states
       solution_parameters solar_zenith_angles = Ok p)
  <-> derivation_inputs_cover accumulated_radiator_states solution_parameters
        solar_zenith_angles.
Proof.
  split.
  - intros (p & E). unfold DeltaEddingtonApproximation in E. cbv zeta in E.
    apply bind_Ok in E as (v1 & E1 & E). apply bind_Ok in E as (v2 & E2 & E).
    apply bind_Ok in E as (v3 & E3 & E). apply bind_Ok in E as (v4 & E4 & E).
    apply bind_Ok in E as (vm & Em & E).
    unfold map_at in E1, E2, E3, E4, Em.
    destruct (solution_parameters !! "gamma1") as [w1|] eqn:P1; [|discriminate].
    destruct (solution_parameters !! "gamma2") as [w2|] eqn:P2; [|discriminate].
    destruct (solution_parameters !! "gamma3") as [w3|] eqn:P3; [|discriminate].
    destruct (solution_parameters !! "gamma4") as [w4|] eqn:P4; [|discriminate].
    destruct (solution_parameters !! "mu") as [wm|] eqn:Pm; [|discriminate].
    set (n := length solar_zenith_angles) in *.
    apply (for_Ok_visits (same_shape solution_parameters)) in E as [_ Hv].
    + unfold derivation_inputs_cover. fold n. rewrite P4.
      destruct n as [|k] eqn:Hn.
      * repeat split; try lia; eauto; eexists; split; eauto; lia.
      * destruct (Hv (Z.of_nat k)) as (sk & sk' & Ssk & Ek); [lia|].
        apply DeltaEddingtonApproximation_body_Ok in Ek
          as ((L1 & L2 & L3 & G1 & G2 & G3 & Gm) & _).
        rewrite Nat2Z.id in *.
        apply (same_shape_long_vector _ _ _ _ Ssk) in G1, G2, G3, Gm.
        repeat split; eauto.
    + intros i s s' Ss Es. apply DeltaEddingtonApproximation_body_Ok in Es as [_ Ss'].
      eapply same_shape_trans; eassumption.
    + apply same_shape_refl.
  - intros (Lo & Lg & (v1 & P1 & L1) & (v2 & P2 & L2) & (v3 & P3 & L3)
            & (v4 & P4) & (vm & Pm & Lm)).
    destruct (DeltaEddingtonApproximation_result accumulated_radiator_states
                solution_parameters solar_zenith_angles v1 v2 v3 v4 vm
                P1 P2 P3 P4 Pm Lo Lg L1 L2 L3 Lm) as (p & ? & ? & ? & ? & E & _).
    now exists p.
Qed.
End DerivationIff.

Section InitializationConverse.
Context {T : Type} `{Scalar T} `{Elementary T}.


Lemma delta_scaling_body_Ok (i : Z) (r r' : RadiatorState T) :
  delta_scaling_body i r = Ok r' ->
  (S (Z.to_nat i) <= length (single_scattering_albedo_ r))%nat
  /\ (S (Z.to_nat i) <= length (assymetry_parameter_ r))%nat
  /\ length (single_scattering_albedo_ r') = length (single_scattering_albedo_ r)
  /\ length (assymetry_parameter_ r') = length (assymetry_parameter_ r)
  /\ optical_depth_ r' = optical_depth_ r.
Proof.
  intros E. unfold delta_scaling_body in E. cbv zeta in E. invert_binds.
  injection E as <-.
  repeat match goal with
  | E : vec_set _ _ _ = Ok _ |- _ => apply vec_set_Ok in E as [? ->]
  end.
  cbn in *. rewrite ?length_insert in *.
  repeat match goal with
  | E : vec_get _ _ = Ok _ |- _ => apply vec_get_Ok_lt in E
  end.
  rewrite ?length_insert in *. repeat split; lia.
Qed.

Lemma source_terms_body_Ok (sza : list T) (r : RadiatorState T) (i : Z)
    (w w' : Workspace) :
  source_terms_body sza r i w = Ok w' ->
  let n := S (Z.to_nat i) in
  ((n <= length sza)%nat
   /\ (n <= length (single_scattering_albedo_ r))%nat
   /\ (n <= length (optical_depth_ r))%nat
   /\ (forall key : string, key ∈ solution_keys -> key <> "mu" ->
         long_vector n (ws_solution w) key)
   /\ (forall key : string, key ∈ source_keys -> long_vector n (ws_sources w) key))
  /\ same_shape (ws_solution w) (ws_solution w')
  /\ same_shape (ws_sources w) (ws_sources w').
Proof.
  intros E n. unfold source_terms_body in E. cbv zeta in E. invert_binds.
  injection E as <-. cbn [ws_solution ws_sources].
  repeat match goal with
  | E : vec_get _ _ = Ok _ |- _ => apply vec_get_Ok_lt in E
  | E : rd _ _ _ = Ok _ |- _ => apply rd_Ok_long in E
  | E : wr _ _ _ _ = Ok _ |- _ => apply wr_Ok_shape in E as [? ?]
  end.
  repeat match goal with
  | S : same_shape ?a ?b, L : long_vector _ ?b _ |- _ =>
      apply (same_shape_long_vector a b _ _ S) in L
  end.
  split; [|split].
  - repeat split; try assumption.
    + intros key Hin Hmu. unfold solution_keys in Hin.
      repeat (apply elem_of_cons in Hin as [->|Hin]; [assumption || congruence|]).
      now apply elem_of_nil in Hin.
    + intros key Hin. unfold source_keys in Hin.
      repeat (apply elem_of_cons in Hin as [->|Hin]; [assumption|]).
      now apply elem_of_nil in Hin.
  - repeat (eapply same_shape_trans; [eassumption|]). apply same_shape_refl.
  - repeat (eapply same_shape_trans; [eassumption|]). apply same_shape_refl.
Qed.

Lemma map_at_Ok {V : Type} (m : gmap string V) (key : string) (x : V) :
  map_at m key = Ok x -> m !! key = Some x.
Proof. unfold map_at. destruct (m !! key); [now intros [= ->] | discriminate]. Qed.

Lemma assert_Ok (b : bool) (u : unit) : assert b = Ok u -> b = true.
Proof. destruct b; [reflexivity | discriminate]. Qed.

Lemma long_vector_0 (m : gmap string (list T)) (key : string) (v : list T) :
  m !! key = Some v -> long_vector 0 m key.
Proof. intros E. exists v. split; [assumption | lia]. Qed.

(** X7.  The initialization completes exactly when the two grids are present
    and pass the assertions, the three arrays of the radiator state and the
    vectors at every key looked up other than "mu" have an entry for every
    solar zenith angle, and the key "mu" is present. *)
Theorem InitializeVariables_completes_iff {ProfilePolicy : Type}
    (solar_zenith_angles : list T) (grids : gmap string Grid)
    (profiles : gmap string ProfilePolicy)
    (solver_parameters solution_parameters source_terms : gmap string (list T))
    (accumulated_radiator_states : RadiatorState T) :
  (exists out,
     InitializeVariables solar_zenith_angles grids profiles solver_parameters
       solution_parameters source_terms accumulated_radiator_states = Ok out)
  <-> initialization_inputs_cover solar_zenith_angles grids solution_parameters
        source_terms accumulated_radiator_states.
Proof.
  split.
  - intros (out & E). unfold InitializeVariables in E. cbv zeta in E.
    set (n := length solar_zenith_angles) in *.
    apply bind_Ok in E as (vg & Evg & E). apply bind_Ok in E as (wg & Ewg & E).
    apply bind_Ok in E as (u1 & A1 & E). apply bind_Ok in E as (u2 & A2 & E).
    apply bind_Ok in E as (r & Er & E).
    apply bind_Ok in E as (c1 & C1 & E). apply bind_Ok in E as (c2 & C2 & E).
    apply bind_Ok in E as (p1 & P1 & E). apply bind_Ok in E as (p2 & P2 & E).
    apply bind_Ok in E as (p3 & P3 & E). apply bind_Ok in E as (p4 & P4 & E).
    apply bind_Ok in E as (p5 & P5 & E). apply bind_Ok in E as (p6 & P6 & E).
    apply bind_Ok in E as (p7 & P7 & E). apply bind_Ok in E as (p8 & P8 & E).
    apply bind_Ok in E as (p9 & P9 & E). apply bind_Ok in E as (w & Ew & _).
    apply map_at_Ok in Evg, Ewg, C1, C2, P1, P2, P3, P4, P5, P6, P7, P8, P9.
    apply assert_Ok, Z.eqb_eq in A1, A2.
    unfold delta_scaling in Er.
    apply (for_Ok_visits (fun s =>
             length (single_scattering_albedo_ s)
             = length (single_scattering_albedo_ accumulated_radiator_states)
             /\ length (assymetry_parameter_ s)
                = length (assymetry_parameter_ accumulated_radiator_states)
             /\ optical_depth_ s = optical_depth_ accumulated_radiator_states))
      in Er as [(Rs1 & Rs2 & Rs3) Hv1].
    2:{ intros i s s' (I1 & I2 & I3) Es.
        apply delta_scaling_body_Ok in Es as (_ & _ & -> & -> & ->). auto. }
    2:{ auto. }
    apply (for_Ok_visits (fun s =>
             same_shape solution_parameters (ws_solution s)
             /\ same_shape source_terms (ws_sources s)))
      in Ew as [_ Hv2].
    2:{ intros i s s' (I1 & I2) Es.
        apply source_terms_body_Ok in Es as (_ & S1 & S2).
        split; eapply same_shape_trans; eassumption. }
    2:{ split; apply same_shape_refl. }
    unfold initialization_inputs_cover. fold n.
    split; [exists vg, wg; auto|].
    destruct n as [|k] eqn:Hn.
    + split; [unfold state_covers; lia|].
      split; [|split; [eauto|]].
      * intros key Hin _. unfold solution_keys in Hin.
        repeat (apply elem_of_cons in Hin as [->|Hin];
                [eapply long_vector_0; eassumption|]).
        now apply elem_of_nil in Hin.
      * intros key Hin. unfold source_keys in Hin.
        repeat (apply elem_of_cons in Hin as [->|Hin];
                [eapply long_vector_0; eassumption|]).
        now apply elem_of_nil in Hin.
    + destruct (Hv1 (Z.of_nat k)) as (s1 & s1' & (I1 & I2 & I3) & E1); [lia|].
      apply delta_scaling_body_Ok in E1 as (B1 & B2 & _).
      destruct (Hv2 (Z.of_nat k)) as (s2 & s2' & (J1 & J2) & E2); [lia|].
      apply source_terms_body_Ok in E2 as ((_ & _ & B3 & Kp & Kc) & _).
      rewrite Nat2Z.id in *.
      unfold slant_optical_depth in B3. cbn in B3.
      rewrite length_map, Rs3 in B3.
      split; [unfold state_covers; lia|].
      split; [|split; [eauto|]].
      * intros key Hin Hmu.
        apply (same_shape_long_vector _ _ _ _ J1). now apply Kp.
      * intros key Hin.
        apply (same_shape_long_vector _ _ _ _ J2). now apply Kc.
  - intros (Hg & Hs & Kp & (vm & Pm) & Kc).
    assert (Hkey : forall key, key ∈ solution_keys -> key <> "mu" ->
              exists v, solution_parameters !! key = Some v
                        /\ (length solar_zenith_angles <= length v)%nat).
    { intros key Hin Hmu. exact (Kp key Hin Hmu). }
    destruct (Hkey "source flux") as (v_flux & ? & ?);
      [unfold solution_keys; repeat constructor | discriminate |].
    destruct (Hkey "lambda") as (v_lambda & ? & ?);
      [unfold solution_keys; repeat constructor | discriminate |].
    destruct (Hkey "infrared source flux") as (v_infrared & ? & ?);
      [unfold solution_keys; repeat constructor | discriminate |].
    destruct (Hkey "solar source flux") as (v_solar & ? & ?);
      [unfold solution_keys; repeat constructor | discriminate |].
    destruct (Hkey "gamma1") as (v1 & ? & ?);
      [unfold solution_keys; repeat constructor | discriminate |].
    destruct (Hkey "gamma2") as (v2 & ? & ?);
      [unfold solution_keys; repeat constructor | discriminate |].
    destruct (Hkey "gamma3") as (v3 & ? & ?);
      [unfold solution_keys; repeat constructor | discriminate |].
    destruct (Hkey "gamma4") as (v4 & ? & ?);
      [unfold solution_keys; repeat constructor | discriminate |].
    destruct (Kc "C_downwelling") as (v_down & ? & ?);
      [unfold source_keys; repeat constructor |].
    destruct (Kc "C_upwelling") as (v_up & ? & ?);
      [unfold source_keys; repeat constructor |].
    destruct (InitializeVariables_result ProfilePolicy solar_zenith_angles grids
                profiles solver_parameters solution_parameters source_terms
                accumulated_radiator_states
                v_flux v_lambda v_infrared v_solar v1 v2 v3 v4 vm v_down v_up)
      as (out & ? & ? & ? & ? & E & _); try assumption.
    now exists out.
Qed.
End InitializationConverse.

Section InitializationErrors.
Context {T : Type} `{Scalar T} `{Elementary T}.

(** X8.  If the grids are not both present with [NumberOfColumns] equal to the
    number of solar zenith angles for the vertical grid and to 1 for the
    wavelength grid, the initialization fails before anything is computed:
    with [std::out_of_range] if a grid is absent, with a failed assertion
    otherwise. *)
Theorem InitializeVariables_rejects_grids {ProfilePolicy : Type}
    (solar_zenith_angles : list T) (grids : gmap string Grid)
    (profiles : gmap string ProfilePolicy)
    (solver_parameters solution_parameters source_terms : gmap string (list T))
    (accumulated_radiator_states : RadiatorState T) :
  ~ grids_agree grids (length solar_zenith_angles) ->
  InitializeVariables solar_zenith_angles grids profiles solver_parameters
    solution_parameters source_terms accumulated_radiator_states
  = Fault match grids !! "altitude [m]", grids !! "wavelength [m]" with
          | Some _, Some _ => AssertFailed
          | _, _ => OutOfRange
          end.
Proof.
  intros Hno. unfold InitializeVariables, map_at.
  destruct (grids !! "altitude [m]") as [vg|] eqn:Evg; [|reflexivity].
  rewrite bind_Ok_l.
  destruct (grids !! "wavelength [m]") as [wg|] eqn:Ewg; [|reflexivity].
  rewrite bind_Ok_l.
  destruct (Z.eqb_spec (NumberOfColumns vg) (Z.of_nat (length solar_zenith_angles)))
    as [Hv|Hv]; [|reflexivity].
  cbn [assert]. rewrite bind_Ok_l.
  destruct (Z.eqb_spec (NumberOfColumns wg) 1) as [Hw|Hw]; [|reflexivity].
  exfalso. apply Hno. exists vg, wg. auto.
Qed.

(** X9.  If the grids agree and the delta scaling runs to its end, a key absent
    from the solution parameters or from the source terms makes the
    initialization fail with [std::out_of_range]; so do "lambda" and "mu",
    whose vectors enter no value that is stored. *)
Theorem InitializeVariables_missing_key {ProfilePolicy : Type}
    (solar_zenith_angles : list T) (grids : gmap string Grid)
    (profiles : gmap string ProfilePolicy)
    (solver_parameters solution_parameters source_terms : gmap string (list T))
    (accumulated_radiator_states : RadiatorState T) (key : string) :
  grids_agree grids (length solar_zenith_angles) ->
  (length solar_zenith_angles
   <= length (single_scattering_albedo_ accumulated_radiator_states))%nat ->
  (length solar_zenith_angles
   <= length (assymetry_parameter_ accumulated_radiator_states))%nat ->
  (key ∈ solution_keys /\ solution_parameters !! key = None)
  \/ (key ∈ source_keys /\ source_terms !! key = None) ->
  InitializeVariables solar_zenith_angles grids profiles solver_parameters
    solution_parameters source_terms accumulated_radiator_states
  = Fault OutOfRange.
Proof.
  intros (vg & wg & Evg & Ewg & Nvg & Nwg) Lo Lg Hmiss.
  unfold InitializeVariables.
  rewrite (map_at_Some _ _ _ Evg), (map_at_Some _ _ _ Ewg), !bind_Ok_l.
  rewrite Nvg, Nwg, !Z.eqb_refl. cbn [assert]. rewrite !bind_Ok_l.
  destruct (delta_scaling_result _ accumulated_radiator_states Lo Lg)
    as (r & -> & _).
  rewrite bind_Ok_l. unfold map_at.
  repeat match goal with
  | |- mbind _ (match ?m !! ?k with Some _ => _ | None => _ end) = _ =>
      destruct (m !! k) eqn:?; [rewrite bind_Ok_l | reflexivity]
  end.
  exfalso. unfold solution_keys, source_keys in Hmiss.
  destruct Hmiss as [[Hin Hnone]|[Hin Hnone]];
    repeat (apply elem_of_cons in Hin as [->|Hin]; [congruence|]);
    now apply elem_of_nil in Hin.
Qed.

(** X14.  With no solar zenith angle, agreeing grids and all keys present, the
    initialization returns the radiator state and both maps as they were. *)
Theorem InitializeVariables_no_columns {ProfilePolicy : Type}
    (grids : gmap string Grid) (profiles : gmap string ProfilePolicy)
    (solver_parameters solution_parameters source_terms : gmap string (list T))
    (accumulated_radiator_states : RadiatorState T) :
  grids_agree grids 0 ->
  (forall key, key ∈ solution_keys -> is_Some (solution_parameters !! key)) ->
  (forall key, key ∈ source_keys -> is_Some (source_terms !! key)) ->
  InitializeVariables [] grids profiles solver_parameters
    solution_parameters source_terms accumulated_radiator_states
  = Ok {| radiator_states := accumulated_radiator_states;
          parameters := solution_parameters;
          sources := source_terms |}.
Proof.
  intros (vg & wg & Evg & Ewg & Nvg & Nwg) Kp Kc.
  unfold InitializeVariables.
  rewrite (map_at_Some _ _ _ Evg), (map_at_Some _ _ _ Ewg), !bind_Ok_l.
  rewrite Nvg, Nwg. cbn [length]. rewrite !Z.eqb_refl. cbn [assert].
  rewrite !bind_Ok_l.
  change (Z.of_nat 0) with 0.
  replace (delta_scaling 0 accumulated_radiator_states)
    with (Ok accumulated_radiator_states) by reflexivity.
  rewrite bind_Ok_l.
  repeat match goal with
  | |- context [map_at source_terms ?k] =>
      let v := fresh "v" in let E := fresh "E" in
      destruct (Kc k) as [v E]; [unfold source_keys; repeat constructor|];
      rewrite (map_at_Some _ _ _ E), bind_Ok_l; clear E v
  | |- context [map_at solution_parameters ?k] =>
      let v := fresh "v" in let E := fresh "E" in
      destruct (Kp k) as [v E]; [unfold solution_keys; repeat constructor|];
      rewrite (map_at_Some _ _ _ E), bind_Ok_l; clear E v
  end.
  cbn. unfold slant_optical_depth, with_optical_depth. rewrite map_id.
  now destruct accumulated_radiator_states.
Qed.
End InitializationErrors.

Section AssemblyErrors.
Context {T : Type} `{Scalar T}.

(** X17.  If one of "e1", "e2", "e3", "e4" is absent from the solution
    parameters, or "Surface Reflectivity" from the solver parameters, the
    matrix assembly fails with [std::out_of_range]. *)
Theorem AssembleTridiagonalMatrix_missing_key
    (number_of_layers : Z) (solution_parameters : gmap string (list T))
    (solver_parameters : gmap string T)
    (coeffcient_matrix : TridiagonalMatrix T) (key : string) :
  (key ∈ ["e1"; "e2"; "e3"; "e4"] /\ solution_parameters !! key = None)
  \/ (key = "Surface Reflectivity" /\ solver_parameters !! key = None) ->
  AssembleTridiagonalMatrix number_of_layers solution_parameters
    solver_parameters coeffcient_matrix = Fault OutOfRange.
Proof.
  intros Hmiss. unfold AssembleTridiagonalMatrix, map_at.
  repeat match goal with
  | |- mbind _ (match ?m !! ?k with Some _ => _ | None => _ end) = _ =>
      destruct (m !! k) eqn:?; [rewrite bind_Ok_l | reflexivity]
  end.
  exfalso. destruct Hmiss as [[Hin Hnone]|[-> Hnone]]; [|congruence].
  repeat (apply elem_of_cons in Hin as [->|Hin]; [congruence|]).
  now apply elem_of_nil in Hin.
Qed.

(** X22.  If one of "e1", "e2", "e3", "e4" is absent from the solution
    parameters, "Surface Reflectivity" or "source flux" from the solver
    parameters, or "C_upwelling" or "C_downwelling" from the source terms, the
    assembly of the right-hand side fails with [std::out_of_range]. *)
Theorem AssembleCoeffcientVector_missing_key
    (start : list T -> result T)
    (number_of_layers : Z) (solution_parameters source_terms : gmap string (list T))
    (solver_parameters : gmap string T)
    (coeffcient_vector : list T) (key : string) :
  (key ∈ ["e1"; "e2"; "e3"; "e4"] /\ solution_parameters !! key = None)
  \/ (key ∈ ["Surface Reflectivity"; "source flux"]
      /\ solver_parameters !! key = None)
  \/ (key ∈ ["C_upwelling"; "C_downwelling"] /\ source_terms !! key = None) ->
  AssembleCoeffcientVector start number_of_layers solution_parameters
    source_terms solver_parameters coeffcient_vector = Fault OutOfRange.
Proof.
  intros Hmiss. unfold AssembleCoeffcientVector, map_at.
  repeat match goal with
  | |- mbind _ (match ?m !! ?k with Some _ => _ | None => _ end) = _ =>
      destruct (m !! k) eqn:?; [rewrite bind_Ok_l | reflexivity]
  end.
  exfalso. destruct Hmiss as [[Hin Hnone]|[[Hin Hnone]|[Hin Hnone]]];
    repeat (apply elem_of_cons in Hin as [->|Hin]; [congruence|]);
    now apply elem_of_nil in Hin.
Qed.


Lemma vec_set_nil {V : Type} (i : Z) (x : V) : vec_set [] i x = Fault Undefined.
Proof. reflexivity. Qed.

Lemma vec_get_fault {V : Type} (v : list V) (i : Z) (e : fault) :
  vec_get v i = Fault e -> e = Undefined.
Proof. unfold vec_get. destruct (v !! Z.to_nat i); [discriminate | now intros [= <-]]. Qed.

Lemma vec_set_fault {V : Type} (v : list V) (i : Z) (x : V) (e : fault) :
  vec_set v i x = Fault e -> e = Undefined.
Proof. unfold vec_set. destruct (_ <? _)%nat; [discriminate | now intros [= <-]]. Qed.

(** X18.  With the keys present and a diagonal without entries, the first-row
    or the last-row statements call [front()] or [back()] on an empty vector:
    the matrix assembly is undefined, for every number of layers. *)
Theorem AssembleTridiagonalMatrix_empty_diagonal
    (number_of_layers : Z) (solution_parameters : gmap string (list T))
    (solver_parameters : gmap string T)
    (coeffcient_matrix : TridiagonalMatrix T) :
  assembly_keys_present solution_parameters solver_parameters ->
  upper_diagonal_ coeffcient_matrix = []
  \/ main_diagonal_ coeffcient_matrix = []
  \/ lower_diagonal_ coeffcient_matrix = [] ->
  AssembleTridiagonalMatrix number_of_layers solution_parameters
    solver_parameters coeffcient_matrix = Fault Undefined.
Proof.
  intros (Kp & (R & ER)) Hempty. unfold AssembleTridiagonalMatrix.
  destruct (Kp "e1") as [e1 E1]; [repeat constructor|].
  destruct (Kp "e2") as [e2 E2]; [repeat constructor|].
  destruct (Kp "e3") as [e3 E3]; [repeat constructor|].
  destruct (Kp "e4") as [e4 E4]; [repeat constructor|].
  rewrite (map_at_Some _ _ _ E1), (map_at_Some _ _ _ E2),
    (map_at_Some _ _ _ E3), (map_at_Some _ _ _ E4),
    (map_at_Some _ _ _ ER), !bind_Ok_l.
  assert (First : matrix_first_row e1 e2 coeffcient_matrix = Fault Undefined).
  { unfold matrix_first_row, set_front, front.
    destruct (vec_set (upper_diagonal_ coeffcient_matrix) 0 _) as [u|e] eqn:Eu.
    2:{ apply vec_set_fault in Eu as ->. reflexivity. }
    rewrite bind_Ok_l.
    destruct (vec_get e1 0) as [a|e] eqn:Ea.
    2:{ apply vec_get_fault in Ea as ->. reflexivity. }
    rewrite bind_Ok_l.
    destruct (vec_set (main_diagonal_ coeffcient_matrix) 0 _) as [d|e] eqn:Ed.
    2:{ apply vec_set_fault in Ed as ->. reflexivity. }
    rewrite bind_Ok_l.
    destruct (vec_get e2 0) as [b|e] eqn:Eb.
    2:{ apply vec_get_fault in Eb as ->. reflexivity. }
    rewrite bind_Ok_l.
    destruct (vec_set (lower_diagonal_ coeffcient_matrix) 0 _) as [l|e] eqn:El.
    2:{ apply vec_set_fault in El as ->. reflexivity. }
    exfalso. destruct Hempty as [Hn|[Hn|Hn]]; rewrite Hn in *; discriminate. }
  now rewrite First.
Qed.

(** X23.  With the keys present and a right-hand side without entries, line
    208 calls [front()] on an empty vector: the assembly of the right-hand
    side is undefined, for every number of layers. *)
Theorem AssembleCoeffcientVector_empty_vector
    (start : list T -> result T)
    (number_of_layers : Z) (solution_parameters source_terms : gmap string (list T))
    (solver_parameters : gmap string T) :
  assembly_keys_present solution_parameters solver_parameters ->
  is_Some (solver_parameters !! "source flux") ->
  is_Some (source_terms !! "C_upwelling") ->
  is_Some (source_terms !! "C_downwelling") ->
  AssembleCoeffcientVector start number_of_layers solution_parameters
    source_terms solver_parameters [] = Fault Undefined.
Proof.
  intros (Kp & (R & ER)) (f0 & Ef) (cu & Eu) (cd & Ed).
  unfold AssembleCoeffcientVector.
  destruct (Kp "e1") as [e1 E1]; [repeat constructor|].
  destruct (Kp "e2") as [e2 E2]; [repeat constructor|].
  destruct (Kp "e3") as [e3 E3]; [repeat constructor|].
  destruct (Kp "e4") as [e4 E4]; [repeat constructor|].
  rewrite (map_at_Some _ _ _ E1), (map_at_Some _ _ _ E2),
    (map_at_Some _ _ _ E3), (map_at_Some _ _ _ E4),
    (map_at_Some _ _ _ ER), (map_at_Some _ _ _ Ef),
    (map_at_Some _ _ _ Eu), (map_at_Some _ _ _ Ed), !bind_Ok_l.
  unfold front, set_front.
  destruct (vec_get cd 0) as [x|e] eqn:Ex.
  - rewrite bind_Ok_l. reflexivity.
  - apply vec_get_fault in Ex as ->. reflexivity.
Qed.
End AssemblyErrors.

Lemma bind_Fault {A B : Type} (r : result A) (k : A -> result B) (e : fault) :
  r ≫= k = Fault e -> r = Fault e \/ exists a, r = Ok a /\ k a = Fault e.
Proof. destruct r as [a|f]; [right; now exists a | intros [= ->]; now left]. Qed.

Lemma for_loop_fault {S : Type} (body : Z -> S -> result S) (e0 : fault)
    (bound step : Z) (fuel : nat) (n : Z) (s : S) (e : fault) :
  (forall i s e, body i s = Fault e -> e = e0) ->
  for_loop fuel n bound step body s = Fault e -> e = e0.
Proof.
  intros Hbody. revert n s. induction fuel as [|fuel IH]; intros n s; simpl.
  - discriminate.
  - destruct (n <? bound); [|discriminate].
    intros E. apply bind_Fault in E as [E|(s1 & _ & E)].
    + eapply Hbody; eassumption.
    + eapply IH; eassumption.
Qed.

Ltac fault_kind :=
  repeat match goal with
  | E : mbind _ _ = Fault _ |- _ =>
      apply bind_Fault in E as [E|(? & _ & E)]
  | E : vec_get _ _ = Fault _ |- _ => apply vec_get_fault in E
  | E : vec_set _ _ _ = Fault _ |- _ => apply vec_set_fault in E
  | E : Ok _ = Fault _ |- _ => discriminate E
  end; try assumption.

Section ShortSystem.
Context {T : Type} `{Scalar T}.

Lemma matrix_odd_row_fault (e1 e2 e3 e4 : list T) (n : Z)
    (m : TridiagonalMatrix T) (e : fault) :
  matrix_odd_row e1 e2 e3 e4 n m = Fault e -> e = Undefined.
Proof. unfold matrix_odd_row. intros E. fault_kind. Qed.

Lemma matrix_odd_row_Ok_upper (e1 e2 e3 e4 : list T) (n : Z)
    (m m' : TridiagonalMatrix T) :
  matrix_odd_row e1 e2 e3 e4 n m = Ok m' ->
  (Z.to_nat n < length (upper_diagonal_ m))%nat
  /\ length (upper_diagonal_ m') = length (upper_diagonal_ m).
Proof.
  unfold matrix_odd_row. intros E. invert_binds. injection E as <-. cbn.
  repeat match goal with
  | E : vec_set _ _ _ = Ok _ |- _ => apply vec_set_Ok in E as [? ->]
  end.
  rewrite length_insert. auto.
Qed.

Lemma matrix_first_row_fault (e1 e2 : list T) (m : TridiagonalMatrix T) (e : fault) :
  matrix_first_row e1 e2 m = Fault e -> e = Undefined.
Proof. unfold matrix_first_row, set_front, front. intros E. fault_kind. Qed.

Lemma matrix_first_row_Ok_upper (e1 e2 : list T) (m m' : TridiagonalMatrix T) :
  matrix_first_row e1 e2 m = Ok m' ->
  length (upper_diagonal_ m') = length (upper_diagonal_ m).
Proof.
  unfold matrix_first_row, set_front, front. intros E. invert_binds.
  injection E as <-. cbn.
  repeat match goal with
  | E : vec_set _ _ _ = Ok _ |- _ => apply vec_set_Ok in E as [? ->]
  end.
  now rewrite length_insert.
Qed.

(** X19.  The assembly does not compare the number of rows with the number of
    layers.  With the keys present, if the upper diagonal has fewer than
    [bound - 1] entries, [bound] being the bound [matrix_size - 1] of the
    odd-row loop computed in [std::size_t], a statement indexes a vector
    past its end: the assembly is undefined.  For zero layers the bound
    wraps to [2^64 - 1]. *)
Theorem AssembleTridiagonalMatrix_short_system
    (number_of_layers : Z) (solution_parameters : gmap string (list T))
    (solver_parameters : gmap string T)
    (coeffcient_matrix : TridiagonalMatrix T) :
  assembly_keys_present solution_parameters solver_parameters ->
  Z.of_nat (length (upper_diagonal_ coeffcient_matrix)) + 1
  < size_t (matrix_size number_of_layers - 1) ->
  AssembleTridiagonalMatrix number_of_layers solution_parameters
    solver_parameters coeffcient_matrix = Fault Undefined.
Proof.
  intros (Kp & (R & ER)) Hshort. unfold AssembleTridiagonalMatrix.
  destruct (Kp "e1") as [e1 E1]; [repeat constructor|].
  destruct (Kp "e2") as [e2 E2]; [repeat constructor|].
  destruct (Kp "e3") as [e3 E3]; [repeat constructor|].
  destruct (Kp "e4") as [e4 E4]; [repeat constructor|].
  rewrite (map_at_Some _ _ _ E1), (map_at_Some _ _ _ E2),
    (map_at_Some _ _ _ E3), (map_at_Some _ _ _ E4),
    (map_at_Some _ _ _ ER), !bind_Ok_l.
  set (bound := size_t (matrix_size number_of_layers - 1)) in *.
  destruct (matrix_first_row e1 e2 coeffcient_matrix) as [m1|e] eqn:First.
  2:{ apply matrix_first_row_fault in First as ->. reflexivity. }
  apply matrix_first_row_Ok_upper in First. rewrite bind_Ok_l.
  set (L := length (upper_diagonal_ coeffcient_matrix)) in *.
  destruct (for_ 1 bound 2 (matrix_odd_row e1 e2 e3 e4) m1) as [m2|e] eqn:Loop.
  - exfalso. unfold for_ in Loop.
    assert (H2 : 0 < 2) by lia.
    destruct (for_loop_Ok_visits
                (fun m => length (upper_diagonal_ m) = L)
                (matrix_odd_row e1 e2 e3 e4) bound 2 _ 1 m1 m2 H2
                (Nat.le_refl _)) as [_ Hv]; [| assumption | exact Loop |].
    { intros i s s' Is Es. apply matrix_odd_row_Ok_upper in Es as [_ ->].
      exact Is. }
    destruct (Hv (Z.of_nat L / 2)) as (sk & sk' & Isk & Ek).
    { apply Z.div_pos; lia. }
    { pose proof (Z.div_mod (Z.of_nat L) 2 ltac:(lia)).
      pose proof (Z.mod_pos_bound (Z.of_nat L) 2 ltac:(lia)). lia. }
    apply matrix_odd_row_Ok_upper in Ek as [Hlt _]. rewrite Isk in Hlt.
    pose proof (Z.div_mod (Z.of_nat L) 2 ltac:(lia)).
    pose proof (Z.mod_pos_bound (Z.of_nat L) 2 ltac:(lia)).
    assert (0 <= Z.of_nat L / 2) by (apply Z.div_pos; lia). lia.
  - unfold for_ in Loop. apply (for_loop_fault _ Undefined) in Loop as ->;
      [reflexivity|].
    intros i s e0. apply matrix_odd_row_fault.
Qed.
End ShortSystem.

(** ** The results, one property at a time *)

Section MapLookups.
Context {T : Type}.

Lemma gamma_map_lookup (gamma1 gamma2 gamma3 gamma4 mu : list T) :
  let p := gamma_map gamma1 gamma2 gamma3 gamma4 mu in
  p !! "gamma1" = Some gamma1 /\ p !! "gamma2" = Some gamma2 /\
  p !! "gamma3" = Some gamma3 /\ p !! "gamma4" = Some gamma4 /\
  p !! "mu" = Some mu.
Proof. repeat split; vm_compute; reflexivity. Qed.

Lemma parameter_map_lookup
    (gamma1 gamma2 gamma3 gamma4 mu lambda source_flux infrared solar : list T) :
  let p := parameter_map gamma1 gamma2 gamma3 gamma4 mu lambda source_flux
             infrared solar in
  p !! "gamma1" = Some gamma1 /\ p !! "gamma2" = Some gamma2 /\
  p !! "gamma3" = Some gamma3 /\ p !! "gamma4" = Some gamma4 /\
  p !! "mu" = Some mu /\ p !! "lambda" = Some lambda /\
  p !! "source flux" = Some source_flux /\
  p !! "infrared source flux" = Some infrared /\
  p !! "solar source flux" = Some solar.
Proof. repeat split; vm_compute; reflexivity. Qed.

Lemma source_map_lookup (C_upwelling C_downwelling : list T) :
  let c := source_map C_upwelling C_downwelling in
  c !! "C_upwelling" = Some C_upwelling /\
  c !! "C_downwelling" = Some C_downwelling.
Proof. repeat split; vm_compute; reflexivity. Qed.

Lemma eigen_map_lookup (e1 e2 e3 e4 : list T) :
  let p := eigen_map e1 e2 e3 e4 in
  p !! "e1" = Some e1 /\ p !! "e2" = Some e2 /\
  p !! "e3" = Some e3 /\ p !! "e4" = Some e4.
Proof. repeat split; vm_compute; reflexivity. Qed.
End MapLookups.

Lemma long_vector_lookup {T : Type} (n : nat) (m : gmap string (list T))
    (key : string) (v : list T) :
  long_vector n m key -> m !! key = Some v -> (n <= length v)%nat.
Proof. intros (w & E & L) Ev. rewrite Ev in E. now injection E as <-. Qed.

Lemma long_vector_intro {T : Type} (n : nat) (m : gmap string (list T))
    (key : string) (v : list T) :
  m !! key = Some v -> (n <= length v)%nat -> long_vector n m key.
Proof. intros E L. now exists v. Qed.

Section DerivationEntries.
Context {T : Type} `{Scalar T} `{Elementary T}.

Lemma DeltaEddingtonApproximation_covered
    (accumulated_radiator_states : RadiatorState T)
    (solution_parameters : gmap string (list T))
    (solar_zenith_angles : list T) :
  derivation_inputs_cover accumulated_radiator_states solution_parameters
    solar_zenith_angles ->
  let omega := optical_depth_ accumulated_radiator_states in
  let g := single_scattering_albedo_ accumulated_radiator_states in
  let n := length solar_zenith_angles in
  exists p v1 v2 v3 vm v1' v2' v3',
    DeltaEddingtonApproximation accumulated_radiator_states
      solution_parameters solar_zenith_angles = Ok p
    /\ (solution_parameters !! "gamma1" = Some v1
        /\ solution_parameters !! "gamma2" = Some v2
        /\ solution_parameters !! "gamma3" = Some v3
        /\ solution_parameters !! "mu" = Some vm)
    /\ (p !! "gamma1" = Some v1' /\ prefix_written n (stored_gamma1 omega g) v1 v1')
    /\ (p !! "gamma2" = Some v2' /\ prefix_written n (stored_gamma2 omega g) v2 v2')
    /\ (p !! "gamma3" = Some v3'
        /\ prefix_written n (stored_gamma3 g solar_zenith_angles) v3 v3')
    /\ p !! "mu" = Some (if decide (n = 0%nat) then vm
                         else replicate (length vm) one_half)
    /\ (forall key : string,
          key <> "gamma1" -> key <> "gamma2" -> key <> "gamma3" -> key <> "mu" ->
          p !! key = solution_parameters !! key).
Proof.
  intros (Lo & Lg & (v1 & P1 & L1) & (v2 & P2 & L2) & (v3 & P3 & L3)
          & (v4 & P4) & (vm & Pm & Lm)) omega g n.
  destruct (DeltaEddingtonApproximation_result accumulated_radiator_states
              solution_parameters solar_zenith_angles v1 v2 v3 v4 vm
              P1 P2 P3 P4 Pm Lo Lg L1 L2 L3 Lm)
    as (p & v1' & v2' & v3' & vm' & E & G1 & G2 & G3 & (Em & ->) & Frame).
  exists p, v1, v2, v3, vm, v1', v2', v3'. auto 10.
Qed.

(** X2.  On inputs that cover the columns the derivation completes, and for
    every column [j] the vectors at "gamma1", "gamma2" and "gamma3" hold at
    [j] what lines 38-40 assign, computed from [optical_depth_] (the array
    the source names [omega]) and [single_scattering_albedo_] (named [g]);
    gamma1 is not divided by 4.  Entries past the last column are kept. *)
Theorem DeltaEddingtonApproximation_columns
    (accumulated_radiator_states : RadiatorState T)
    (solution_parameters : gmap string (list T))
    (solar_zenith_angles gamma1 gamma2 gamma3 : list T) :
  derivation_inputs_cover accumulated_radiator_states solution_parameters
    solar_zenith_angles ->
  solution_parameters !! "gamma1" = Some gamma1 ->
  solution_parameters !! "gamma2" = Some gamma2 ->
  solution_parameters !! "gamma3" = Some gamma3 ->
  exists p gamma1' gamma2' gamma3',
    DeltaEddingtonApproximation accumulated_radiator_states
      solution_parameters solar_zenith_angles = Ok p
    /\ p !! "gamma1" = Some gamma1'
    /\ p !! "gamma2" = Some gamma2'
    /\ p !! "gamma3" = Some gamma3'
    /\ prefix_written (length solar_zenith_angles)
         (stored_gamma1 (optical_depth_ accumulated_radiator_states)
            (single_scattering_albedo_ accumulated_radiator_states))
         gamma1 gamma1'
    /\ prefix_written (length solar_zenith_angles)
         (stored_gamma2 (optical_depth_ accumulated_radiator_states)
            (single_scattering_albedo_ accumulated_radiator_states))
         gamma2 gamma2'
    /\ prefix_written (length solar_zenith_angles)
         (stored_gamma3 (single_scattering_albedo_ accumulated_radiator_states)
            solar_zenith_angles)
         gamma3 gamma3'.
Proof.
  intros Hc E1 E2 E3.
  destruct (DeltaEddingtonApproximation_covered _ _ _ Hc)
    as (p & v1 & v2 & v3 & vm & v1' & v2' & v3' & E & (P1 & P2 & P3 & _)
        & (Q1 & W1) & (Q2 & W2) & (Q3 & W3) & _).
  rewrite E1 in P1. rewrite E2 in P2. rewrite E3 in P3.
  injection P1 as <-. injection P2 as <-. injection P3 as <-.
  exists p, v1', v2', v3'. auto 10.
Qed.

(** X3.  With at least one column, the vector at "mu" ends as a vector of the
    same length that holds 0.5 everywhere: the square roots that lines 41
    and 42 store through [lambda] and [Gamma], both bound to the key "mu",
    are overwritten by line 43. *)
Theorem DeltaEddingtonApproximation_mu_overwritten
    (accumulated_radiator_states : RadiatorState T)
    (solution_parameters : gmap string (list T))
    (solar_zenith_angles mu : list T) :
  derivation_inputs_cover accumulated_radiator_states solution_parameters
    solar_zenith_angles ->
  solution_parameters !! "mu" = Some mu ->
  solar_zenith_angles <> [] ->
  exists p,
    DeltaEddingtonApproximation accumulated_radiator_states
      solution_parameters solar_zenith_angles = Ok p
    /\ p !! "mu" = Some (replicate (length mu) one_half).
Proof.
  intros Hc Em Hne.
  destruct (DeltaEddingtonApproximation_covered _ _ _ Hc)
    as (p & v1 & v2 & v3 & vm & v1' & v2' & v3' & E & (_ & _ & _ & Pm)
        & _ & _ & _ & Qm & _).
  rewrite Em in Pm. injection Pm as <-.
  exists p. split; [exact E|]. rewrite Qm.
  destruct (decide (length solar_zenith_angles = 0%nat)) as [Z|_]; [|reflexivity].
  destruct solar_zenith_angles; [congruence | discriminate].
Qed.

(** X4.  The derivation writes under the keys "gamma1", "gamma2", "gamma3" and
    "mu" only: what the map holds under any other key, "gamma4" among them,
    is what it held on entry, and no key is added. *)
Theorem DeltaEddingtonApproximation_other_keys_kept
    (accumulated_radiator_states : RadiatorState T)
    (solution_parameters : gmap string (list T))
    (solar_zenith_angles : list T) :
  derivation_inputs_cover accumulated_radiator_states solution_parameters
    solar_zenith_angles ->
  exists p,
    DeltaEddingtonApproximation accumulated_radiator_states
      solution_parameters solar_zenith_angles = Ok p
    /\ p !! "gamma4" = solution_parameters !! "gamma4"
    /\ forall key : string,
         key ∉ ["gamma1"; "gamma2"; "gamma3"; "mu"] ->
         p !! key = solution_parameters !! key.
Proof.
  intros Hc.
  destruct (DeltaEddingtonApproximation_covered _ _ _ Hc)
    as (p & v1 & v2 & v3 & vm & v1' & v2' & v3' & E & _ & _ & _ & _ & _ & Frame).
  exists p. split; [exact E|]. split.
  - apply Frame; discriminate.
  - intros key Hkey. apply Frame; intros ->; apply Hkey; repeat constructor.
Qed.
End DerivationEntries.

Section InitializationEntries.
Context {T : Type} `{Scalar T} `{Elementary T}.

Lemma InitializeVariables_covered {ProfilePolicy : Type}
    (solar_zenith_angles : list T) (grids : gmap string Grid)
    (profiles : gmap string ProfilePolicy)
    (solver_parameters solution_parameters source_terms : gmap string (list T))
    (accumulated_radiator_states : RadiatorState T) :
  initialization_inputs_cover solar_zenith_angles grids solution_parameters
    source_terms accumulated_radiator_states ->
  let n := length solar_zenith_angles in
  let tau := optical_depth_ accumulated_radiator_states in
  let omega := single_scattering_albedo_ accumulated_radiator_states in
  let g := assymetry_parameter_ accumulated_radiator_states in
  exists v_flux v_infrared v_solar v1 v2 v3 v4 v_down v_up,
    (solution_parameters !! "source flux" = Some v_flux
     /\ solution_parameters !! "infrared source flux" = Some v_infrared
     /\ solution_parameters !! "solar source flux" = Some v_solar
     /\ solution_parameters !! "gamma1" = Some v1
     /\ solution_parameters !! "gamma2" = Some v2
     /\ solution_parameters !! "gamma3" = Some v3
     /\ solution_parameters !! "gamma4" = Some v4
     /\ source_terms !! "C_downwelling" = Some v_down
     /\ source_terms !! "C_upwelling" = Some v_up)
    /\ exists out v_infrared' v_solar' v_down' v_up',
    InitializeVariables solar_zenith_angles grids profiles solver_parameters
      solution_parameters source_terms accumulated_radiator_states = Ok out
    /\ (optical_depth_ (radiator_states out) = tau
        /\ prefix_written n (stored_scaled_albedo omega g) omega
             (single_scattering_albedo_ (radiator_states out))
        /\ prefix_written n (stored_scaled_asymmetry omega g) g
             (assymetry_parameter_ (radiator_states out)))
    /\ (parameters out !! "infrared source flux" = Some v_infrared'
        /\ prefix_written n
             (stored_infrared_source_flux solar_zenith_angles tau v_flux)
             v_infrared v_infrared')
    /\ (parameters out !! "solar source flux" = Some v_solar'
        /\ prefix_written n (stored_solar_source_flux v_flux) v_solar v_solar')
    /\ (sources out !! "C_downwelling" = Some v_down'
        /\ prefix_written n
             (stored_C_downwelling solar_zenith_angles tau
                (single_scattering_albedo_ (radiator_states out))
                v_flux v1 v2 v3 v4)
             v_down v_down')
    /\ (sources out !! "C_upwelling" = Some v_up'
        /\ prefix_written n
             (stored_C_upwelling solar_zenith_angles tau
                (single_scattering_albedo_ (radiator_states out))
                v_flux v1 v2 v3 v4)
             v_up v_up')
    /\ (forall key : string,
          key <> "infrared source flux" -> key <> "solar source flux" ->
          parameters out !! key = solution_parameters !! key)
    /\ (forall key : string,
          key <> "C_downwelling" -> key <> "C_upwelling" ->
          sources out !! key = source_terms !! key).
Proof.
  intros (Hg & Hs & Hp & (v_mu & Pmu) & Hc) n tau omega g.
  destruct (Hp "source flux") as (v_flux & Pf & Lf);
    [unfold solution_keys; repeat constructor | discriminate |].
  destruct (Hp "lambda") as (v_lambda & Pl & Ll);
    [unfold solution_keys; repeat constructor | discriminate |].
  destruct (Hp "infrared source flux") as (v_infrared & Pi & Li);
    [unfold solution_keys; repeat constructor | discriminate |].
  destruct (Hp "solar source flux") as (v_solar & Ps & Ls);
    [unfold solution_keys; repeat constructor | discriminate |].
  destruct (Hp "gamma1") as (v1 & P1 & L1);
    [unfold solution_keys; repeat constructor | discriminate |].
  destruct (Hp "gamma2") as (v2 & P2 & L2);
    [unfold solution_keys; repeat constructor | discriminate |].
  destruct (Hp "gamma3") as (v3 & P3 & L3);
    [unfold solution_keys; repeat constructor | discriminate |].
  destruct (Hp "gamma4") as (v4 & P4 & L4);
    [unfold solution_keys; repeat constructor | discriminate |].
  destruct (Hc "C_downwelling") as (v_down & Pd & Ld);
    [unfold source_keys; repeat constructor |].
  destruct (Hc "C_upwelling") as (v_up & Pu & Lu);
    [unfold source_keys; repeat constructor |].
  exists v_flux, v_infrared, v_solar, v1, v2, v3, v4, v_down, v_up.
  split; [auto 10|].
  exact (InitializeVariables_result ProfilePolicy solar_zenith_angles grids
           profiles solver_parameters solution_parameters source_terms
           accumulated_radiator_states v_flux v_lambda v_infrared v_solar
           v1 v2 v3 v4 v_mu v_down v_up Hg Hs Pf Pl Pi Ps P1 P2 P3 P4 Pmu Pd Pu
           Lf Ll Li Ls L1 L2 L3 L4 Ld Lu).
Qed.

Ltac same_vector :=
  repeat match goal with
  | A : ?m !! ?k = Some ?v, B : ?m !! ?k = Some ?w |- _ =>
      rewrite A in B; injection B as <-
  end.

(** X10.  Delta scaling (lines 79-85) on inputs that cover the columns: the
    optical depth is returned as it was, and for every column [j] the
    asymmetry parameter becomes [(1 - f) g / (1 - g f)] and the albedo
    [(1 - g' f) ((omega - f) / (1 - f))] with [f = omega * omega], [omega]
    and [g] the values of the column on entry and [g'] the new asymmetry
    parameter.  Entries past the last column are kept. *)
Theorem InitializeVariables_delta_scaling {ProfilePolicy : Type}
    (solar_zenith_angles : list T) (grids : gmap string Grid)
    (profiles : gmap string ProfilePolicy)
    (solver_parameters solution_parameters source_terms : gmap string (list T))
    (accumulated_radiator_states : RadiatorState T) :
  initialization_inputs_cover solar_zenith_angles grids solution_parameters
    source_terms accumulated_radiator_states ->
  exists out,
    InitializeVariables solar_zenith_angles grids profiles solver_parameters
      solution_parameters source_terms accumulated_radiator_states = Ok out
    /\ optical_depth_ (radiator_states out)
       = optical_depth_ accumulated_radiator_states
    /\ prefix_written (length solar_zenith_angles)
         (stored_scaled_albedo
            (single_scattering_albedo_ accumulated_radiator_states)
            (assymetry_parameter_ accumulated_radiator_states))
         (single_scattering_albedo_ accumulated_radiator_states)
         (single_scattering_albedo_ (radiator_states out))
    /\ prefix_written (length solar_zenith_angles)
         (stored_scaled_asymmetry
            (single_scattering_albedo_ accumulated_radiator_states)
            (assymetry_parameter_ accumulated_radiator_states))
         (assymetry_parameter_ accumulated_radiator_states)
         (assymetry_parameter_ (radiator_states out)).
Proof.
  intros Hc.
  destruct (InitializeVariables_covered _ _ profiles solver_parameters _ _ _ Hc)
    as (? & ? & ? & ? & ? & ? & ? & ? & ? & _ & out & ? & ? & ? & ?
        & E & (S1 & S2 & S3) & _).
  exists out. auto.
Qed.

(** X11.  The two source fluxes (lines 122-123): for every column [j] the vector
    at "infrared source flux" holds
    [R_sfc[j] * mu_0 * exp(-tau_cumulative / mu_0)], with [mu_0] the arc
    cosine of the zenith angle and [tau_cumulative] the optical depths of
    the columns up to and including [j] added up, and the vector at
    "solar source flux" holds [M_PI * R_sfc[j]], where [R_sfc] is the
    vector at "source flux". *)
Theorem InitializeVariables_source_fluxes {ProfilePolicy : Type}
    (solar_zenith_angles : list T) (grids : gmap string Grid)
    (profiles : gmap string ProfilePolicy)
    (solver_parameters solution_parameters source_terms : gmap string (list T))
    (accumulated_radiator_states : RadiatorState T)
    (source_flux infrared solar : list T) :
  initialization_inputs_cover solar_zenith_angles grids solution_parameters
    source_terms accumulated_radiator_states ->
  solution_parameters !! "source flux" = Some source_flux ->
  solution_parameters !! "infrared source flux" = Some infrared ->
  solution_parameters !! "solar source flux" = Some solar ->
  exists out infrared' solar',
    InitializeVariables solar_zenith_angles grids profiles solver_parameters
      solution_parameters source_terms accumulated_radiator_states = Ok out
    /\ parameters out !! "infrared source flux" = Some infrared'
    /\ parameters out !! "solar source flux" = Some solar'
    /\ prefix_written (length solar_zenith_angles)
         (stored_infrared_source_flux solar_zenith_angles
            (optical_depth_ accumulated_radiator_states) source_flux)
         infrared infrared'
    /\ prefix_written (length solar_zenith_angles)
         (stored_solar_source_flux source_flux) solar solar'.
Proof.
  intros Hc Ef Ei Es.
  destruct (InitializeVariables_covered _ _ profiles solver_parameters _ _ _ Hc)
    as (v_flux & v_infrared & v_solar & ? & ? & ? & ? & ? & ?
        & (Pf & Pi & Ps & _) & out & v_i' & v_s' & ? & ?
        & E & _ & (Qi & Wi) & (Qs & Ws) & _).
  same_vector. exists out, v_i', v_s'. auto 10.
Qed.

(** X12.  The source terms (lines 118, 124-125): for every column [j] the
    vectors at "C_downwelling" and "C_upwelling" hold the exponential term
    times the bracket of the line, and nothing is divided by the
    denominator.  The exponential term is
    [omega[j] * M_PI * R_sfc[j] * exp(-(tau_before - tau[j]) / mu_0)], with
    [omega] the scaled albedo and [tau_before] the optical depths of the
    columns before [j] added up. *)
Theorem InitializeVariables_source_terms {ProfilePolicy : Type}
    (solar_zenith_angles : list T) (grids : gmap string Grid)
    (profiles : gmap string ProfilePolicy)
    (solver_parameters solution_parameters source_terms : gmap string (list T))
    (accumulated_radiator_states : RadiatorState T)
    (source_flux gamma1 gamma2 gamma3 gamma4 C_downwelling C_upwelling : list T) :
  initialization_inputs_cover solar_zenith_angles grids solution_parameters
    source_terms accumulated_radiator_states ->
  solution_parameters !! "source flux" = Some source_flux ->
  solution_parameters !! "gamma1" = Some gamma1 ->
  solution_parameters !! "gamma2" = Some gamma2 ->
  solution_parameters !! "gamma3" = Some gamma3 ->
  solution_parameters !! "gamma4" = Some gamma4 ->
  source_terms !! "C_downwelling" = Some C_downwelling ->
  source_terms !! "C_upwelling" = Some C_upwelling ->
  exists out C_downwelling' C_upwelling',
    InitializeVariables solar_zenith_angles grids profiles solver_parameters
      solution_parameters source_terms accumulated_radiator_states = Ok out
    /\ sources out !! "C_downwelling" = Some C_downwelling'
    /\ sources out !! "C_upwelling" = Some C_upwelling'
    /\ prefix_written (length solar_zenith_angles)
         (stored_C_downwelling solar_zenith_angles
            (optical_depth_ accumulated_radiator_states)
            (single_scattering_albedo_ (radiator_states out))
            source_flux gamma1 gamma2 gamma3 gamma4)
         C_downwelling C_downwelling'
    /\ prefix_written (length solar_zenith_angles)
         (stored_C_upwelling solar_zenith_angles
            (optical_depth_ accumulated_radiator_states)
            (single_scattering_albedo_ (radiator_states out))
            source_flux gamma1 gamma2 gamma3 gamma4)
         C_upwelling C_upwelling'.
Proof.
  intros Hc Ef E1 E2 E3 E4 Ed Eu.
  destruct (InitializeVariables_covered _ _ profiles solver_parameters _ _ _ Hc)
    as (v_flux & v_infrared & v_solar & v1 & v2 & v3 & v4 & v_down & v_up
        & (Pf & _ & _ & P1 & P2 & P3 & P4 & Pd & Pu) & out & ? & ? & v_d' & v_u'
        & E & _ & _ & _ & (Qd & Wd) & (Qu & Wu) & _).
  same_vector. exists out, v_d', v_u'. auto 10.
Qed.

(** X13.  The initialization writes under "infrared source flux" and "solar
    source flux" of the solution parameters and under "C_downwelling" and
    "C_upwelling" of the source terms only: the gamma vectors, "lambda",
    "mu" and "source flux" are read and returned as they were. *)
Theorem InitializeVariables_other_keys_kept {ProfilePolicy : Type}
    (solar_zenith_angles : list T) (grids : gmap string Grid)
    (profiles : gmap string ProfilePolicy)
    (solver_parameters solution_parameters source_terms : gmap string (list T))
    (accumulated_radiator_states : RadiatorState T) :
  initialization_inputs_cover solar_zenith_angles grids solution_parameters
    source_terms accumulated_radiator_states ->
  exists out,
    InitializeVariables solar_zenith_angles grids profiles solver_parameters
      solution_parameters source_terms accumulated_radiator_states = Ok out
    /\ (forall key : string,
          key ∉ ["infrared source flux"; "solar source flux"] ->
          parameters out !! key = solution_parameters !! key)
    /\ (forall key : string,
          key ∉ ["C_downwelling"; "C_upwelling"] ->
          sources out !! key = source_terms !! key).
Proof.
  intros Hc.
  destruct (InitializeVariables_covered _ _ profiles solver_parameters _ _ _ Hc)
    as (? & ? & ? & ? & ? & ? & ? & ? & ? & _ & out & ? & ? & ? & ?
        & E & _ & _ & _ & _ & _ & F1 & F2).
  exists out. split; [exact E|]. split.
  - intros key Hkey. apply F1; intros ->; apply Hkey; repeat constructor.
  - intros key Hkey. apply F2; intros ->; apply Hkey; repeat constructor.
Qed.
End InitializationEntries.

Section MatrixEntries.
Context {T : Type} `{Scalar T}.
Variable number_of_layers : Z.
Variable solution_parameters : gmap string (list T).
Variable solver_parameters : gmap string T.
Variables e1 e2 e3 e4 : list T.
Variable R_sfc : T.
Hypothesis layers : layer_count number_of_layers.
Hypothesis at_e1 : solution_parameters !! "e1" = Some e1.
Hypothesis at_e2 : solution_parameters !! "e2" = Some e2.
Hypothesis at_e3 : solution_parameters !! "e3" = Some e3.
Hypothesis at_e4 : solution_parameters !! "e4" = Some e4.
Hypothesis at_R_sfc : solver_parameters !! "Surface Reflectivity" = Some R_sfc.
Hypothesis cover1 : covers_rows number_of_layers e1.
Hypothesis cover2 : covers_rows number_of_layers e2.
Hypothesis cover3 : covers_rows number_of_layers e3.
Hypothesis cover4 : covers_rows number_of_layers e4.

(** X15.  The interior rows of the matrix (lines 160-173): every odd row
    [n < 2N - 1] holds the three entries of lines 162-164 and every even
    row [2 <= n < 2N - 2] the three entries of lines 170-172, each computed
    from the entries [n] and [n + 1] of [e1] to [e4]. *)
Theorem AssembleTridiagonalMatrix_interior_rows
    (coeffcient_matrix : TridiagonalMatrix T) :
  has_rows coeffcient_matrix (2 * number_of_layers) ->
  exists m,
    AssembleTridiagonalMatrix number_of_layers solution_parameters
      solver_parameters coeffcient_matrix = Ok m
    /\ (forall q : nat, 2 * Z.of_nat q + 1 < 2 * number_of_layers - 1 ->
          is_odd_row e1 e2 e3 e4 m (2 * q + 1))
    /\ (forall q : nat, (1 <= q)%nat -> 2 * Z.of_nat q < 2 * number_of_layers - 2 ->
          is_even_row e1 e2 e3 e4 m (2 * q)).
Proof.
  intros Hrows.
  destruct (AssembleTridiagonalMatrix_rows number_of_layers solution_parameters
              solver_parameters e1 e2 e3 e4 R_sfc layers at_e1 at_e2 at_e3 at_e4
              at_R_sfc cover1 cover2 cover3 cover4 coeffcient_matrix Hrows)
    as (m & E & Odd & Even & _).
  exists m. auto.
Qed.

(** X16.  With two layers or more, row [2N - 2] of the matrix is written by no
    statement: the even-row loop stops below it and the last-row statements
    write row [2N - 1].  Its three entries are those of the matrix passed
    in. *)
Theorem AssembleTridiagonalMatrix_row_before_last_kept
    (coeffcient_matrix : TridiagonalMatrix T) :
  2 <= number_of_layers ->
  has_rows coeffcient_matrix (2 * number_of_layers) ->
  exists m,
    AssembleTridiagonalMatrix number_of_layers solution_parameters
      solver_parameters coeffcient_matrix = Ok m
    /\ same_row coeffcient_matrix m (Z.to_nat (2 * number_of_layers - 2)).
Proof.
  intros Hn Hrows.
  destruct (AssembleTridiagonalMatrix_rows number_of_layers solution_parameters
              solver_parameters e1 e2 e3 e4 R_sfc layers at_e1 at_e2 at_e3 at_e4
              at_R_sfc cover1 cover2 cover3 cover4 coeffcient_matrix Hrows)
    as (m & E & _ & _ & Same).
  exists m. auto.
Qed.
End MatrixEntries.

Section VectorEntries.
Context {T : Type} `{Scalar T}.
Variable number_of_layers : Z.
Variable solution_parameters : gmap string (list T).
Variable source_terms : gmap string (list T).
Variable solver_parameters : gmap string T.
Variables e1 e2 e3 e4 C_upwelling C_downwelling : list T.
Variables R_sfc f_0 : T.
Variable start : list T -> result T.
Variables up_start down_start : T.
Hypothesis layers : layer_count number_of_layers.
Hypothesis at_e1 : solution_parameters !! "e1" = Some e1.
Hypothesis at_e2 : solution_parameters !! "e2" = Some e2.
Hypothesis at_e3 : solution_parameters !! "e3" = Some e3.
Hypothesis at_e4 : solution_parameters !! "e4" = Some e4.
Hypothesis at_R_sfc : solver_parameters !! "Surface Reflectivity" = Some R_sfc.
Hypothesis at_f_0 : solver_parameters !! "source flux" = Some f_0.
Hypothesis at_up : source_terms !! "C_upwelling" = Some C_upwelling.
Hypothesis at_down : source_terms !! "C_downwelling" = Some C_downwelling.
Hypothesis cover1 : covers_rows number_of_layers e1.
Hypothesis cover2 : covers_rows number_of_layers e2.
Hypothesis cover3 : covers_rows number_of_layers e3.
Hypothesis cover4 : covers_rows number_of_layers e4.
Hypothesis cover_up : covers_rows number_of_layers C_upwelling.
Hypothesis cover_down : covers_rows number_of_layers C_downwelling.
Hypothesis start_up : start C_upwelling = Ok up_start.
Hypothesis start_down : start C_downwelling = Ok down_start.

(** X20.  The interior rows of the right-hand side (lines 211-222): every odd
    row [n < 2N - 1] holds the value of lines 213-214 and every even row
    [2 <= n < 2N - 2] the value of lines 220-221, for whatever the two
    calls of [start()] return. *)
Theorem AssembleCoeffcientVector_interior_rows (coeffcient_vector : list T) :
  Z.of_nat (length coeffcient_vector) = 2 * number_of_layers ->
  exists b,
    AssembleCoeffcientVector start number_of_layers solution_parameters
      source_terms solver_parameters coeffcient_vector = Ok b
    /\ (forall q : nat, 2 * Z.of_nat q + 1 < 2 * number_of_layers - 1 ->
          b !! (2 * q + 1)%nat
          = odd_row_rhs e1 e3 C_upwelling C_downwelling up_start down_start
              (2 * q + 1))
    /\ (forall q : nat, (1 <= q)%nat -> 2 * Z.of_nat q < 2 * number_of_layers - 2 ->
          b !! (2 * q)%nat
          = even_row_rhs e2 e4 C_upwelling C_downwelling up_start down_start
              (2 * q)).
Proof.
  intros Hlen.
  destruct (AssembleCoeffcientVector_rows number_of_layers solution_parameters
              source_terms solver_parameters e1 e2 e3 e4 C_upwelling
              C_downwelling R_sfc f_0 start up_start down_start layers
              at_e1 at_e2 at_e3 at_e4 at_R_sfc at_f_0 at_up at_down
              cover1 cover2 cover3 cover4 cover_up cover_down
              start_up start_down coeffcient_vector Hlen)
    as (b & E & Odd & Even & _).
  exists b. auto.
Qed.

(** X21.  With two layers or more, row [2N - 2] of the right-hand side is
    written by no statement: it holds what the vector passed in held. *)
Theorem AssembleCoeffcientVector_row_before_last_kept
    (coeffcient_vector : list T) :
  2 <= number_of_layers ->
  Z.of_nat (length coeffcient_vector) = 2 * number_of_layers ->
  exists b,
    AssembleCoeffcientVector start number_of_layers solution_parameters
      source_terms solver_parameters coeffcient_vector = Ok b
    /\ b !! Z.to_nat (2 * number_of_layers - 2)
       = coeffcient_vector !! Z.to_nat (2 * number_of_layers - 2).
Proof.
  intros Hn Hlen.
  destruct (AssembleCoeffcientVector_rows number_of_layers solution_parameters
              source_terms solver_parameters e1 e2 e3 e4 C_upwelling
              C_downwelling R_sfc f_0 start up_start down_start layers
              at_e1 at_e2 at_e3 at_e4 at_R_sfc at_f_0 at_up at_down
              cover1 cover2 cover3 cover4 cover_up cover_down
              start_up start_down coeffcient_vector Hlen)
    as (b & E & _ & _ & Same).
  exists b. auto.
Qed.
End VectorEntries.

(** ** The statements at concrete inputs *)

Lemma two_column_derivation_cover :
  derivation_inputs_cover two_column_state two_column_gammas two_angles.
Proof.
  unfold derivation_inputs_cover, two_column_gammas.
  split; [simpl; lia|]. split; [simpl; lia|].
  split; [eexists; split; [apply gamma_map_lookup | simpl; lia]|].
  split; [eexists; split; [apply gamma_map_lookup | simpl; lia]|].
  split; [eexists; split; [apply gamma_map_lookup | simpl; lia]|].
  split; [eexists; apply gamma_map_lookup|].
  eexists; split; [apply gamma_map_lookup | simpl; lia].
Qed.

Lemma two_column_grids_agree : grids_agree two_column_grids (length two_angles).
Proof.
  exists {| NumberOfColumns := 2 |}, {| NumberOfColumns := 1 |}.
  repeat split; vm_compute; reflexivity.
Qed.

Lemma no_column_grids_agree : grids_agree no_column_grids 0.
Proof.
  exists {| NumberOfColumns := 0 |}, {| NumberOfColumns := 1 |}.
  repeat split; vm_compute; reflexivity.
Qed.

Lemma two_column_initialization_cover :
  initialization_inputs_cover two_angles two_column_grids two_column_parameters
    two_column_sources two_column_state.
Proof.
  unfold initialization_inputs_cover, two_column_parameters, two_column_sources.
  split; [apply two_column_grids_agree|].
  split; [unfold state_covers; simpl; lia|].
  split.
  { intros key Hin _. unfold solution_keys in Hin.
    repeat (apply elem_of_cons in Hin as [->|Hin];
            [eexists; split; [apply parameter_map_lookup | simpl; lia]|]).
    now apply elem_of_nil in Hin. }
  split; [eexists; apply parameter_map_lookup|].
  intros key Hin. unfold source_keys in Hin.
  repeat (apply elem_of_cons in Hin as [->|Hin];
          [eexists; split; [apply source_map_lookup | simpl; lia]|]).
  now apply elem_of_nil in Hin.
Qed.

Lemma DeltaEddingtonApproximation_completes_iff_witness :
  exists p,
    DeltaEddingtonApproximation two_column_state two_column_gammas two_angles
    = Ok p.
Proof.
  apply (proj2 (DeltaEddingtonApproximation_completes_iff two_column_state
                  two_column_gammas two_angles)).
  apply two_column_derivation_cover.
Defined.

Lemma DeltaEddingtonApproximation_columns_witness :
  exists p gamma1' gamma2' gamma3',
    DeltaEddingtonApproximation two_column_state two_column_gammas two_angles
    = Ok p
    /\ p !! "gamma1" = Some gamma1'
    /\ p !! "gamma2" = Some gamma2'
    /\ p !! "gamma3" = Some gamma3'
    /\ prefix_written (length two_angles)
         (stored_gamma1 (optical_depth_ two_column_state)
            (single_scattering_albedo_ two_column_state))
         [0; 0]%R gamma1'
    /\ prefix_written (length two_angles)
         (stored_gamma2 (optical_depth_ two_column_state)
            (single_scattering_albedo_ two_column_state))
         [0; 0]%R gamma2'
    /\ prefix_written (length two_angles)
         (stored_gamma3 (single_scattering_albedo_ two_column_state) two_angles)
         [0; 0]%R gamma3'.
Proof.
  apply DeltaEddingtonApproximation_columns.
  - apply two_column_derivation_cover.
  - apply gamma_map_lookup.
  - apply gamma_map_lookup.
  - apply gamma_map_lookup.
Defined.

Lemma DeltaEddingtonApproximation_mu_overwritten_witness :
  exists p,
    DeltaEddingtonApproximation two_column_state two_column_gammas two_angles
    = Ok p
    /\ p !! "mu" = Some (replicate (length [0; 0]%R) one_half).
Proof.
  apply DeltaEddingtonApproximation_mu_overwritten.
  - apply two_column_derivation_cover.
  - apply gamma_map_lookup.
  - discriminate.
Defined.

Lemma DeltaEddingtonApproximation_other_keys_kept_witness :
  exists p,
    DeltaEddingtonApproximation two_column_state two_column_gammas two_angles
    = Ok p
    /\ p !! "gamma4" = two_column_gammas !! "gamma4"
    /\ forall key : string,
         key ∉ ["gamma1"; "gamma2"; "gamma3"; "mu"] ->
         p !! key = two_column_gammas !! key.
Proof.
  apply DeltaEddingtonApproximation_other_keys_kept.
  apply two_column_derivation_cover.
Defined.

Lemma DeltaEddingtonApproximation_missing_key_witness :
  DeltaEddingtonApproximation two_column_state
    (delete "gamma4" two_column_gammas) two_angles
  = Fault OutOfRange.
Proof.
  apply (DeltaEddingtonApproximation_missing_key two_column_state
           (delete "gamma4" two_column_gammas) two_angles "gamma4").
  - repeat constructor.
  - apply lookup_delete_eq.
Defined.

Lemma DeltaEddingtonApproximation_no_columns_witness :
  DeltaEddingtonApproximation two_column_state two_column_gammas []
  = Ok two_column_gammas.
Proof.
  apply DeltaEddingtonApproximation_no_columns.
  intros key Hin.
  repeat (apply elem_of_cons in Hin as [->|Hin];
          [eexists; apply gamma_map_lookup|]).
  now apply elem_of_nil in Hin.
Defined.

Lemma InitializeVariables_completes_iff_witness :
  exists out,
    InitializeVariables two_angles two_column_grids (∅ : gmap string unit) ∅
      two_column_parameters two_column_sources two_column_state = Ok out.
Proof.
  apply (proj2 (InitializeVariables_completes_iff two_angles two_column_grids
                  (∅ : gmap string unit) ∅ two_column_parameters
                  two_column_sources two_column_state)).
  apply two_column_initialization_cover.
Defined.

Lemma InitializeVariables_rejects_grids_witness :
  InitializeVariables two_angles example_grids (∅ : gmap string unit) ∅
    two_column_parameters two_column_sources two_column_state
  = Fault AssertFailed.
Proof.
  apply (InitializeVariables_rejects_grids two_angles example_grids
           (∅ : gmap string unit) ∅ two_column_parameters two_column_sources
           two_column_state).
  intros (vertical_grid & wavelength_grid & E1 & _ & N1 & _).
  vm_compute in E1. injection E1 as <-. simpl in N1. lia.
Defined.

Lemma InitializeVariables_missing_key_witness :
  InitializeVariables two_angles two_column_grids (∅ : gmap string unit) ∅
    (delete "lambda" two_column_parameters) two_column_sources two_column_state
  = Fault OutOfRange.
Proof.
  apply (InitializeVariables_missing_key two_angles two_column_grids
           (∅ : gmap string unit) ∅ (delete "lambda" two_column_parameters)
           two_column_sources two_column_state "lambda").
  - apply two_column_grids_agree.
  - simpl. lia.
  - simpl. lia.
  - left. split; [unfold solution_keys; repeat constructor | apply lookup_delete_eq].
Defined.

Lemma InitializeVariables_no_columns_witness :
  InitializeVariables [] no_column_grids (∅ : gmap string unit) ∅
    two_column_parameters two_column_sources two_column_state
  = Ok {| radiator_states := two_column_state;
          parameters := two_column_parameters;
          sources := two_column_sources |}.
Proof.
  apply InitializeVariables_no_columns.
  - apply no_column_grids_agree.
  - intros key Hin. unfold solution_keys in Hin.
    repeat (apply elem_of_cons in Hin as [->|Hin];
            [eexists; apply parameter_map_lookup|]).
    now apply elem_of_nil in Hin.
  - intros key Hin. unfold source_keys in Hin.
    repeat (apply elem_of_cons in Hin as [->|Hin];
            [eexists; apply source_map_lookup|]).
    now apply elem_of_nil in Hin.
Defined.

Lemma InitializeVariables_delta_scaling_witness :
  exists out,
    InitializeVariables two_angles two_column_grids (∅ : gmap string unit) ∅
      two_column_parameters two_column_sources two_column_state = Ok out
    /\ optical_depth_ (radiator_states out) = optical_depth_ two_column_state
    /\ prefix_written (length two_angles)
         (stored_scaled_albedo (single_scattering_albedo_ two_column_state)
            (assymetry_parameter_ two_column_state))
         (single_scattering_albedo_ two_column_state)
         (single_scattering_albedo_ (radiator_states out))
    /\ prefix_written (length two_angles)
         (stored_scaled_asymmetry (single_scattering_albedo_ two_column_state)
            (assymetry_parameter_ two_column_state))
         (assymetry_parameter_ two_column_state)
         (assymetry_parameter_ (radiator_states out)).
Proof.
  apply InitializeVariables_delta_scaling.
  apply two_column_initialization_cover.
Defined.

Lemma InitializeVariables_source_fluxes_witness :
  exists out infrared' solar',
    InitializeVariables two_angles two_column_grids (∅ : gmap string unit) ∅
      two_column_parameters two_column_sources two_column_state = Ok out
    /\ parameters out !! "infrared source flux" = Some infrared'
    /\ parameters out !! "solar source flux" = Some solar'
    /\ prefix_written (length two_angles)
         (stored_infrared_source_flux two_angles
            (optical_depth_ two_column_state) [1; 1]%R)
         [0; 0]%R infrared'
    /\ prefix_written (length two_angles)
         (stored_solar_source_flux [1; 1]%R) [0; 0]%R solar'.
Proof.
  apply InitializeVariables_source_fluxes.
  - apply two_column_initialization_cover.
  - apply parameter_map_lookup.
  - apply parameter_map_lookup.
  - apply parameter_map_lookup.
Defined.

Lemma InitializeVariables_source_terms_witness :
  exists out C_downwelling' C_upwelling',
    InitializeVariables two_angles two_column_grids (∅ : gmap string unit) ∅
      two_column_parameters two_column_sources two_column_state = Ok out
    /\ sources out !! "C_downwelling" = Some C_downwelling'
    /\ sources out !! "C_upwelling" = Some C_upwelling'
    /\ prefix_written (length two_angles)
         (stored_C_downwelling two_angles (optical_depth_ two_column_state)
            (single_scattering_albedo_ (radiator_states out))
            [1; 1] [1; 2] [0; 1] [1 / 2; 1 / 4] [1 / 2; 3 / 4])%R
         [0; 0]%R C_downwelling'
    /\ prefix_written (length two_angles)
         (stored_C_upwelling two_angles (optical_depth_ two_column_state)
            (single_scattering_albedo_ (radiator_states out))
            [1; 1] [1; 2] [0; 1] [1 / 2; 1 / 4] [1 / 2; 3 / 4])%R
         [0; 0]%R C_upwelling'.
Proof.
  apply InitializeVariables_source_terms.
  - apply two_column_initialization_cover.
  - apply parameter_map_lookup.
  - apply parameter_map_lookup.
  - apply parameter_map_lookup.
  - apply parameter_map_lookup.
  - apply parameter_map_lookup.
  - apply source_map_lookup.
  - apply source_map_lookup.
Defined.

Lemma InitializeVariables_other_keys_kept_witness :
  exists out,
    InitializeVariables two_angles two_column_grids (∅ : gmap string unit) ∅
      two_column_parameters two_column_sources two_column_state = Ok out
    /\ (forall key : string,
          key ∉ ["infrared source flux"; "solar source flux"] ->
          parameters out !! key = two_column_parameters !! key)
    /\ (forall key : string,
          key ∉ ["C_downwelling"; "C_upwelling"] ->
          sources out !! key = two_column_sources !! key).
Proof.
  apply InitializeVariables_other_keys_kept.
  apply two_column_initialization_cover.
Defined.

Lemma AssembleTridiagonalMatrix_interior_rows_witness :
  exists m,
    AssembleTridiagonalMatrix 3 three_layer_parameters
      example_solver_parameters six_row_matrix = Ok m
    /\ (forall q : nat, 2 * Z.of_nat q + 1 < 2 * 3 - 1 ->
          is_odd_row [2; 3; 5; 7; 11; 13]%Q [17; 19; 23; 29; 31; 37]%Q
            [41; 43; 47; 53; 59; 61]%Q [67; 71; 73; 79; 83; 89]%Q m (2 * q + 1))
    /\ (forall q : nat, (1 <= q)%nat -> 2 * Z.of_nat q < 2 * 3 - 2 ->
          is_even_row [2; 3; 5; 7; 11; 13]%Q [17; 19; 23; 29; 31; 37]%Q
            [41; 43; 47; 53; 59; 61]%Q [67; 71; 73; 79; 83; 89]%Q m (2 * q)).
Proof.
  apply (AssembleTridiagonalMatrix_interior_rows 3 three_layer_parameters
           example_solver_parameters
           [2; 3; 5; 7; 11; 13]%Q [17; 19; 23; 29; 31; 37]%Q
           [41; 43; 47; 53; 59; 61]%Q [67; 71; 73; 79; 83; 89]%Q (1 # 10)%Q);
    try (vm_compute; reflexivity);
    unfold layer_count, covers_rows, has_rows, SIZE_MAX; simpl; lia.
Defined.

Lemma AssembleTridiagonalMatrix_row_before_last_kept_witness :
  exists m,
    AssembleTridiagonalMatrix 3 three_layer_parameters
      example_solver_parameters six_row_matrix = Ok m
    /\ same_row six_row_matrix m (Z.to_nat (2 * 3 - 2)).
Proof.
  apply (AssembleTridiagonalMatrix_row_before_last_kept 3 three_layer_parameters
           example_solver_parameters
           [2; 3; 5; 7; 11; 13]%Q [17; 19; 23; 29; 31; 37]%Q
           [41; 43; 47; 53; 59; 61]%Q [67; 71; 73; 79; 83; 89]%Q (1 # 10)%Q);
    try (vm_compute; reflexivity);
    unfold layer_count, covers_rows, has_rows, SIZE_MAX; simpl; lia.
Defined.

Lemma AssembleTridiagonalMatrix_missing_key_witness :
  AssembleTridiagonalMatrix 3 three_layer_parameters
    (delete "Surface Reflectivity" example_solver_parameters) six_row_matrix
  = Fault OutOfRange.
Proof.
  apply (AssembleTridiagonalMatrix_missing_key 3 three_layer_parameters
           (delete "Surface Reflectivity" example_solver_parameters)
           six_row_matrix "Surface Reflectivity").
  right. split; [reflexivity | apply lookup_delete_eq].
Defined.

Lemma three_layer_keys_present :
  assembly_keys_present three_layer_parameters example_solver_parameters.
Proof.
  split.
  - intros key Hin.
    repeat (apply elem_of_cons in Hin as [->|Hin];
            [eexists; vm_compute; reflexivity|]).
    now apply elem_of_nil in Hin.
  - eexists. vm_compute. reflexivity.
Qed.

Lemma AssembleTridiagonalMatrix_empty_diagonal_witness :
  AssembleTridiagonalMatrix 3 three_layer_parameters example_solver_parameters
    (TridiagonalMatrix_new 0 9%Q)
  = Fault Undefined.
Proof.
  apply AssembleTridiagonalMatrix_empty_diagonal.
  - apply three_layer_keys_present.
  - left. reflexivity.
Defined.

Lemma AssembleTridiagonalMatrix_short_system_witness :
  AssembleTridiagonalMatrix 3 three_layer_parameters example_solver_parameters
    (fst (Solve_system_variables [0; 0; 0]%Q))
  = Fault Undefined.
Proof.
  apply AssembleTridiagonalMatrix_short_system.
  - apply three_layer_keys_present.
  - vm_compute. reflexivity.
Defined.

Lemma AssembleCoeffcientVector_interior_rows_witness :
  exists b,
    AssembleCoeffcientVector front 3 three_layer_parameters three_layer_sources
      example_solver_parameters six_row_vector = Ok b
    /\ (forall q : nat, 2 * Z.of_nat q + 1 < 2 * 3 - 1 ->
          b !! (2 * q + 1)%nat
          = odd_row_rhs [2; 3; 5; 7; 11; 13]%Q [41; 43; 47; 53; 59; 61]%Q
              [1 # 2; 1 # 3; 1 # 4; 1 # 5; 1 # 6; 1 # 7]%Q
              [1 # 8; 1 # 9; 1 # 10; 1 # 11; 1 # 12; 1 # 13]%Q
              (1 # 2)%Q (1 # 8)%Q (2 * q + 1))
    /\ (forall q : nat, (1 <= q)%nat -> 2 * Z.of_nat q < 2 * 3 - 2 ->
          b !! (2 * q)%nat
          = even_row_rhs [17; 19; 23; 29; 31; 37]%Q [67; 71; 73; 79; 83; 89]%Q
              [1 # 2; 1 # 3; 1 # 4; 1 # 5; 1 # 6; 1 # 7]%Q
              [1 # 8; 1 # 9; 1 # 10; 1 # 11; 1 # 12; 1 # 13]%Q
              (1 # 2)%Q (1 # 8)%Q (2 * q)).
Proof.
  apply (AssembleCoeffcientVector_interior_rows 3 three_layer_parameters
           three_layer_sources example_solver_parameters
           [2; 3; 5; 7; 11; 13]%Q [17; 19; 23; 29; 31; 37]%Q
           [41; 43; 47; 53; 59; 61]%Q [67; 71; 73; 79; 83; 89]%Q
           [1 # 2; 1 # 3; 1 # 4; 1 # 5; 1 # 6; 1 # 7]%Q
           [1 # 8; 1 # 9; 1 # 10; 1 # 11; 1 # 12; 1 # 13]%Q
           (1 # 10)%Q 1%Q front (1 # 2)%Q (1 # 8)%Q);
    try (vm_compute; reflexivity);
    unfold layer_count, covers_rows, SIZE_MAX; simpl; lia.
Defined.

Lemma AssembleCoeffcientVector_row_before_last_kept_witness :
  exists b,
    AssembleCoeffcientVector front 3 three_layer_parameters three_layer_sources
      example_solver_parameters six_row_vector = Ok b
    /\ b !! Z.to_nat (2 * 3 - 2) = six_row_vector !! Z.to_nat (2 * 3 - 2).
Proof.
  apply (AssembleCoeffcientVector_row_before_last_kept 3 three_layer_parameters
           three_layer_sources example_solver_parameters
           [2; 3; 5; 7; 11; 13]%Q [17; 19; 23; 29; 31; 37]%Q
           [41; 43; 47; 53; 59; 61]%Q [67; 71; 73; 79; 83; 89]%Q
           [1 # 2; 1 # 3; 1 # 4; 1 # 5; 1 # 6; 1 # 7]%Q
           [1 # 8; 1 # 9; 1 # 10; 1 # 11; 1 # 12; 1 # 13]%Q
           (1 # 10)%Q 1%Q front (1 # 2)%Q (1 # 8)%Q);
    try (vm_compute; reflexivity);
    unfold layer_count, covers_rows, SIZE_MAX; simpl; lia.
Defined.

Lemma AssembleCoeffcientVector_missing_key_witness :
  AssembleCoeffcientVector front 3 three_layer_parameters
    (delete "C_upwelling" three_layer_sources) example_solver_parameters
    six_row_vector
  = Fault OutOfRange.
Proof.
  apply (AssembleCoeffcientVector_missing_key front 3 three_layer_parameters
           (delete "C_upwelling" three_layer_sources) example_solver_parameters
           six_row_vector "C_upwelling").
  right. right. split; [repeat constructor | apply lookup_delete_eq].
Defined.

Lemma AssembleCoeffcientVector_empty_vector_witness :
  AssembleCoeffcientVector front 3 three_layer_parameters three_layer_sources
    example_solver_parameters []
  = Fault Undefined.
Proof.
  apply AssembleCoeffcientVector_empty_vector.
  - apply three_layer_keys_present.
  - eexists. vm_compute. reflexivity.
  - eexists. vm_compute. reflexivity.
  - eexists. vm_compute. reflexivity.
Defined.

Lemma ComputeRadiationField_completes_iff_witness :
  exists f',
    ComputeRadiationField [0%Q] example_grids (∅ : gmap string unit) []
      example_field' = Ok f'.
Proof.
  apply (proj2 (ComputeRadiationField_completes_iff [0%Q] example_grids
                  (∅ : gmap string unit) [] example_field')).
  unfold counters_fit, INT_MAX. simpl. lia.
Defined.

Lemma ComputeRadiationField_idempotent_witness :
  ComputeRadiationField [1%Q] (∅ : gmap string Grid) (∅ : gmap string unit) []
    (placeholder_field example_field') = Ok (placeholder_field example_field')
  /\ same_lengths (spectral_irradiance_ example_field')
       (spectral_irradiance_ (placeholder_field example_field'))
  /\ same_lengths (actinic_flux_ example_field')
       (actinic_flux_ (placeholder_field example_field')).
Proof.
  apply (ComputeRadiationField_idempotent [0%Q] [1%Q] example_grids
           (∅ : gmap string Grid) (∅ : gmap string unit) (∅ : gmap string unit)
           [] [] example_field' (placeholder_field example_field')).
  vm_compute. reflexivity.
Defined.
